(** * Collabers: application, collaboration and conversation pages

    A shallow embedding of the React pages of the Collabers front end
    (ProjectDetailPage, ProjectApplicationsPage, MyApplicationsPage,
    MyCollaborationsPage, ConversationPage) and of the API client they
    call.  A component is a record of its [useState] cells; an event
    handler is a program in a small free monad over the requests the page
    can make (API calls, [confirm], [alert], [navigate],
    [console.error]); what a page renders is a boolean function saying
    which controls are live. *)

From Stdlib Require Import ZArith NArith List String Ascii Bool Lia PeanoNat.
Import ListNotations.

Set Implicit Arguments.

(* ===================================================================== *)
(** ** JavaScript strings *)
(* ===================================================================== *)

Module Js.

(** A JavaScript string is a sequence of UTF-16 code units; [.length]
    counts code units. *)
Definition code_unit := N.
Definition str := list code_unit.

(** String literals of the source. *)
Definition lit (s : string) : str := map N_of_ascii (list_ascii_of_string s).

(** [a === b] on strings. *)
Fixpoint eqb (a b : str) : bool :=
  match a, b with
  | [], [] => true
  | x :: a', y :: b' => N.eqb x y && eqb a' b'
  | _, _ => false
  end.

(** Truthiness of a string: every string but the empty one. *)
Definition truthy (s : str) : bool :=
  match s with [] => false | _ :: _ => true end.

(** WhiteSpace and LineTerminator code points of ECMAScript, the ones
    [String.prototype.trim] strips: TAB, LF, VT, FF, CR, SP, NBSP,
    U+1680, U+2000..U+200A, U+2028, U+2029, U+202F, U+205F, U+3000 and
    U+FEFF. *)
Definition is_space (c : code_unit) : bool :=
  ((9 <=? c) && (c <=? 13) || (c =? 32) || (c =? 160) || (c =? 5760)
   || (8192 <=? c) && (c <=? 8202) || (c =? 8232) || (c =? 8233)
   || (c =? 8239) || (c =? 8287) || (c =? 12288) || (c =? 65279))%N.

Fixpoint trimStart (s : str) : str :=
  match s with
  | [] => []
  | c :: s' => if is_space c then trimStart s' else s
  end.

Definition trimEnd (s : str) : str := rev (trimStart (rev s)).

Definition trim (s : str) : str := trimEnd (trimStart s).

(** A value caught by [catch (err)]: an [Error] object with its message,
    or anything else. *)
Inductive thrown : Type :=
| ErrorObj (message : str)
| NonError.

(** [err instanceof Error ? err.message : fallback] *)
Definition message_or (e : thrown) (fallback : str) : str :=
  match e with
  | ErrorObj m => m
  | NonError => fallback
  end.

(** What awaiting a promise gives: its value, or a thrown rejection. *)
Inductive result (A : Type) : Type :=
| Ok (a : A)
| Throw (e : thrown).
Arguments Ok {A} a.
Arguments Throw {A} e.

End Js.

Import Js.

(* ===================================================================== *)
(** ** Wire types (types.ts)

    Only the fields that a handler or a render guard reads are kept;
    display-only fields (titles, dates, nested profiles) are left out. *)
(* ===================================================================== *)

Record User : Type := { user_id : Z }.

Record Project : Type := {
  project_id : Z;
  creator_id : Z;
  project_status : str;
  (* [string[]] in types.ts; the pages guard against a missing value. *)
  roles_needed : option (list str)
}.

Record Application : Type := {
  application_id : Z;
  application_project_id : Z;
  applicant_id : Z;
  cover_letter : option str;
  proposed_role : option str;
  application_status : str
}.

Record Collaboration : Type := {
  collaboration_id : Z;
  collaboration_project_id : Z;
  collaboration_user_id : Z;
  collaboration_role : str;
  collaboration_status : str
}.

Record Message : Type := {
  message_id : Z;
  message_sender_id : Z;
  message_content : str
}.

Record Conversation : Type := {
  conversation_id : Z;
  conversation_type : str;
  conversation_messages : option (list Message)
}.

(* ===================================================================== *)
(** ** Requests and handler programs *)
(* ===================================================================== *)

(** A route parameter from [useParams]: possibly undefined. *)
Definition route_param := option str.

(** [!id] on a route parameter. *)
Definition param_missing (id : route_param) : bool :=
  match id with
  | None => true
  | Some s => negb (truthy s)
  end.

(** Everything a handler can ask of the outside world.  The API calls are
    those of api/client.ts; a numeric argument written [Number(id)] or
    [parseInt(id)] in the source is carried as the route parameter it is
    computed from. *)
Inductive req : Type :=
| GetProject (id : str)
| CreateApplication (project : Z) (role cover : str)
| GetMyApplications
| GetProjectApplications (projectId : route_param)
| UpdateApplication (id : Z) (status : str)
| GetMyCollaborations
| LeaveCollaboration (id : Z)
| GetConversation (id : route_param)
| MarkAsRead (id : route_param)
| SendMessage (id : route_param) (content : str)
| Confirm (question : str)
| Alert (text : str)
| Navigate (path : str)
| ConsoleError (text : str) (e : thrown).

(** What each request answers.  API calls may throw ([fetchWithAuth]
    throws on a non-OK response); the browser dialogs do not. *)
Definition resp (r : req) : Type :=
  match r with
  | GetProject _ => result Project
  | CreateApplication _ _ _ => result Application
  | GetMyApplications => result (list Application)
  | GetProjectApplications _ => result (list Application)
  | UpdateApplication _ _ => result Application
  | GetMyCollaborations => result (list Collaboration)
  | LeaveCollaboration _ => result unit
  | GetConversation _ => result Conversation
  | MarkAsRead _ => result unit
  | SendMessage _ _ => result Message
  | Confirm _ => bool
  | Alert _ => unit
  | Navigate _ => unit
  | ConsoleError _ _ => unit
  end.

(** An async handler: it ends in a component state, or makes a request
    and goes on with the answer. *)
Inductive act (S : Type) : Type :=
| Done (s : S)
| Do (r : req) (k : resp r -> act S).
Arguments Done {S} s.
Arguments Do {S} r k.

(** [issues a r]: along some answers of the world, [a] makes request [r]. *)
Fixpoint issues {S : Type} (a : act S) (q : req) : Prop :=
  match a with
  | Done _ => False
  | Do r k => r = q \/ exists x, issues (k x) q
  end.

(** [outcome a s]: for some answers of the world, [a] ends in state [s]. *)
Fixpoint outcome {S : Type} (a : act S) (s : S) : Prop :=
  match a with
  | Done s0 => s0 = s
  | Do r k => exists x, outcome (k x) s
  end.

(** Sequencing: [a], then [f] on the state it ends in. *)
Fixpoint after {S : Type} (a : act S) (f : S -> act S) : act S :=
  match a with
  | Done s => f s
  | Do r k => Do r (fun x => after (k x) f)
  end.

(** A handler that ends in a write, run to the point where the write
    lands on the state [cur]. *)
Fixpoint landing {S : Type} (a : act (S -> S)) (cur : S) : act S :=
  match a with
  | Done write => Done (write cur)
  | Do r k => Do r (fun x => landing (k x) cur)
  end.



(** The outside world as a state [W] with a function answering requests. *)
Definition world (W : Type) := forall r : req, W -> resp r * W.

(** Running a handler against a world: final component state, final world
    state and the requests made, in order. *)
Fixpoint run {S W : Type} (o : world W) (a : act S) (w : W) : S * W * list req :=
  match a with
  | Done s => (s, w, [])
  | Do r k =>
      let '(x, w1) := o r w in
      let '(s, w2, t) := run o (k x) w1 in
      (s, w2, r :: t)
  end.

Definition final_state {S W : Type} (x : S * W * list req) : S := fst (fst x).
Definition final_world {S W : Type} (x : S * W * list req) : W := snd (fst x).
Definition trace {S W : Type} (x : S * W * list req) : list req := snd x.

(** A world that gives each request a fixed answer and counts the
    requests it has served. *)
Definition canned (answer : forall r : req, resp r) : world nat :=
  fun r n => (answer r, S n).

(** A world in which every fetch of the conversation throws. *)
Definition fetch_always_fails {W : Type} (o : world W) (id : route_param) : Prop :=
  forall w, exists e w', o (GetConversation id) w = (Throw e, w').

(* ===================================================================== *)
(** ** ProjectDetailPage.tsx *)
(* ===================================================================== *)

Module ProjectDetailPage.

Record state : Type := {
  project : option Project;
  loading : bool;
  error : str;
  showApplyModal : bool;
  selectedRole : str;
  coverMessage : str;
  applying : bool;
  applyError : str
}.

(** The [useState] initial values. *)
Definition init : state :=
  {| project := None; loading := true; error := [];
     showApplyModal := false; selectedRole := []; coverMessage := [];
     applying := false; applyError := [] |}.

Definition setProject (v : option Project) (s : state) : state :=
  {| project := v; loading := loading s; error := error s;
     showApplyModal := showApplyModal s; selectedRole := selectedRole s;
     coverMessage := coverMessage s; applying := applying s;
     applyError := applyError s |}.

Definition setLoading (v : bool) (s : state) : state :=
  {| project := project s; loading := v; error := error s;
     showApplyModal := showApplyModal s; selectedRole := selectedRole s;
     coverMessage := coverMessage s; applying := applying s;
     applyError := applyError s |}.

Definition setError (v : str) (s : state) : state :=
  {| project := project s; loading := loading s; error := v;
     showApplyModal := showApplyModal s; selectedRole := selectedRole s;
     coverMessage := coverMessage s; applying := applying s;
     applyError := applyError s |}.

Definition setShowApplyModal (v : bool) (s : state) : state :=
  {| project := project s; loading := loading s; error := error s;
     showApplyModal := v; selectedRole := selectedRole s;
     coverMessage := coverMessage s; applying := applying s;
     applyError := applyError s |}.

Definition setSelectedRole (v : str) (s : state) : state :=
  {| project := project s; loading := loading s; error := error s;
     showApplyModal := showApplyModal s; selectedRole := v;
     coverMessage := coverMessage s; applying := applying s;
     applyError := applyError s |}.

Definition setCoverMessage (v : str) (s : state) : state :=
  {| project := project s; loading := loading s; error := error s;
     showApplyModal := showApplyModal s; selectedRole := selectedRole s;
     coverMessage := v; applying := applying s;
     applyError := applyError s |}.

Definition setApplying (v : bool) (s : state) : state :=
  {| project := project s; loading := loading s; error := error s;
     showApplyModal := showApplyModal s; selectedRole := selectedRole s;
     coverMessage := coverMessage s; applying := v;
     applyError := applyError s |}.

Definition setApplyError (v : str) (s : state) : state :=
  {| project := project s; loading := loading s; error := error s;
     showApplyModal := showApplyModal s; selectedRole := selectedRole s;
     coverMessage := coverMessage s; applying := applying s;
     applyError := v |}.

(** [project.roles_needed?.map(...)]: the roles listed, none when the
    field is missing. *)
Definition roles_of (p : Project) : list str :=
  match roles_needed p with
  | Some rs => rs
  | None => []
  end.

Definition cover_too_short_message : str :=
  lit "Cover message must be at least 50 characters".

Section Page.

(** The route parameter [id] and the signed-in user of [useAuth]. *)
Variable id : route_param.
Variable user : option User.

(** The effect run on mount: load the project, preselect its first role. *)
Definition fetchProject (st : state) : act state :=
  if param_missing id then Done st
  else
    match id with
    | None => Done st
    | Some i =>
        Do (GetProject i) (fun r =>
          match r with
          | Ok data =>
              let st1 := setProject (Some data) st in
              let st2 :=
                match roles_needed data with
                | Some (r0 :: _) => setSelectedRole r0 st1
                | _ => st1
                end in
              Done (setLoading false st2)
          | Throw e =>
              Done (setLoading false
                      (setError (message_or e (lit "Failed to load project")) st))
          end)
    end.

Definition handleApply (st : state) : act state :=
  match project st with
  | None => Done st
  | Some p =>
      if List.length (coverMessage st) <? 50 then
        Done (setApplyError cover_too_short_message st)
      else
        let st1 := setApplyError [] (setApplying true st) in
        Do (CreateApplication (project_id p) (selectedRole st) (coverMessage st))
           (fun r =>
              match r with
              | Ok _ =>
                  Do (Navigate (lit "/applications")) (fun _ =>
                    Done (setApplying false (setShowApplyModal false st1)))
              | Throw e =>
                  Done (setApplying false
                          (setApplyError (message_or e (lit "Failed to apply")) st1))
              end)
  end.

(** [user?.id === project.creator_id] *)
Definition isCreator (p : Project) : bool :=
  match user with
  | Some u => Z.eqb (user_id u) (creator_id p)
  | None => false
  end.

(** [user && !isCreator && project.status === 'open'], as a truth value. *)
Definition canApply (p : Project) : bool :=
  match user with
  | Some _ => negb (isCreator p) && eqb (project_status p) (lit "open")
  | None => false
  end.

(** Which of the three returns of the component is rendered. *)
Inductive view : Type := Spinner | ProjectNotFound | Details (p : Project).

Definition render (st : state) : view :=
  if loading st then Spinner
  else if truthy (error st) then ProjectNotFound
  else match project st with
       | None => ProjectNotFound
       | Some p => Details p
       end.

(** The error box of the modal: [{applyError && <div>{applyError}</div>}],
    there when the modal is. *)
Definition apply_error_box (st : state) : option str :=
  match render st with
  | Details _ =>
      if showApplyModal st && truthy (applyError st)
      then Some (applyError st) else None
  | _ => None
  end.

(** The controls of the page that change state. *)
Inductive action : Type :=
| ClickApply                 (* "Apply to This Project" *)
| ChooseRole (role : str)    (* the role <select> *)
| EditCover (text : str)     (* the cover message <textarea> *)
| ClickCancel
| ClickSubmit.               (* "Submit Application" *)

(** Whether a control is on the page and enabled. *)
Definition offered (st : state) (a : action) : bool :=
  match render st with
  | Details p =>
      match a with
      | ClickApply => canApply p
      | ChooseRole role => showApplyModal st && existsb (eqb role) (roles_of p)
      | EditCover _ => showApplyModal st
      | ClickCancel => showApplyModal st
      | ClickSubmit =>
          showApplyModal st
          && negb (applying st || (List.length (coverMessage st) <? 50))
      end
  | _ => false
  end.

Definition handle (a : action) (st : state) : act state :=
  match a with
  | ClickApply => Done (setShowApplyModal true st)
  | ChooseRole role => Done (setSelectedRole role st)
  | EditCover text => Done (setCoverMessage text st)
  | ClickCancel => Done (setShowApplyModal false st)
  | ClickSubmit => handleApply st
  end.

End Page.

(** [handleApply] in three parts, for a run during which other writes
    land: what it writes before its request is awaited, and what it
    writes afterwards, on a success and on a throw (the [finally] block
    included).  The later writes land on the state the page is in by
    then. *)
Definition sent (st : state) : state :=
  setApplyError [] (setApplying true st).

Definition applied (st : state) : state :=
  setApplying false (setShowApplyModal false st).

Definition apply_failed (e : thrown) (st : state) : state :=
  setApplying false (setApplyError (message_or e (lit "Failed to apply")) st).

(** The states the mounted page goes through.  The component stays
    mounted when the route changes from one project to another, with all
    its cells as they are, and the effect fetches again: a fetch, for any
    route id, may land on any state.  The user of [useAuth] may change
    between two renders.  A submission in flight leaves the other
    controls live, and its later writes land on whatever state the page
    is in by then. *)
Inductive reachable : state -> Prop :=
| reach_mount : reachable init
| reach_fetch id st st' :
    reachable st -> outcome (fetchProject id st) st' -> reachable st'
| reach_action user st a st' :
    reachable st -> offered user st a = true -> outcome (handle a st) st' ->
    reachable st'
| reach_sent user st :
    reachable st -> offered user st ClickSubmit = true -> reachable (sent st)
| reach_applied st : reachable st -> reachable (applied st)
| reach_apply_failed e st : reachable st -> reachable (apply_failed e st).

(** The same, for a page that stays on the route it was mounted on: the
    one fetch lands on the mount state, no control being live before. *)
Inductive on_one_route (id : route_param) : state -> Prop :=
| one_mount : on_one_route id init
| one_fetch st : outcome (fetchProject id init) st -> on_one_route id st
| one_action user st a st' :
    on_one_route id st -> offered user st a = true ->
    outcome (handle a st) st' -> on_one_route id st'
| one_sent user st :
    on_one_route id st -> offered user st ClickSubmit = true ->
    on_one_route id (sent st)
| one_applied st : on_one_route id st -> on_one_route id (applied st)
| one_apply_failed e st :
    on_one_route id st -> on_one_route id (apply_failed e st).

(** When the loaded project declares roles, the selected role is one of
    them. *)
Definition role_declared (st : state) : Prop :=
  forall p, project st = Some p -> roles_of p <> [] ->
            In (selectedRole st) (roles_of p).

(** The selected role is one of the loaded project's roles, or the empty
    string when there is none to choose from. *)
Definition role_chosen_from_project (st : state) : Prop :=
  match project st with
  | None => selectedRole st = []
  | Some p =>
      match roles_of p with
      | [] => selectedRole st = []
      | _ :: _ => In (selectedRole st) (roles_of p)
      end
  end.

End ProjectDetailPage.

(* ===================================================================== *)
(** ** ProjectApplicationsPage (CreateProjectPage.tsx, second component) *)
(* ===================================================================== *)

Module ProjectApplicationsPage.

Record state : Type := {
  applications : list Application;
  loading : bool;
  error : str;
  processingId : option Z
}.

Definition init : state :=
  {| applications := []; loading := true; error := []; processingId := None |}.

Definition setApplications (v : list Application) (s : state) : state :=
  {| applications := v; loading := loading s; error := error s;
     processingId := processingId s |}.

Definition setLoading (v : bool) (s : state) : state :=
  {| applications := applications s; loading := v; error := error s;
     processingId := processingId s |}.

Definition setError (v : str) (s : state) : state :=
  {| applications := applications s; loading := loading s; error := v;
     processingId := processingId s |}.

Definition setProcessingId (v : option Z) (s : state) : state :=
  {| applications := applications s; loading := loading s; error := error s;
     processingId := v |}.

(** The [status] argument of [handleUpdateStatus]:
    ['accepted' | 'rejected' | 'under_review']. *)
Inductive review : Type := accepted | rejected | under_review.

Definition review_string (r : review) : str :=
  match r with
  | accepted => lit "accepted"
  | rejected => lit "rejected"
  | under_review => lit "under_review"
  end.

Definition fetchApplications (projectId : route_param) (st : state) : act state :=
  Do (GetProjectApplications projectId) (fun r =>
    match r with
    | Ok data => Done (setLoading false (setApplications data st))
    | Throw e =>
        Done (setLoading false
                (setError (message_or e (lit "Failed to load applications")) st))
    end).

Definition handleUpdateStatus (id : Z) (status : review) (st : state) : act state :=
  let st1 := setProcessingId (Some id) st in
  Do (UpdateApplication id (review_string status)) (fun r =>
    match r with
    | Ok updated =>
        Done (setProcessingId None
                (setApplications
                   (map (fun app => if Z.eqb (application_id app) id
                                    then updated else app)
                        (applications st1))
                   st1))
    | Throw e =>
        Do (Alert (message_or e (lit "Failed to update application"))) (fun _ =>
          Done (setProcessingId None st1))
    end).

(** The two filters of the render. *)
Definition in_pendingApps (a : Application) : bool :=
  eqb (application_status a) (lit "pending")
  || eqb (application_status a) (lit "under_review").

Definition in_decidedApps (a : Application) : bool :=
  eqb (application_status a) (lit "accepted")
  || eqb (application_status a) (lit "rejected")
  || eqb (application_status a) (lit "withdrawn").

(** [processingId === application.id] *)
Definition is_processing (st : state) (a : Application) : bool :=
  match processingId st with
  | Some i => Z.eqb i (application_id a)
  | None => false
  end.

(** The buttons rendered for one application of the list: which targets
    can be asked for it.  Only the cards of [pendingApps] carry buttons;
    "Mark Reviewing" is there for [pending] only; all are disabled while
    the application is being processed. *)
Definition buttons (st : state) (a : Application) : list review :=
  if loading st then []
  else if in_pendingApps a && negb (is_processing st a) then
    [accepted; rejected]
    ++ (if eqb (application_status a) (lit "pending") then [under_review] else [])
  else [].

(** Clicking a button of the [i]-th application. *)
Inductive action : Type := Click (i : nat) (target : review).

Definition review_eqb (a b : review) : bool :=
  match a, b with
  | accepted, accepted | rejected, rejected | under_review, under_review => true
  | _, _ => false
  end.

Definition offered (st : state) (a : action) : bool :=
  match a with
  | Click i target =>
      match nth_error (applications st) i with
      | Some app => existsb (review_eqb target) (buttons st app)
      | None => false
      end
  end.

Definition handle (a : action) (st : state) : act state :=
  match a with
  | Click i target =>
      match nth_error (applications st) i with
      | Some app => handleUpdateStatus (application_id app) target st
      | None => Done st
      end
  end.

End ProjectApplicationsPage.

(* ===================================================================== *)
(** ** MyApplicationsPage (unnamed/part_002) *)
(* ===================================================================== *)

Module MyApplicationsPage.

Record state : Type := {
  applications : list Application;
  loading : bool;
  error : str
}.

Definition init : state :=
  {| applications := []; loading := true; error := [] |}.

Definition setApplications (v : list Application) (s : state) : state :=
  {| applications := v; loading := loading s; error := error s |}.

Definition setLoading (v : bool) (s : state) : state :=
  {| applications := applications s; loading := v; error := error s |}.

Definition setError (v : str) (s : state) : state :=
  {| applications := applications s; loading := loading s; error := v |}.

(** [{ ...app, status }] *)
Definition with_status (status : str) (a : Application) : Application :=
  {| application_id := application_id a;
     application_project_id := application_project_id a;
     applicant_id := applicant_id a;
     cover_letter := cover_letter a;
     proposed_role := proposed_role a;
     application_status := status |}.

Definition fetchApplications (st : state) : act state :=
  Do GetMyApplications (fun r =>
    match r with
    | Ok data => Done (setLoading false (setApplications data st))
    | Throw e =>
        Done (setLoading false
                (setError (message_or e (lit "Failed to load applications")) st))
    end).

Definition handleWithdraw (id : Z) (st : state) : act state :=
  Do (Confirm (lit "Are you sure you want to withdraw this application?"))
     (fun yes =>
        if negb yes then Done st
        else
          Do (UpdateApplication id (lit "withdrawn")) (fun r =>
            match r with
            | Ok _ =>
                Done (setApplications
                        (map (fun app => if Z.eqb (application_id app) id
                                         then with_status (lit "withdrawn") app
                                         else app)
                             (applications st))
                        st)
            | Throw e =>
                Do (Alert (message_or e (lit "Failed to withdraw application")))
                   (fun _ => Done st)
            end)).

(** [application.status === 'pending' && <button>Withdraw</button>] *)
Definition withdraw_button (st : state) (a : Application) : bool :=
  negb (loading st) && eqb (application_status a) (lit "pending").

(** Clicking "Withdraw" on the [i]-th application. *)
Inductive action : Type := ClickWithdraw (i : nat).

Definition offered (st : state) (a : action) : bool :=
  match a with
  | ClickWithdraw i =>
      match nth_error (applications st) i with
      | Some app => withdraw_button st app
      | None => false
      end
  end.

Definition handle (a : action) (st : state) : act state :=
  match a with
  | ClickWithdraw i =>
      match nth_error (applications st) i with
      | Some app => handleWithdraw (application_id app) st
      | None => Done st
      end
  end.

End MyApplicationsPage.

(* ===================================================================== *)
(** ** MyCollaborationsPage (unnamed/part_003, second component) *)
(* ===================================================================== *)

Module MyCollaborationsPage.

Record state : Type := {
  collaborations : list Collaboration;
  loading : bool;
  error : str
}.

Definition init : state :=
  {| collaborations := []; loading := true; error := [] |}.

Definition setCollaborations (v : list Collaboration) (s : state) : state :=
  {| collaborations := v; loading := loading s; error := error s |}.

Definition setLoading (v : bool) (s : state) : state :=
  {| collaborations := collaborations s; loading := v; error := error s |}.

Definition setError (v : str) (s : state) : state :=
  {| collaborations := collaborations s; loading := loading s; error := v |}.

(** [{ ...c, status }] *)
Definition with_status (status : str) (c : Collaboration) : Collaboration :=
  {| collaboration_id := collaboration_id c;
     collaboration_project_id := collaboration_project_id c;
     collaboration_user_id := collaboration_user_id c;
     collaboration_role := collaboration_role c;
     collaboration_status := status |}.

Definition fetchCollaborations (st : state) : act state :=
  Do GetMyCollaborations (fun r =>
    match r with
    | Ok data => Done (setLoading false (setCollaborations data st))
    | Throw e =>
        Done (setLoading false
                (setError (message_or e (lit "Failed to load collaborations")) st))
    end).

Definition handleLeave (id : Z) (st : state) : act state :=
  Do (Confirm (lit "Are you sure you want to leave this collaboration? You may not be able to rejoin."))
     (fun yes =>
        if negb yes then Done st
        else
          Do (LeaveCollaboration id) (fun r =>
            match r with
            | Ok _ =>
                Done (setCollaborations
                        (map (fun c => if Z.eqb (collaboration_id c) id
                                       then with_status (lit "left") c else c)
                             (collaborations st))
                        st)
            | Throw e =>
                Do (Alert (message_or e (lit "Failed to leave collaboration")))
                   (fun _ => Done st)
            end)).

(** [collaborations.filter(c => c.status === 'active')] *)
Definition in_activeCollabs (c : Collaboration) : bool :=
  eqb (collaboration_status c) (lit "active").

(** The "Leave" button: on the cards of [activeCollabs] only, and there
    under [collab.role !== 'creator']. *)
Definition leave_button (st : state) (c : Collaboration) : bool :=
  negb (loading st) && in_activeCollabs c
  && negb (eqb (collaboration_role c) (lit "creator")).

(** Clicking "Leave" on the [i]-th collaboration. *)
Inductive action : Type := ClickLeave (i : nat).

Definition offered (st : state) (a : action) : bool :=
  match a with
  | ClickLeave i =>
      match nth_error (collaborations st) i with
      | Some c => leave_button st c
      | None => false
      end
  end.

Definition handle (a : action) (st : state) : act state :=
  match a with
  | ClickLeave i =>
      match nth_error (collaborations st) i with
      | Some c => handleLeave (collaboration_id c) st
      | None => Done st
      end
  end.

End MyCollaborationsPage.

(* ===================================================================== *)
(** ** ConversationPage.tsx *)
(* ===================================================================== *)

Module ConversationPage.

Record state : Type := {
  conversation : option Conversation;
  messages : list Message;
  loading : bool;
  error : str;
  newMessage : str;
  sending : bool
}.

Definition init : state :=
  {| conversation := None; messages := []; loading := true; error := [];
     newMessage := []; sending := false |}.

Definition setConversation (v : option Conversation) (s : state) : state :=
  {| conversation := v; messages := messages s; loading := loading s;
     error := error s; newMessage := newMessage s; sending := sending s |}.

Definition setMessages (v : list Message) (s : state) : state :=
  {| conversation := conversation s; messages := v; loading := loading s;
     error := error s; newMessage := newMessage s; sending := sending s |}.

Definition setLoading (v : bool) (s : state) : state :=
  {| conversation := conversation s; messages := messages s; loading := v;
     error := error s; newMessage := newMessage s; sending := sending s |}.

Definition setError (v : str) (s : state) : state :=
  {| conversation := conversation s; messages := messages s;
     loading := loading s; error := v; newMessage := newMessage s;
     sending := sending s |}.

Definition setNewMessage (v : str) (s : state) : state :=
  {| conversation := conversation s; messages := messages s;
     loading := loading s; error := error s; newMessage := v;
     sending := sending s |}.

Definition setSending (v : bool) (s : state) : state :=
  {| conversation := conversation s; messages := messages s;
     loading := loading s; error := error s; newMessage := newMessage s;
     sending := v |}.

(** [data.messages || []] *)
Definition messages_or_empty (c : Conversation) : list Message :=
  match conversation_messages c with
  | Some ms => ms
  | None => []
  end.

(** The period given to [setInterval], in milliseconds. *)
Definition poll_interval_ms : N := 3000.

Definition poll_failed_text : str := lit "Failed to poll messages:".

Section Page.

Variable id : route_param.

(** The effect run on mount. *)
Definition fetchConversation (st : state) : act state :=
  Do (GetConversation id) (fun r =>
    match r with
    | Ok data =>
        let st1 := setMessages (messages_or_empty data)
                     (setConversation (Some data) st) in
        Do (MarkAsRead id) (fun r2 =>
          match r2 with
          | Ok _ => Done (setLoading false st1)
          | Throw e =>
              Done (setLoading false
                      (setError (message_or e (lit "Failed to load conversation")) st1))
          end)
    | Throw e =>
        Done (setLoading false
                (setError (message_or e (lit "Failed to load conversation")) st))
    end).

(** The polling effect: under [!id || loading] it installs nothing,
    otherwise an interval of [poll_interval_ms].  Its cleanup clears the
    interval when [id], [loading] or [messages.length] changes, and the
    effect then installs a fresh one. *)
Definition pollEffect (st : state) : option N :=
  if param_missing id || loading st then None else Some poll_interval_ms.

(** The callback of the interval, as built by the render that held
    [held]: its [messages.length] is the length of that render's list,
    whatever the page holds by the time the fetch has been awaited.  The
    callback writes the page once at most, by [setMessages(newMessages)]
    once the fetch has answered and before [markAsRead] is awaited.  The
    write does not read the page, so it is named once, as what the
    callback ends in; it lands on the state the page is in when the
    fetch answers. *)
Definition poll (held : state) : act (state -> state) :=
  Do (GetConversation id) (fun r =>
    match r with
    | Ok data =>
        let newMessages := messages_or_empty data in
        if List.length (messages held) <? List.length newMessages then
          Do (MarkAsRead id) (fun r2 =>
            match r2 with
            | Ok _ => Done (setMessages newMessages)
            | Throw e =>
                Do (ConsoleError poll_failed_text e) (fun _ =>
                  Done (setMessages newMessages))
            end)
        else Done (fun st => st)
    | Throw e => Do (ConsoleError poll_failed_text e) (fun _ => Done (fun st => st))
    end).

(** [!newMessage.trim()] *)
Definition blank (s : str) : bool := negb (truthy (trim s)).

Definition handleSend (st : state) : act state :=
  if blank (newMessage st) || sending st then Done st
  else
    let st1 := setSending true st in
    Do (SendMessage id (trim (newMessage st))) (fun r =>
      match r with
      | Ok message =>
          Done (setSending false
                  (setNewMessage [] (setMessages (messages st1 ++ [message]) st1)))
      | Throw e =>
          Do (Alert (message_or e (lit "Failed to send message"))) (fun _ =>
            Done (setSending false st1))
      end).

Inductive view : Type := Spinner | ErrorBox | Chat.

Definition render (st : state) : view :=
  if loading st then Spinner
  else if truthy (error st) then ErrorBox
  else match conversation st with
       | None => ErrorBox
       | Some _ => Chat
       end.

(** What the user can do on the mounted page: edit the input or submit
    the form. *)
Inductive action : Type :=
| EditMessage (text : str)
| SubmitForm.

Definition offered (st : state) (a : action) : bool :=
  match a with
  | EditMessage _ => match render st with Chat => true | _ => false end
  | SubmitForm =>
      match render st with
      | Chat => negb (blank (newMessage st) || sending st)
      | _ => false
      end
  end.

Definition handle (a : action) (st : state) : act state :=
  match a with
  | EditMessage text => Done (setNewMessage text st)
  | SubmitForm => handleSend st
  end.

(** [n] firings of the interval, one after the other, each answered
    before anything else writes the page: the callback is the one of the
    render of the state it fires in, and its write lands on that state.
    A firing happens only while the effect has an interval installed. *)
Fixpoint ticks (n : nat) (st : state) : act state :=
  match n with
  | O => Done st
  | S n' =>
      match pollEffect st with
      | Some _ => after (landing (poll st) st) (ticks n')
      | None => Done st
      end
  end.

End Page.

(** The requests of a trace that fetch the conversation. *)
Definition is_fetch (r : req) : bool :=
  match r with GetConversation _ => true | _ => false end.

(** The requests of a trace the user sees: dialogs and navigation. *)
Definition is_user_visible (r : req) : bool :=
  match r with
  | Alert _ | Confirm _ | Navigate _ => true
  | _ => false
  end.

End ConversationPage.

(* ===================================================================== *)
(** ** The transition table of spec section 4.1

    The table as the specification words it, over tagged statuses, to be
    compared with what the pages offer. *)
(* ===================================================================== *)

Module Spec41.

Inductive status : Type := pending | under_review | accepted | rejected | withdrawn.

(** Who may cause a transition. *)
Inductive actor : Type := creator | applicant.

(** The status strings of the wire format. *)
Definition status_of_string (s : str) : option status :=
  if eqb s (lit "pending") then Some pending
  else if eqb s (lit "under_review") then Some under_review
  else if eqb s (lit "accepted") then Some accepted
  else if eqb s (lit "rejected") then Some rejected
  else if eqb s (lit "withdrawn") then Some withdrawn
  else None.

(** [pending -> under_review | accepted | rejected] (creator),
    [pending -> withdrawn] (applicant),
    [under_review -> accepted | rejected] (creator),
    [under_review -> withdrawn] (applicant);
    accepted, rejected and withdrawn are terminal. *)
Definition table (from to : status) : option actor :=
  match from, to with
  | pending, (under_review | accepted | rejected) => Some creator
  | pending, withdrawn => Some applicant
  | under_review, (accepted | rejected) => Some creator
  | under_review, withdrawn => Some applicant
  | _, _ => None
  end.

Definition terminal (s : status) : bool :=
  match s with
  | accepted | rejected | withdrawn => true
  | pending | under_review => false
  end.


(** A sequence of statuses each of which follows from the one before by
    the relation [R]. *)
Fixpoint path (R : str -> str -> Prop) (l : list str) : Prop :=
  match l with
  | [] => True
  | s :: l' =>
      match l' with
      | [] => True
      | s' :: _ => R s s' /\ path R l'
      end
  end.


End Spec41.


(* ===================================================================== *)
(** ** ApplicationLedger (spec sections 4.1 to 4.3)

    Modelled from the spec: the back end that owns applications,
    collaborations and conversations is not among the front-end sources;
    its records, its error kinds and the operations [submit],
    [transition], [join] and [ensure] follow the words of the
    specification. *)
(* ===================================================================== *)

Module Ledger.

Import Spec41.

Inductive project_status : Type :=
  draft | open | in_progress | filled | completed | cancelled.

Inductive collaboration_status : Type :=
  active | collaboration_completed | left | removed.

(** The error taxonomy of spec section 7. *)
Inductive error : Type :=
  ValidationError | StateConflict | AuthorizationError | NotFound.

Record project : Type := {
  proj_id : Z;
  proj_creator : Z;
  proj_status : project_status;
  proj_roles : list str
}.

Record application : Type := {
  app_id : Z;
  app_project : Z;
  app_applicant : Z;
  app_role : str;
  app_cover_letter : str;
  app_status : status
}.

Record collaboration : Type := {
  col_id : Z;
  col_project : Z;
  col_user : Z;
  col_role : str;
  col_status : collaboration_status
}.

Record conversation : Type := {
  conv_id : Z;
  conv_project : Z
}.

Inductive event : Type :=
| ApplicationSubmitted (app : Z)
| ApplicationTransitioned (app : Z) (to : status)
| CollaboratorJoined (proj user : Z).

Record t : Type := {
  projects : list project;
  applications : list application;
  collaborations : list collaboration;
  conversations : list conversation;
  events : list event;
  next_id : Z
}.

(** A call fails with one or more error kinds and changes nothing, or
    succeeds with the new state. *)
Inductive outcome : Type :=
| Failed (kinds : list error)
| Succeeded (l : t).

Definition fails_with (o : outcome) (e : error) : Prop :=
  match o with
  | Failed kinds => In e kinds
  | Succeeded _ => False
  end.

Definition find_project (l : t) (id : Z) : option project :=
  find (fun p => Z.eqb (proj_id p) id) (projects l).

Definition find_application (l : t) (id : Z) : option application :=
  find (fun a => Z.eqb (app_id a) id) (applications l).

Definition is_open (s : project_status) : bool :=
  match s with open => true | _ => false end.

Definition is_active (s : collaboration_status) : bool :=
  match s with active => true | _ => false end.

Definition status_eqb (a b : status) : bool :=
  match a, b with
  | pending, pending | under_review, under_review | accepted, accepted
  | rejected, rejected | withdrawn, withdrawn => true
  | _, _ => false
  end.

(** A non-terminal application of this applicant for this project. *)
Definition has_open_application (l : t) (proj user : Z) : bool :=
  existsb (fun a => Z.eqb (app_project a) proj && Z.eqb (app_applicant a) user
                    && negb (terminal (app_status a)))
          (applications l).

Definition has_active_collaboration (l : t) (proj user : Z) : bool :=
  existsb (fun c => Z.eqb (col_project c) proj && Z.eqb (col_user c) user
                    && is_active (col_status c))
          (collaborations l).

Definition when (b : bool) (e : error) : list error := if b then [e] else [].

(** Modelled from the spec: the back end's [submit] is not in the
    repository's front-end sources.  Section 4.1: it fails with
    [ValidationError] if the cover letter is shorter than 50 characters
    or the role is not among the project's declared roles; it fails with
    [StateConflict] if the project is not open, if the applicant is the
    project's creator, or if a non-terminal application already exists
    for the pair; otherwise it creates a [pending] application and emits
    [ApplicationSubmitted].  The spec gives no order between the two
    checks, so a failing call reports every kind that applies. *)
Definition submit (l : t) (proj user : Z) (role cover : str) : outcome :=
  match find_project l proj with
  | None => Failed [NotFound]
  | Some p =>
      let kinds :=
        when ((List.length cover <? 50) || negb (existsb (eqb role) (proj_roles p)))
             ValidationError
        ++ when (negb (is_open (proj_status p)) || Z.eqb user (proj_creator p)
                 || has_open_application l proj user)
                StateConflict in
      match kinds with
      | [] =>
          Succeeded
            {| projects := projects l;
               applications :=
                 applications l
                 ++ [{| app_id := next_id l; app_project := proj;
                        app_applicant := user; app_role := role;
                        app_cover_letter := cover; app_status := pending |}];
               collaborations := collaborations l;
               conversations := conversations l;
               events := events l ++ [ApplicationSubmitted (next_id l)];
               next_id := Z.succ (next_id l) |}
      | _ :: _ => Failed kinds
      end
  end.

(** Modelled from the spec: [CollaborationRegistry.join] of section 4.2.
    It fails with [StateConflict] if an active collaboration already
    exists for the pair; otherwise it adds an [active] collaboration and
    emits [CollaboratorJoined]. *)
Definition join (l : t) (proj user : Z) (role : str) : outcome :=
  if has_active_collaboration l proj user then Failed [StateConflict]
  else
    Succeeded
      {| projects := projects l;
         applications := applications l;
         collaborations :=
           collaborations l
           ++ [{| col_id := next_id l; col_project := proj; col_user := user;
                  col_role := role; col_status := active |}];
         conversations := conversations l;
         events := events l ++ [CollaboratorJoined proj user];
         next_id := Z.succ (next_id l) |}.

(** Modelled from the spec: [ConversationGate.ensure] of section 4.3,
    which returns the project's team conversation or creates it. *)
Definition ensure (l : t) (proj : Z) : t :=
  if existsb (fun c => Z.eqb (conv_project c) proj) (conversations l) then l
  else
    {| projects := projects l;
       applications := applications l;
       collaborations := collaborations l;
       conversations :=
         conversations l ++ [{| conv_id := next_id l; conv_project := proj |}];
       events := events l;
       next_id := Z.succ (next_id l) |}.

Definition set_status (id : Z) (s : status) (l : t) : t :=
  {| projects := projects l;
     applications :=
       map (fun a => if Z.eqb (app_id a) id
                     then {| app_id := app_id a; app_project := app_project a;
                             app_applicant := app_applicant a;
                             app_role := app_role a;
                             app_cover_letter := app_cover_letter a;
                             app_status := s |}
                     else a)
           (applications l);
     collaborations := collaborations l;
     conversations := conversations l;
     events := events l ++ [ApplicationTransitioned id s];
     next_id := next_id l |}.

(** The side entitled to ask for a status: the creator reviews, accepts
    and rejects, the applicant withdraws. *)
Definition entitled (to : status) : option actor :=
  match to with
  | under_review | accepted | rejected => Some creator
  | withdrawn => Some applicant
  | pending => None
  end.

Definition wrong_actor (p : project) (a : application) (to : status) (who : Z) : bool :=
  match entitled to with
  | Some creator => negb (Z.eqb who (proj_creator p))
  | Some applicant => negb (Z.eqb who (app_applicant a))
  | None => false
  end.

(** Re-accepting an accepted application. *)
Definition is_reaccept (from to : status) : bool :=
  status_eqb from accepted && status_eqb to accepted.

(** Modelled from the spec: the back end's [transition] is not in the
    repository's front-end sources.  Section 4.1: a transition attempted
    by the wrong actor fails with [AuthorizationError]; a transition not
    in the table fails with [StateConflict], except that re-accepting an
    accepted application is a success that changes nothing; accepting is
    compound, with [join] and [ensure], and leaves no partial state. *)
Definition transition (l : t) (id : Z) (to : status) (who : Z) : outcome :=
  match find_application l id with
  | None => Failed [NotFound]
  | Some a =>
      match find_project l (app_project a) with
      | None => Failed [NotFound]
      | Some p =>
          let legal :=
            match table (app_status a) to with Some _ => true | None => false end in
          let kinds :=
            when (wrong_actor p a to who) AuthorizationError
            ++ when (negb legal && negb (is_reaccept (app_status a) to))
                    StateConflict in
          match kinds with
          | _ :: _ => Failed kinds
          | [] =>
              if is_reaccept (app_status a) to then Succeeded l
              else
                match to with
                | accepted =>
                    match join (set_status id accepted l)
                               (app_project a) (app_applicant a) (app_role a) with
                    | Succeeded l1 => Succeeded (ensure l1 (app_project a))
                    | Failed ks => Failed ks
                    end
                | _ => Succeeded (set_status id to l)
                end
          end
      end
  end.

End Ledger.

(* ===================================================================== *)
(** ** Sample data *)
(* ===================================================================== *)

Module Sample.

Definition alice : User := {| user_id := 7 |}.

Definition backend_project : Project :=
  {| project_id := 1; creator_id := 3; project_status := lit "open";
     roles_needed := Some [lit "Backend"; lit "Designer"] |}.

Definition long_cover : str :=
  lit "I have built three REST services and would love to help out.".

Definition short_cover : str := lit "Pick me".

Definition application_1 (status : str) : Application :=
  {| application_id := 11; application_project_id := 1; applicant_id := 7;
     cover_letter := Some long_cover; proposed_role := Some (lit "Backend");
     application_status := status |}.

Definition message_1 : Message :=
  {| message_id := 100; message_sender_id := 7; message_content := lit "hello" |}.

Definition message_2 : Message :=
  {| message_id := 101; message_sender_id := 3; message_content := lit "welcome" |}.

Definition team_chat (ms : list Message) : Conversation :=
  {| conversation_id := 5; conversation_type := lit "project_team";
     conversation_messages := Some ms |}.

Definition owner_collaboration : Collaboration :=
  {| collaboration_id := 20; collaboration_project_id := 1;
     collaboration_user_id := 3; collaboration_role := lit "creator";
     collaboration_status := lit "active" |}.

Definition member_collaboration : Collaboration :=
  {| collaboration_id := 21; collaboration_project_id := 1;
     collaboration_user_id := 7; collaboration_role := lit "collaborator";
     collaboration_status := lit "active" |}.

(** A back end that accepts every call: it answers with the records
    above, and the user confirms every dialog. *)
Definition accepting (r : req) : resp r :=
  match r with
  | GetProject _ => Ok backend_project
  | CreateApplication _ _ _ => Ok (application_1 (lit "pending"))
  | GetMyApplications => Ok [application_1 (lit "pending")]
  | GetProjectApplications _ => Ok [application_1 (lit "pending")]
  | UpdateApplication _ status => Ok (application_1 status)
  | GetMyCollaborations => Ok [owner_collaboration; member_collaboration]
  | LeaveCollaboration _ => Ok tt
  | GetConversation _ => Ok (team_chat [message_1; message_2])
  | MarkAsRead _ => Ok tt
  | SendMessage _ _ => Ok message_2
  | Confirm _ => true
  | Alert _ => tt
  | Navigate _ => tt
  | ConsoleError _ _ => tt
  end.

(** A back end that is down: every API call throws. *)
Definition failing (r : req) : resp r :=
  match r with
  | GetProject _ => Throw (ErrorObj (lit "An error occurred"))
  | CreateApplication _ _ _ => Throw (ErrorObj (lit "An error occurred"))
  | GetMyApplications => Throw (ErrorObj (lit "An error occurred"))
  | GetProjectApplications _ => Throw (ErrorObj (lit "An error occurred"))
  | UpdateApplication _ _ => Throw (ErrorObj (lit "An error occurred"))
  | GetMyCollaborations => Throw (ErrorObj (lit "An error occurred"))
  | LeaveCollaboration _ => Throw (ErrorObj (lit "An error occurred"))
  | GetConversation _ => Throw (ErrorObj (lit "An error occurred"))
  | MarkAsRead _ => Throw (ErrorObj (lit "An error occurred"))
  | SendMessage _ _ => Throw (ErrorObj (lit "An error occurred"))
  | Confirm _ => true
  | Alert _ => tt
  | Navigate _ => tt
  | ConsoleError _ _ => tt
  end.

(** The project page with the apply modal open on [backend_project]. *)
Definition applying_page (cover : str) : ProjectDetailPage.state :=
  {| ProjectDetailPage.project := Some backend_project;
     ProjectDetailPage.loading := false;
     ProjectDetailPage.error := [];
     ProjectDetailPage.showApplyModal := true;
     ProjectDetailPage.selectedRole := lit "Backend";
     ProjectDetailPage.coverMessage := cover;
     ProjectDetailPage.applying := false;
     ProjectDetailPage.applyError := [] |}.

(** A project that declares no role, and the apply modal open on it. *)
Definition bare_project : Project :=
  {| project_id := 2; creator_id := 3; project_status := lit "open";
     roles_needed := Some [] |}.

Definition bare_page (cover : str) : ProjectDetailPage.state :=
  {| ProjectDetailPage.project := Some bare_project;
     ProjectDetailPage.loading := false;
     ProjectDetailPage.error := [];
     ProjectDetailPage.showApplyModal := true;
     ProjectDetailPage.selectedRole := [];
     ProjectDetailPage.coverMessage := cover;
     ProjectDetailPage.applying := false;
     ProjectDetailPage.applyError := [] |}.

(** A cancelled project of alice's own that declares no role. *)
Definition own_project : Project :=
  {| project_id := 9; creator_id := 7; project_status := lit "cancelled";
     roles_needed := Some [] |}.

(** [applying_page] once the route has changed to project 9 and the
    fetch for it has landed: the modal, the role and the cover message
    are still those typed on [backend_project]. *)
Definition stale_page (cover : str) : ProjectDetailPage.state :=
  {| ProjectDetailPage.project := Some own_project;
     ProjectDetailPage.loading := false;
     ProjectDetailPage.error := [];
     ProjectDetailPage.showApplyModal := true;
     ProjectDetailPage.selectedRole := lit "Backend";
     ProjectDetailPage.coverMessage := cover;
     ProjectDetailPage.applying := false;
     ProjectDetailPage.applyError := [] |}.

(** A loaded conversation page holding one message, with [text] typed. *)
Definition chat_page (text : str) (busy : bool) : ConversationPage.state :=
  {| ConversationPage.conversation := Some (team_chat [message_1]);
     ConversationPage.messages := [message_1];
     ConversationPage.loading := false;
     ConversationPage.error := [];
     ConversationPage.newMessage := text;
     ConversationPage.sending := busy |}.

Definition message_3 : Message :=
  {| message_id := 102; message_sender_id := 3;
     message_content := lit "see you at ten" |}.

(** The accepting back end at a moment when the conversation holds
    [message_1] and [message_3], and not yet what the user is sending. *)
Definition racing (r : req) : resp r :=
  match r with
  | GetProject _ => Ok backend_project
  | CreateApplication _ _ _ => Ok (application_1 (lit "pending"))
  | GetMyApplications => Ok [application_1 (lit "pending")]
  | GetProjectApplications _ => Ok [application_1 (lit "pending")]
  | UpdateApplication _ status => Ok (application_1 status)
  | GetMyCollaborations => Ok [owner_collaboration; member_collaboration]
  | LeaveCollaboration _ => Ok tt
  | GetConversation _ => Ok (team_chat [message_1; message_3])
  | MarkAsRead _ => Ok tt
  | SendMessage _ _ => Ok message_2
  | Confirm _ => true
  | Alert _ => tt
  | Navigate _ => tt
  | ConsoleError _ _ => tt
  end.

(** The collaborations page of the project's creator and of a member. *)
Definition collaborations_page : MyCollaborationsPage.state :=
  {| MyCollaborationsPage.collaborations :=
       [owner_collaboration; member_collaboration];
     MyCollaborationsPage.loading := false;
     MyCollaborationsPage.error := [] |}.

(** A ledger holding one open project, created by user 3. *)
Definition ledger_1 : Ledger.t :=
  {| Ledger.projects :=
       [{| Ledger.proj_id := 1; Ledger.proj_creator := 3;
           Ledger.proj_status := Ledger.open;
           Ledger.proj_roles := [lit "Backend"; lit "Designer"] |}];
     Ledger.applications := [];
     Ledger.collaborations := [];
     Ledger.conversations := [];
     Ledger.events := [];
     Ledger.next_id := 11 |}.

Definition succeeded_or (o : Ledger.outcome) (otherwise : Ledger.t) : Ledger.t :=
  match o with
  | Ledger.Succeeded l => l
  | Ledger.Failed _ => otherwise
  end.

(** [ledger_1] after user 7 applied as "Backend" ... *)
Definition ledger_2 : Ledger.t :=
  Eval vm_compute in
    succeeded_or (Ledger.submit ledger_1 1 7 (lit "Backend") long_cover) ledger_1.

(** ... and after the creator accepted that application. *)
Definition ledger_3 : Ledger.t :=
  Eval vm_compute in
    succeeded_or (Ledger.transition ledger_2 11 Spec41.accepted 3) ledger_2.

End Sample.

(* ===================================================================== *)
(** ** Facts about strings and handler programs *)
(* ===================================================================== *)

Module JsFacts.

Lemma eqb_eq (a b : str) : eqb a b = true <-> a = b.
Proof.
  revert b; induction a as [|x a IH]; intros [|y b]; simpl;
    try (split; (reflexivity || discriminate)).
  rewrite andb_true_iff, N.eqb_eq, IH.
  split; [intros [-> ->]; reflexivity | intros E; inversion E; auto].
Qed.

Lemma eqb_refl (a : str) : eqb a a = true.
Proof. apply eqb_eq; reflexivity. Qed.

Lemma eqb_neq (a b : str) : eqb a b = false <-> a <> b.
Proof.
  rewrite <- eqb_eq. destruct (eqb a b); split; congruence.
Qed.

Lemma trimStart_all_space (s : str) :
  forallb is_space s = true -> trimStart s = [].
Proof.
  induction s as [|c s IH]; simpl; [reflexivity|].
  rewrite andb_true_iff; intros [-> H]; auto.
Qed.

Lemma trimStart_nil_inv (s : str) :
  trimStart s = [] -> forallb is_space s = true.
Proof.
  induction s as [|c s IH]; simpl; [reflexivity|].
  destruct (is_space c); [auto | discriminate].
Qed.

(** [trim] gives the empty string exactly on the strings made of white
    space only (the empty string among them). *)
Lemma trim_nil_iff (s : str) :
  trim s = [] <-> forallb is_space s = true.
Proof.
  unfold trim, trimEnd. split.
  - intros H. apply trimStart_nil_inv.
    destruct (trimStart s) as [|c t] eqn:E; [reflexivity|].
    exfalso.
    assert (Hr : trimStart (rev (c :: t)) = []).
    { rewrite <- (rev_involutive (trimStart (rev (c :: t)))), H. reflexivity. }
    apply trimStart_nil_inv in Hr.
    rewrite forallb_forall in Hr.
    assert (Hc : is_space c = true) by (apply Hr, in_rev; rewrite rev_involutive; left; reflexivity).
    destruct s as [|d s']; [discriminate|]. simpl in E.
    destruct (is_space d) eqn:Ed.
    + clear -E Hc. induction s' as [|e s' IH]; simpl in E; [discriminate|].
      destruct (is_space e) eqn:Ee; [auto|]. inversion E; subst. congruence.
    + inversion E; subst. congruence.
  - intros H. rewrite (trimStart_all_space s H). reflexivity.
Qed.

End JsFacts.

Import JsFacts.

Lemma run_trace_issues {S W : Type} (o : world W) (a : act S) :
  forall w r, In r (trace (run o a w)) -> issues a r.
Proof.
  induction a as [s | r0 k IH]; intros w r; simpl; [tauto|].
  destruct (o r0 w) as [x w1] eqn:E.
  destruct (run o (k x) w1) as [[s w2] t] eqn:E2.
  unfold trace; simpl. intros [<- | Hin]; [left; reflexivity|].
  right. exists x. apply (IH x w1). rewrite E2. exact Hin.
Qed.

Lemma run_outcome {S W : Type} (o : world W) (a : act S) :
  forall w, outcome a (final_state (run o a w)).
Proof.
  induction a as [s | r0 k IH]; intros w; simpl; [reflexivity|].
  destruct (o r0 w) as [x w1] eqn:E.
  specialize (IH x w1).
  destruct (run o (k x) w1) as [[s w2] t] eqn:E2.
  unfold final_state in *; simpl in *. exists x. exact IH.
Qed.

(** A handler that makes no request leaves the world as it was. *)
Lemma silent_run {S W : Type} (o : world W) (a : act S) (w : W) :
  (forall r, ~ issues a r) ->
  final_world (run o a w) = w /\ trace (run o a w) = [].
Proof.
  destruct a as [s | r k]; intros H; [split; reflexivity|].
  exfalso. apply (H r). left; reflexivity.
Qed.

(* ===================================================================== *)
(** ** Properties of the project page *)
(* ===================================================================== *)

Section ProjectDetailFacts.

Import ProjectDetailPage.

Lemma render_details (st : state) (p : Project) :
  render st = Details p -> project st = Some p /\ loading st = false.
Proof.
  unfold render. destruct (loading st); [discriminate|].
  destruct (truthy (error st)); [discriminate|].
  destruct (project st); [|discriminate].
  intros E; inversion E; auto.
Qed.

(** What [handleApply] can leave behind. *)
Lemma handleApply_outcome (st st' : state) :
  outcome (handleApply st) st' ->
  project st' = project st /\ selectedRole st' = selectedRole st
  /\ (showApplyModal st' = true -> showApplyModal st = true).
Proof.
  unfold handleApply. destruct (project st) as [p|] eqn:Ep; simpl.
  - destruct (List.length (coverMessage st) <? 50); simpl.
    + intros <-; simpl; auto.
    + intros [[a | e] H]; simpl in H.
      * destruct H as [_ <-]; simpl. repeat split; auto. discriminate.
      * subst st'; simpl; auto.
  - intros <-; auto.
Qed.

(** The only request for a new application is the one of [handleApply],
    made with the page's project, selected role and cover message. *)
Lemma handle_issues_create (st : state) (a : action) (pid : Z) (role cover : str) :
  issues (handle a st) (CreateApplication pid role cover) ->
  a = ClickSubmit /\ exists p, project st = Some p /\ pid = project_id p
    /\ role = selectedRole st /\ cover = coverMessage st
    /\ 50 <= List.length cover.
Proof.
  destruct a; simpl; try tauto.
  unfold handleApply. destruct (project st) as [p|]; simpl; [|tauto].
  destruct (List.length (coverMessage st) <? 50) eqn:El; simpl; [tauto|].
  apply Nat.ltb_ge in El.
  intros [E | [[a | e] H]].
  - inversion E; subst. split; [reflexivity|]. exists p. auto.
  - simpl in H. destruct H as [H | [x H]]; [discriminate | contradiction].
  - simpl in H. contradiction.
Qed.

(** A live "Submit Application" sends the request at once, with the
    project, the role and the cover message the page holds. *)
Lemma submit_issues_create (user : option User) (st : state) (p : Project) :
  project st = Some p ->
  offered user st ClickSubmit = true ->
  issues (handle ClickSubmit st)
         (CreateApplication (project_id p) (selectedRole st) (coverMessage st)).
Proof.
  intros Hp Hoff. unfold offered in Hoff.
  destruct (render st); try discriminate.
  apply andb_true_iff in Hoff. destruct Hoff as [_ Hen].
  apply negb_true_iff, orb_false_iff in Hen. destruct Hen as [_ Hlen].
  simpl. unfold handleApply. rewrite Hp, Hlen. simpl.
  left. reflexivity.
Qed.

Lemma role_declared_same (st st' : state) :
  project st' = project st -> selectedRole st' = selectedRole st ->
  role_declared st -> role_declared st'.
Proof.
  unfold role_declared. intros Hp Hs H p. rewrite Hp, Hs. apply H.
Qed.

Lemma role_chosen_same (st st' : state) :
  project st' = project st -> selectedRole st' = selectedRole st ->
  role_chosen_from_project st -> role_chosen_from_project st'.
Proof.
  unfold role_chosen_from_project. intros Hp Hs H. rewrite Hp, Hs. exact H.
Qed.

(** A fetch that lands keeps the selected role among the declared roles
    of the project then held, whenever that project declares any. *)
Lemma fetchProject_role_declared (id : route_param) (st st' : state) :
  role_declared st -> outcome (fetchProject id st) st' -> role_declared st'.
Proof.
  intros H Hf. unfold fetchProject in Hf.
  destruct (param_missing id); simpl in Hf; [subst st'; exact H|].
  destruct id as [i|]; simpl in Hf; [|subst st'; exact H].
  destruct Hf as [[data | e] Hf]; simpl in Hf; subst st'.
  - intros p Hp Hne. unfold roles_of in *.
    destruct (roles_needed data) as [[|r0 rs]|] eqn:Er; simpl in *;
      inversion Hp; subst p; rewrite Er in *; simpl; auto; congruence.
  - revert H. apply role_declared_same; reflexivity.
Qed.

Lemma action_role_declared (user : option User) (st st' : state) (a : action) :
  role_declared st -> offered user st a = true ->
  outcome (handle a st) st' -> role_declared st'.
Proof.
  intros H Hoff Hout. unfold offered in Hoff.
  destruct (render st) as [| | p] eqn:Ev; try discriminate.
  apply render_details in Ev. destruct Ev as [Ep _].
  destruct a; simpl in Hout.
  - subst st'. exact H.
  - subst st'. apply andb_true_iff in Hoff. destruct Hoff as [_ Hin].
    apply existsb_exists in Hin. destruct Hin as [r [Hin Hr']].
    apply eqb_eq in Hr'. subst r.
    intros q Hq _. simpl in *. rewrite Ep in Hq. inversion Hq; subst q.
    exact Hin.
  - subst st'. exact H.
  - subst st'. exact H.
  - apply handleApply_outcome in Hout. destruct Hout as [Hp [Hs _]].
    revert H. apply role_declared_same; assumption.
Qed.

Lemma reachable_role_declared (st : state) :
  reachable st -> role_declared st.
Proof.
  induction 1 as [| id st st' Hr IH Hf | user st a st' Hr IH Hoff Hout
                  | user st Hr IH Hoff | st Hr IH | e st Hr IH].
  - intros p Hp. discriminate Hp.
  - eapply fetchProject_role_declared; eassumption.
  - eapply action_role_declared; eassumption.
  - exact IH.
  - exact IH.
  - exact IH.
Qed.

Lemma on_one_route_reachable (id : route_param) (st : state) :
  on_one_route id st -> reachable st.
Proof.
  induction 1 as [| st Hf | user st a st' Hr IH Hoff Hout
                  | user st Hr IH Hoff | st Hr IH | e st Hr IH].
  - apply reach_mount.
  - eapply reach_fetch; [apply reach_mount | eassumption].
  - eapply reach_action; eassumption.
  - eapply reach_sent; eassumption.
  - apply reach_applied; assumption.
  - apply reach_apply_failed; assumption.
Qed.

(** On a page that stays on its route the selected role is a declared
    one, or still the empty string of the mount state when the project
    declares none. *)
Lemma on_one_route_role_chosen (id : route_param) (st : state) :
  on_one_route id st -> role_chosen_from_project st.
Proof.
  induction 1 as [| st Hf | user st a st' Hr IH Hoff Hout
                  | user st Hr IH Hoff | st Hr IH | e st Hr IH].
  - reflexivity.
  - unfold fetchProject in Hf.
    destruct (param_missing id); simpl in Hf; [subst st; reflexivity|].
    destruct id as [i|]; simpl in Hf; [|subst st; reflexivity].
    destruct Hf as [[data | e] Hf]; simpl in Hf; subst st.
    + unfold role_chosen_from_project, roles_of.
      destruct (roles_needed data) as [[|r0 rs]|] eqn:Er; simpl;
        rewrite ?Er; simpl; auto.
    + reflexivity.
  - unfold offered in Hoff.
    destruct (render st) as [| | p] eqn:Ev; try discriminate.
    apply render_details in Ev. destruct Ev as [Ep _].
    destruct a; simpl in Hout.
    + subst st'. exact IH.
    + subst st'. apply andb_true_iff in Hoff. destruct Hoff as [_ Hin].
      apply existsb_exists in Hin. destruct Hin as [r [Hin Hr']].
      apply eqb_eq in Hr'. subst r.
      unfold role_chosen_from_project; simpl. rewrite Ep.
      destruct (roles_of p); [contradiction | exact Hin].
    + subst st'. exact IH.
    + subst st'. exact IH.
    + apply handleApply_outcome in Hout. destruct Hout as [Hp [Hs _]].
      revert IH. apply role_chosen_same; assumption.
  - exact IH.
  - exact IH.
  - exact IH.
Qed.

(** The three parts of [handleApply] put together are [handleApply]. *)
Lemma handleApply_parts (st st' : state) :
  outcome (handleApply st) st' ->
  st' = st \/ st' = setApplyError cover_too_short_message st
  \/ st' = applied (sent st) \/ exists e, st' = apply_failed e (sent st).
Proof.
  unfold handleApply. destruct (project st) as [p|]; simpl; [|auto].
  destruct (List.length (coverMessage st) <? 50); simpl; [auto|].
  intros [[a | e] H]; simpl in H.
  - destruct H as [_ <-]. right; right; left. reflexivity.
  - subst st'. right; right; right. exists e. reflexivity.
Qed.

End ProjectDetailFacts.

(** The sample page is reached by loading the project, opening the modal
    and typing the cover message. *)
Lemma applying_page_on_one_route :
  ProjectDetailPage.on_one_route (Some (lit "1"))
    (Sample.applying_page Sample.long_cover).
Proof.
  eapply ProjectDetailPage.one_action
    with (user := Some Sample.alice)
         (a := ProjectDetailPage.EditCover Sample.long_cover);
    [ eapply ProjectDetailPage.one_action
        with (user := Some Sample.alice) (a := ProjectDetailPage.ClickApply);
      [ apply ProjectDetailPage.one_fetch;
        exists (Ok Sample.backend_project); reflexivity
      | reflexivity
      | reflexivity ]
    | reflexivity
    | reflexivity ].
Qed.

Lemma bare_page_on_one_route :
  ProjectDetailPage.on_one_route (Some (lit "2"))
    (Sample.bare_page Sample.long_cover).
Proof.
  eapply ProjectDetailPage.one_action
    with (user := Some Sample.alice)
         (a := ProjectDetailPage.EditCover Sample.long_cover);
    [ eapply ProjectDetailPage.one_action
        with (user := Some Sample.alice) (a := ProjectDetailPage.ClickApply);
      [ apply ProjectDetailPage.one_fetch;
        exists (Ok Sample.bare_project); reflexivity
      | reflexivity
      | reflexivity ]
    | reflexivity
    | reflexivity ].
Qed.

(** The route changes from project 1 to project 9 while the modal is
    open, and the fetch for project 9 lands. *)
Lemma stale_page_reachable :
  ProjectDetailPage.reachable (Sample.stale_page Sample.long_cover).
Proof.
  apply ProjectDetailPage.reach_fetch
    with (id := Some (lit "9")) (st := Sample.applying_page Sample.long_cover).
  - apply on_one_route_reachable with (id := Some (lit "1")).
    exact applying_page_on_one_route.
  - exists (Ok Sample.own_project). reflexivity.
Qed.

(** C3. [handleApply] with a cover message shorter than 50 code units
    makes no request at all, so no [createApplication] reaches the back
    end and whatever the back end holds is unchanged; on a loaded project
    the page then holds the validation message as its apply error, shows
    it in the error box of the open modal, and nothing else changes.
    With 50 code units or more, on a loaded project, the
    [createApplication] request is made, carrying the project id, the
    selected role and the cover message. *)
Theorem handleApply_cover_letter_check :
  (forall (W : Type) (o : world W) (w : W) (st : ProjectDetailPage.state),
     List.length (ProjectDetailPage.coverMessage st) < 50 ->
     let r := run o (ProjectDetailPage.handleApply st) w in
     (forall q, ~ issues (ProjectDetailPage.handleApply st) q)
     /\ trace r = [] /\ final_world r = w)
  /\ (forall (W : Type) (o : world W) (w : W) (st : ProjectDetailPage.state)
             (p : Project),
        ProjectDetailPage.project st = Some p ->
        List.length (ProjectDetailPage.coverMessage st) < 50 ->
        let st' := final_state (run o (ProjectDetailPage.handleApply st) w) in
        ProjectDetailPage.applyError st'
        = lit "Cover message must be at least 50 characters"
        /\ (ProjectDetailPage.render st = ProjectDetailPage.Details p ->
            ProjectDetailPage.showApplyModal st = true ->
            ProjectDetailPage.apply_error_box st'
            = Some (lit "Cover message must be at least 50 characters"))
        /\ ProjectDetailPage.project st' = ProjectDetailPage.project st
        /\ ProjectDetailPage.loading st' = ProjectDetailPage.loading st
        /\ ProjectDetailPage.error st' = ProjectDetailPage.error st
        /\ ProjectDetailPage.showApplyModal st'
           = ProjectDetailPage.showApplyModal st
        /\ ProjectDetailPage.selectedRole st' = ProjectDetailPage.selectedRole st
        /\ ProjectDetailPage.coverMessage st' = ProjectDetailPage.coverMessage st
        /\ ProjectDetailPage.applying st' = ProjectDetailPage.applying st)
  /\ (forall (W : Type) (o : world W) (w : W) (st : ProjectDetailPage.state)
             (p : Project),
        ProjectDetailPage.project st = Some p ->
        50 <= List.length (ProjectDetailPage.coverMessage st) ->
        exists rest,
          trace (run o (ProjectDetailPage.handleApply st) w)
          = CreateApplication (project_id p)
              (ProjectDetailPage.selectedRole st)
              (ProjectDetailPage.coverMessage st) :: rest).
Proof.
  split; [|split].
  - intros W o w st Hlen r. subst r. apply Nat.ltb_lt in Hlen.
    unfold ProjectDetailPage.handleApply.
    destruct (ProjectDetailPage.project st); [rewrite Hlen|]; simpl;
      repeat split; auto.
  - intros W o w st p Hp Hlen st'. subst st'. apply Nat.ltb_lt in Hlen.
    unfold ProjectDetailPage.handleApply. rewrite Hp, Hlen.
    unfold final_state; simpl.
    split; [reflexivity|].
    split; [|repeat split; simpl; rewrite ?Hp; reflexivity].
    intros Hv Hm. unfold ProjectDetailPage.apply_error_box.
    unfold ProjectDetailPage.render in *. simpl.
    destruct (ProjectDetailPage.loading st); [discriminate|].
    destruct (truthy (ProjectDetailPage.error st)); [discriminate|].
    rewrite Hp, Hm. reflexivity.
  - intros W o w st p Hp Hlen. apply Nat.ltb_ge in Hlen.
    unfold ProjectDetailPage.handleApply. rewrite Hp, Hlen. simpl.
    destruct (o _ w) as [x w1].
    match goal with
    | |- context [run o ?a w1] => destruct (run o a w1) as [[s w2] t]
    end.
    exists t. reflexivity.
Qed.

Lemma handleApply_cover_letter_check_witness :
  (let r := run (canned Sample.accepting)
              (ProjectDetailPage.handleApply (Sample.applying_page Sample.short_cover)) 0 in
   trace r = [] /\ final_world r = 0
   /\ ProjectDetailPage.applyError (final_state r)
      = lit "Cover message must be at least 50 characters"
   /\ ProjectDetailPage.apply_error_box (final_state r)
      = Some (lit "Cover message must be at least 50 characters")
   /\ ProjectDetailPage.coverMessage (final_state r) = Sample.short_cover)
  /\ (exists rest,
        trace (run (canned Sample.accepting)
                 (ProjectDetailPage.handleApply (Sample.applying_page Sample.long_cover)) 0)
        = CreateApplication 1 (lit "Backend") Sample.long_cover :: rest).
Proof.
  destruct handleApply_cover_letter_check as [H1 [H2 H3]].
  assert (Hshort : List.length Sample.short_cover < 50) by (vm_compute; lia).
  destruct (H2 nat (canned Sample.accepting) 0
               (Sample.applying_page Sample.short_cover)
               Sample.backend_project eq_refl Hshort)
    as [He [Hbox [_ [_ [_ [_ [_ [Hc _]]]]]]]].
  split; [split; [|split; [|split; [|split]]]|].
  - apply (H1 nat (canned Sample.accepting) 0
              (Sample.applying_page Sample.short_cover) Hshort).
  - apply (H1 nat (canned Sample.accepting) 0
              (Sample.applying_page Sample.short_cover) Hshort).
  - exact He.
  - apply Hbox; reflexivity.
  - exact Hc.
  - apply (H3 nat (canned Sample.accepting) 0
              (Sample.applying_page Sample.long_cover)
              Sample.backend_project eq_refl).
    vm_compute. lia.
Defined.

(** C4. For a signed-in user the apply control is live exactly when the
    project's status is ['open'] and the user is not its creator, and the
    modal is opened by that control only: no other control, no fetch and
    no landing write opens it.  The modal itself is not guarded: when the
    route changes to another project while it is open, it stays open, and
    on a cancelled project of the user's own "Apply" is not offered but
    "Submit Application" is live and sends [createApplication] for that
    project. *)
Theorem apply_guard_misses_open_modal :
  (forall (u : User) (p : Project),
     ProjectDetailPage.canApply (Some u) p = true
     <-> (project_status p = lit "open" /\ user_id u <> creator_id p))
  /\ (forall (u : User) (st : ProjectDetailPage.state) (p : Project),
        ProjectDetailPage.render st = ProjectDetailPage.Details p ->
        (ProjectDetailPage.offered (Some u) st ProjectDetailPage.ClickApply = true
         <-> (project_status p = lit "open" /\ user_id u <> creator_id p)))
  /\ (forall (user : option User) (st st' : ProjectDetailPage.state)
             (a : ProjectDetailPage.action),
        ProjectDetailPage.offered user st a = true ->
        outcome (ProjectDetailPage.handle a st) st' ->
        ProjectDetailPage.showApplyModal st = false ->
        ProjectDetailPage.showApplyModal st' = true ->
        a = ProjectDetailPage.ClickApply
        /\ exists u p,
             user = Some u /\ ProjectDetailPage.project st' = Some p
             /\ project_status p = lit "open" /\ user_id u <> creator_id p)
  /\ (forall (id : route_param) (st st' : ProjectDetailPage.state) (e : thrown),
        (outcome (ProjectDetailPage.fetchProject id st) st' ->
         ProjectDetailPage.showApplyModal st'
         = ProjectDetailPage.showApplyModal st)
        /\ ProjectDetailPage.showApplyModal (ProjectDetailPage.sent st)
           = ProjectDetailPage.showApplyModal st
        /\ ProjectDetailPage.showApplyModal (ProjectDetailPage.applied st)
           = false
        /\ ProjectDetailPage.showApplyModal (ProjectDetailPage.apply_failed e st)
           = ProjectDetailPage.showApplyModal st)
  /\ (let before := Sample.applying_page Sample.long_cover in
      let st := Sample.stale_page Sample.long_cover in
      ProjectDetailPage.on_one_route (Some (lit "1")) before
      /\ outcome (ProjectDetailPage.fetchProject (Some (lit "9")) before) st
      /\ ProjectDetailPage.reachable st
      /\ ProjectDetailPage.project st = Some Sample.own_project
      /\ project_status Sample.own_project <> lit "open"
      /\ user_id Sample.alice = creator_id Sample.own_project
      /\ ProjectDetailPage.offered (Some Sample.alice) st
           ProjectDetailPage.ClickApply = false
      /\ ProjectDetailPage.offered (Some Sample.alice) st
           ProjectDetailPage.ClickSubmit = true
      /\ issues (ProjectDetailPage.handle ProjectDetailPage.ClickSubmit st)
                (CreateApplication 9 (lit "Backend") Sample.long_cover)).
Proof.
  assert (Hcan : forall (u : User) (p : Project),
     ProjectDetailPage.canApply (Some u) p = true
     <-> (project_status p = lit "open" /\ user_id u <> creator_id p)).
  { intros u p. unfold ProjectDetailPage.canApply, ProjectDetailPage.isCreator.
    rewrite andb_true_iff, negb_true_iff, Z.eqb_neq, eqb_eq. tauto. }
  split; [exact Hcan|]. split; [|split; [|split]].
  - intros u st p Hv. unfold ProjectDetailPage.offered. rewrite Hv. apply Hcan.
  - intros user st st' a Hoff Hout Hclosed Hopen.
    unfold ProjectDetailPage.offered in Hoff.
    destruct (ProjectDetailPage.render st) as [| | p] eqn:Ev; try discriminate.
    apply render_details in Ev. destruct Ev as [Ep _].
    destruct a; simpl in Hout.
    + subst st'. split; [reflexivity|].
      destruct user as [u|]; [|discriminate Hoff].
      exists u, p. apply Hcan in Hoff. simpl. tauto.
    + subst st'. simpl in Hopen. congruence.
    + subst st'. simpl in Hopen. congruence.
    + subst st'. simpl in Hopen. discriminate.
    + apply handleApply_outcome in Hout. destruct Hout as [_ [_ Hm]].
      specialize (Hm Hopen). congruence.
  - intros id st st' e. split; [|repeat split].
    unfold ProjectDetailPage.fetchProject.
    destruct (param_missing id); simpl; [intros <-; reflexivity|].
    destruct id as [i|]; simpl; [|intros <-; reflexivity].
    intros [[data | e'] H]; simpl in H; subst st'; [|reflexivity].
    destruct (roles_needed data) as [[|r0 rs]|]; reflexivity.
  - cbv zeta. split; [exact applying_page_on_one_route|].
    split; [exists (Ok Sample.own_project); reflexivity|].
    split; [exact stale_page_reachable|].
    split; [reflexivity|]. split; [vm_compute; discriminate|].
    split; [reflexivity|]. split; [reflexivity|]. split; [reflexivity|].
    left. reflexivity.
Qed.

Lemma apply_guard_misses_open_modal_witness :
  ProjectDetailPage.canApply (Some Sample.alice) Sample.backend_project = true
  /\ (exists u p,
        Some Sample.alice = Some u
        /\ ProjectDetailPage.project
             (ProjectDetailPage.setShowApplyModal true
                (ProjectDetailPage.setShowApplyModal false
                   (Sample.applying_page Sample.long_cover))) = Some p
        /\ project_status p = lit "open" /\ user_id u <> creator_id p).
Proof.
  destruct apply_guard_misses_open_modal as [H1 [_ [H3 _]]].
  split.
  - apply H1. split; [reflexivity | vm_compute; discriminate].
  - apply (H3 (Some Sample.alice)
              (ProjectDetailPage.setShowApplyModal false
                 (Sample.applying_page Sample.long_cover))
              _ ProjectDetailPage.ClickApply); reflexivity.
Defined.

(** The back end of the specification refuses what the open modal can
    still send: at the ledger a submission for a project that is not
    open, or by its creator, fails with [StateConflict]. *)
Lemma submit_conflict (l : Ledger.t) (proj user : Z) (role cover : str)
      (p : Ledger.project) :
  Ledger.find_project l proj = Some p ->
  Ledger.proj_status p <> Ledger.open \/ user = Ledger.proj_creator p ->
  Ledger.fails_with (Ledger.submit l proj user role cover) Ledger.StateConflict.
Proof.
  intros Hf Hbad.
  unfold Ledger.submit. rewrite Hf.
  assert (Hc : (negb (Ledger.is_open (Ledger.proj_status p))
                || Z.eqb user (Ledger.proj_creator p)
                || Ledger.has_open_application l proj user) = true).
  { destruct Hbad as [Hs | ->].
    - destruct (Ledger.proj_status p); simpl; auto; congruence.
    - rewrite Z.eqb_refl, orb_true_r. reflexivity. }
  rewrite Hc.
  destruct (Ledger.when _ Ledger.ValidationError) as [|e es]; simpl; auto.
  right. apply in_or_app. right. left. reflexivity.
Qed.

(** C9. The role select offers only the project's declared roles, and
    in every state the page can reach, route changes and writes landing
    late included, a [createApplication] request carries the selected
    role, which is a declared one whenever the project declares any.
    [handleApply] checks the cover message only, so the request is made
    whatever the project declares.  On a page that stays on its route a
    project without roles gets the empty string; but a fetch overwrites
    the selected role only when the new project declares roles, so after
    a route change to a project that declares none the request carries
    the role chosen on the project before. *)
Theorem proposed_role_stale_after_route_change :
  (forall (user : option User) (st : ProjectDetailPage.state) (p : Project)
          (role : str),
     ProjectDetailPage.render st = ProjectDetailPage.Details p ->
     ProjectDetailPage.offered user st (ProjectDetailPage.ChooseRole role) = true ->
     In role (ProjectDetailPage.roles_of p))
  /\ (forall (user : option User)
             (st : ProjectDetailPage.state) (a : ProjectDetailPage.action)
             (pid : Z) (role cover : str),
        ProjectDetailPage.reachable st ->
        ProjectDetailPage.offered user st a = true ->
        issues (ProjectDetailPage.handle a st) (CreateApplication pid role cover) ->
        exists p,
          ProjectDetailPage.project st = Some p
          /\ pid = project_id p
          /\ role = ProjectDetailPage.selectedRole st
          /\ (ProjectDetailPage.roles_of p <> [] ->
              In role (ProjectDetailPage.roles_of p)))
  /\ (forall (user : option User) (st : ProjectDetailPage.state) (p : Project),
        ProjectDetailPage.project st = Some p ->
        ProjectDetailPage.offered user st ProjectDetailPage.ClickSubmit = true ->
        issues (ProjectDetailPage.handle ProjectDetailPage.ClickSubmit st)
               (CreateApplication (project_id p)
                  (ProjectDetailPage.selectedRole st)
                  (ProjectDetailPage.coverMessage st)))
  /\ (forall (id : route_param) (user : option User)
             (st : ProjectDetailPage.state) (a : ProjectDetailPage.action)
             (pid : Z) (role cover : str) (p : Project),
        ProjectDetailPage.on_one_route id st ->
        ProjectDetailPage.offered user st a = true ->
        issues (ProjectDetailPage.handle a st) (CreateApplication pid role cover) ->
        ProjectDetailPage.project st = Some p ->
        ProjectDetailPage.roles_of p = [] -> role = [])
  /\ (let before := Sample.applying_page Sample.long_cover in
      let st := Sample.stale_page Sample.long_cover in
      ProjectDetailPage.on_one_route (Some (lit "1")) before
      /\ outcome (ProjectDetailPage.fetchProject (Some (lit "9")) before) st
      /\ ProjectDetailPage.reachable st
      /\ ProjectDetailPage.project st = Some Sample.own_project
      /\ ProjectDetailPage.roles_of Sample.own_project = []
      /\ ProjectDetailPage.offered (Some Sample.alice) st
           ProjectDetailPage.ClickSubmit = true
      /\ issues (ProjectDetailPage.handle ProjectDetailPage.ClickSubmit st)
                (CreateApplication 9 (lit "Backend") Sample.long_cover)
      /\ lit "Backend" <> []).
Proof.
  split; [|split; [|split; [|split]]].
  - intros user st p role Hv Hoff.
    unfold ProjectDetailPage.offered in Hoff. rewrite Hv in Hoff.
    apply andb_true_iff in Hoff. destruct Hoff as [_ Hin].
    apply existsb_exists in Hin. destruct Hin as [r [Hin Hr]].
    apply eqb_eq in Hr. subst r. exact Hin.
  - intros user st a pid role cover Hr _ Hiss.
    apply handle_issues_create in Hiss.
    destruct Hiss as [_ [p [Hp [Hpid [Hrole _]]]]].
    apply reachable_role_declared in Hr.
    exists p. split; [exact Hp|]. split; [exact Hpid|]. split; [exact Hrole|].
    intros Hne. rewrite Hrole. exact (Hr p Hp Hne).
  - intros user st p Hp Hoff. eapply submit_issues_create; eassumption.
  - intros id user st a pid role cover p Hr _ Hiss Hp Hnone.
    apply handle_issues_create in Hiss.
    destruct Hiss as [_ [q [Hq [_ [Hrole _]]]]].
    apply on_one_route_role_chosen in Hr.
    unfold ProjectDetailPage.role_chosen_from_project in Hr.
    rewrite Hp, Hnone in Hr. congruence.
  - cbv zeta. split; [exact applying_page_on_one_route|].
    split; [exists (Ok Sample.own_project); reflexivity|].
    split; [exact stale_page_reachable|].
    split; [reflexivity|]. split; [reflexivity|]. split; [reflexivity|].
    split; [left; reflexivity | discriminate].
Qed.

Lemma proposed_role_stale_after_route_change_witness :
  In (lit "Designer") (ProjectDetailPage.roles_of Sample.backend_project)
  /\ (exists p,
        ProjectDetailPage.project (Sample.applying_page Sample.long_cover) = Some p
        /\ 1%Z = project_id p
        /\ lit "Backend"
           = ProjectDetailPage.selectedRole (Sample.applying_page Sample.long_cover)
        /\ (ProjectDetailPage.roles_of p <> [] ->
            In (lit "Backend") (ProjectDetailPage.roles_of p)))
  /\ issues (ProjectDetailPage.handle ProjectDetailPage.ClickSubmit
               (Sample.bare_page Sample.long_cover))
            (CreateApplication 2 [] Sample.long_cover)
  /\ (forall pid role cover,
        issues (ProjectDetailPage.handle ProjectDetailPage.ClickSubmit
                  (Sample.bare_page Sample.long_cover))
               (CreateApplication pid role cover) ->
        role = []).
Proof.
  destruct proposed_role_stale_after_route_change as [H1 [H2 [H3 [H4 _]]]].
  split; [|split; [|split]].
  - apply (H1 (Some Sample.alice) (Sample.applying_page Sample.long_cover)
              Sample.backend_project (lit "Designer")); reflexivity.
  - apply (H2 (Some Sample.alice)
              (Sample.applying_page Sample.long_cover)
              ProjectDetailPage.ClickSubmit 1%Z (lit "Backend") Sample.long_cover).
    + apply on_one_route_reachable with (id := Some (lit "1")).
      exact applying_page_on_one_route.
    + reflexivity.
    + left. reflexivity.
  - apply (H3 (Some Sample.alice) (Sample.bare_page Sample.long_cover)
              Sample.bare_project); reflexivity.
  - intros pid role cover Hiss.
    apply (H4 (Some (lit "2")) (Some Sample.alice)
              (Sample.bare_page Sample.long_cover)
              ProjectDetailPage.ClickSubmit pid role cover Sample.bare_project).
    + exact bare_page_on_one_route.
    + reflexivity.
    + exact Hiss.
    + reflexivity.
    + reflexivity.
Defined.

(* ===================================================================== *)
(** ** Properties of the application pages *)
(* ===================================================================== *)

Lemma same_key_same_element {A : Type} (key : A -> Z) (l : list A) (a b : A) :
  NoDup (map key l) -> In a l -> In b l -> key a = key b -> a = b.
Proof.
  induction l as [|x l IH]; simpl; [tauto|].
  intros Hnd Ha Hb E. inversion Hnd as [|k ks Hnotin Hnd']; subst.
  destruct Ha as [-> | Ha], Hb as [-> | Hb]; auto.
  - exfalso. apply Hnotin. rewrite E. apply in_map, Hb.
  - exfalso. apply Hnotin. rewrite <- E. apply in_map, Ha.
Qed.



Lemma withdraw_button_spec (st : MyApplicationsPage.state) (a : Application) :
  MyApplicationsPage.withdraw_button st a = true
  <-> (MyApplicationsPage.loading st = false
       /\ application_status a = lit "pending").
Proof.
  unfold MyApplicationsPage.withdraw_button.
  rewrite andb_true_iff, negb_true_iff, eqb_eq. tauto.
Qed.







(** C5, as the code has it.  On the applicant's page the "Withdraw"
    control is shown exactly for the applications whose status is
    [pending] (once the page has loaded); an application that is
    [under_review] has none.  A live control asks the user to confirm
    and then requests the status [withdrawn] for that application, and
    nothing else. *)
Theorem withdraw_offered_only_when_pending :
  (forall (st : MyApplicationsPage.state) (a : Application),
     MyApplicationsPage.withdraw_button st a = true
     <-> (MyApplicationsPage.loading st = false
          /\ application_status a = lit "pending"))
  /\ (forall (st : MyApplicationsPage.state) (a : Application),
        application_status a = lit "under_review" ->
        MyApplicationsPage.withdraw_button st a = false)
  /\ (forall (st : MyApplicationsPage.state) (i : nat),
        MyApplicationsPage.offered st (MyApplicationsPage.ClickWithdraw i) = true ->
        exists a,
          nth_error (MyApplicationsPage.applications st) i = Some a
          /\ application_status a = lit "pending"
          /\ issues (MyApplicationsPage.handle (MyApplicationsPage.ClickWithdraw i) st)
                    (UpdateApplication (application_id a) (lit "withdrawn"))
          /\ forall id status,
               issues (MyApplicationsPage.handle (MyApplicationsPage.ClickWithdraw i) st)
                      (UpdateApplication id status) ->
               id = application_id a /\ status = lit "withdrawn").
Proof.
  split; [exact withdraw_button_spec|]. split.
  - intros st a Hs. unfold MyApplicationsPage.withdraw_button. rewrite Hs.
    apply andb_false_r.
  - intros st i Hoff. simpl in Hoff |- *.
    destruct (nth_error (MyApplicationsPage.applications st) i) as [a|];
      [|discriminate].
    exists a. split; [reflexivity|].
    apply withdraw_button_spec in Hoff. destruct Hoff as [_ Hs].
    split; [exact Hs|]. split.
    + simpl. right. exists true. simpl. left. reflexivity.
    + simpl. intros id status [E | [[|] H]]; [discriminate | |contradiction].
      simpl in H. destruct H as [E | [[u | e] H]].
      * inversion E; auto.
      * contradiction.
      * simpl in H. destruct H as [E | [x []]]. discriminate.
Qed.

Lemma withdraw_offered_only_when_pending_witness :
  MyApplicationsPage.withdraw_button
    {| MyApplicationsPage.applications := [Sample.application_1 (lit "under_review")];
       MyApplicationsPage.loading := false; MyApplicationsPage.error := [] |}
    (Sample.application_1 (lit "under_review")) = false
  /\ exists a,
       nth_error [Sample.application_1 (lit "pending")] 0 = Some a
       /\ application_status a = lit "pending"
       /\ issues (MyApplicationsPage.handle (MyApplicationsPage.ClickWithdraw 0)
                    {| MyApplicationsPage.applications := [Sample.application_1 (lit "pending")];
                       MyApplicationsPage.loading := false;
                       MyApplicationsPage.error := [] |})
                 (UpdateApplication (application_id a) (lit "withdrawn"))
       /\ forall id status,
            issues (MyApplicationsPage.handle (MyApplicationsPage.ClickWithdraw 0)
                      {| MyApplicationsPage.applications := [Sample.application_1 (lit "pending")];
                         MyApplicationsPage.loading := false;
                         MyApplicationsPage.error := [] |})
                   (UpdateApplication id status) ->
            id = application_id a /\ status = lit "withdrawn".
Proof.
  destruct withdraw_offered_only_when_pending as [_ [H2 H3]].
  split.
  - apply H2. reflexivity.
  - apply (H3 {| MyApplicationsPage.applications := [Sample.application_1 (lit "pending")];
                 MyApplicationsPage.loading := false;
                 MyApplicationsPage.error := [] |} 0).
    reflexivity.
Defined.

(** The withdraw claim as stated fails: an application that is
    [under_review] is not terminal, the table lets its applicant withdraw
    it, and the loaded page shows it, yet it has no "Withdraw" control,
    while the same application in [pending] has one. *)
Lemma withdraw_under_review_counterexample :
  let reviewing := Sample.application_1 (lit "under_review") in
  let waiting := Sample.application_1 (lit "pending") in
  let page apps :=
    {| MyApplicationsPage.applications := apps;
       MyApplicationsPage.loading := false; MyApplicationsPage.error := [] |} in
  (Spec41.status_of_string (application_status reviewing) = Some Spec41.under_review
   /\ Spec41.terminal Spec41.under_review = false
   /\ Spec41.table Spec41.under_review Spec41.withdrawn = Some Spec41.applicant
   /\ MyApplicationsPage.offered (page [reviewing]) (MyApplicationsPage.ClickWithdraw 0) = false
   /\ MyApplicationsPage.offered (page [waiting]) (MyApplicationsPage.ClickWithdraw 0) = true)
  /\ ~ (forall (st : MyApplicationsPage.state) (i : nat) (a : Application),
          MyApplicationsPage.loading st = false ->
          nth_error (MyApplicationsPage.applications st) i = Some a ->
          application_status a = lit "pending"
          \/ application_status a = lit "under_review" ->
          MyApplicationsPage.offered st (MyApplicationsPage.ClickWithdraw i) = true).
Proof.
  split; [repeat split|].
  intros H.
  specialize (H {| MyApplicationsPage.applications :=
                     [Sample.application_1 (lit "under_review")];
                   MyApplicationsPage.loading := false;
                   MyApplicationsPage.error := [] |}
                0 (Sample.application_1 (lit "under_review"))
                eq_refl eq_refl (or_intror eq_refl)).
  discriminate H.
Qed.

(* ===================================================================== *)
(** ** Properties of the ledger *)
(* ===================================================================== *)

Section LedgerFacts.

Import Ledger.

Lemma find_application_set_status (l : t) (id : Z) (s : Spec41.status) :
  find_application (set_status id s l) id
  = match find_application l id with
    | Some a =>
        Some {| app_id := app_id a; app_project := app_project a;
                app_applicant := app_applicant a; app_role := app_role a;
                app_cover_letter := app_cover_letter a; app_status := s |}
    | None => None
    end.
Proof.
  unfold find_application, set_status; simpl.
  induction (applications l) as [|a apps IH]; simpl; [reflexivity|].
  destruct (Z.eqb (app_id a) id) eqn:E; simpl; rewrite E; [reflexivity | exact IH].
Qed.

Lemma join_keeps (l l1 : t) (proj user : Z) (role : str) :
  join l proj user role = Succeeded l1 ->
  applications l1 = applications l /\ projects l1 = projects l.
Proof.
  unfold join. destruct (has_active_collaboration l proj user); [discriminate|].
  intros E; inversion E; subst; simpl; auto.
Qed.

Lemma ensure_keeps (l : t) (proj : Z) :
  applications (ensure l proj) = applications l
  /\ projects (ensure l proj) = projects l.
Proof.
  unfold ensure. destruct (existsb _ _); simpl; auto.
Qed.

(** Accepting an application that is already accepted, by the project's
    creator, succeeds and returns the ledger as it was. *)
Lemma reaccept_noop (l : t) (id who : Z) (a : application) (p : project) :
  find_application l id = Some a ->
  app_status a = Spec41.accepted ->
  find_project l (app_project a) = Some p ->
  who = proj_creator p ->
  transition l id Spec41.accepted who = Succeeded l.
Proof.
  intros Ha Hs Hp ->. unfold transition. rewrite Ha, Hp, Hs.
  unfold wrong_actor; simpl. rewrite Z.eqb_refl. reflexivity.
Qed.

End LedgerFacts.

(** C2. At the ledger, accepting an application that is already
    [accepted] succeeds and changes nothing: the ledger returned is the
    one given, so no collaboration is added and no event is emitted.  In
    particular, after any successful accept a second accept of the same
    application by the same actor succeeds and returns the same ledger. *)
Theorem accept_twice_is_idempotent :
  (forall (l : Ledger.t) (id who : Z) (a : Ledger.application) (p : Ledger.project),
     Ledger.find_application l id = Some a ->
     Ledger.app_status a = Spec41.accepted ->
     Ledger.find_project l (Ledger.app_project a) = Some p ->
     who = Ledger.proj_creator p ->
     exists l',
       Ledger.transition l id Spec41.accepted who = Ledger.Succeeded l'
       /\ l' = l
       /\ Ledger.collaborations l' = Ledger.collaborations l
       /\ Ledger.events l' = Ledger.events l)
  /\ (forall (l l1 : Ledger.t) (id who : Z),
        Ledger.transition l id Spec41.accepted who = Ledger.Succeeded l1 ->
        Ledger.transition l1 id Spec41.accepted who = Ledger.Succeeded l1).
Proof.
  split.
  - intros l id who a p Ha Hs Hp Hw. exists l.
    rewrite (reaccept_noop l id Ha Hs Hp Hw). auto.
  - intros l l1 id who H. unfold Ledger.transition in H.
    destruct (Ledger.find_application l id) as [a|] eqn:Ha; [|discriminate].
    destruct (Ledger.find_project l (Ledger.app_project a)) as [p|] eqn:Hp;
      [|discriminate].
    unfold Ledger.wrong_actor in H; simpl in H.
    destruct (Z.eqb who (Ledger.proj_creator p)) eqn:Ew; simpl in H;
      [|discriminate].
    apply Z.eqb_eq in Ew.
    destruct (Ledger.app_status a) eqn:Hs; simpl in H; try discriminate.
    + (* pending *)
      destruct (Ledger.join _ _ _ _) as [ks | l2] eqn:Ej; [discriminate|].
      inversion H; subst l1; clear H.
      apply join_keeps in Ej. destruct Ej as [Eapps Eprojs].
      destruct (ensure_keeps l2 (Ledger.app_project a)) as [Eapps' Eprojs'].
      pose proof (find_application_set_status l id Spec41.accepted) as Hf.
      rewrite Ha in Hf.
      eapply reaccept_noop with (p := p).
      * unfold Ledger.find_application in *. rewrite Eapps', Eapps. exact Hf.
      * reflexivity.
      * simpl. unfold Ledger.find_project in *. rewrite Eprojs', Eprojs. exact Hp.
      * exact Ew.
    + (* under_review *)
      destruct (Ledger.join _ _ _ _) as [ks | l2] eqn:Ej; [discriminate|].
      inversion H; subst l1; clear H.
      apply join_keeps in Ej. destruct Ej as [Eapps Eprojs].
      destruct (ensure_keeps l2 (Ledger.app_project a)) as [Eapps' Eprojs'].
      pose proof (find_application_set_status l id Spec41.accepted) as Hf.
      rewrite Ha in Hf.
      eapply reaccept_noop with (p := p).
      * unfold Ledger.find_application in *. rewrite Eapps', Eapps. exact Hf.
      * reflexivity.
      * simpl. unfold Ledger.find_project in *. rewrite Eprojs', Eprojs. exact Hp.
      * exact Ew.
    + (* accepted already *)
      inversion H; subst l1.
      apply (reaccept_noop l id Ha Hs Hp Ew).
Qed.

Lemma accept_twice_is_idempotent_witness :
  Ledger.transition Sample.ledger_2 11 Spec41.accepted 3
  = Ledger.Succeeded Sample.ledger_3
  /\ Ledger.transition Sample.ledger_3 11 Spec41.accepted 3
     = Ledger.Succeeded Sample.ledger_3
  /\ (exists l',
        Ledger.transition Sample.ledger_3 11 Spec41.accepted 3 = Ledger.Succeeded l'
        /\ l' = Sample.ledger_3
        /\ Ledger.collaborations l' = Ledger.collaborations Sample.ledger_3
        /\ Ledger.events l' = Ledger.events Sample.ledger_3)
  /\ List.length (Ledger.collaborations Sample.ledger_3) = 1.
Proof.
  destruct accept_twice_is_idempotent as [H1 H2].
  assert (H : Ledger.transition Sample.ledger_2 11 Spec41.accepted 3
              = Ledger.Succeeded Sample.ledger_3) by (vm_compute; reflexivity).
  split; [exact H|]. split; [exact (H2 _ _ _ _ H)|]. split; [|reflexivity].
  eapply (H1 Sample.ledger_3 11%Z 3%Z).
  - vm_compute. reflexivity.
  - reflexivity.
  - vm_compute. reflexivity.
  - reflexivity.
Defined.

(* ===================================================================== *)
(** ** Properties of the conversation page *)
(* ===================================================================== *)





Lemma pollEffect_period (id : route_param) (st : ConversationPage.state) (p : N) :
  ConversationPage.pollEffect id st = Some p -> p = 3000%N.
Proof.
  unfold ConversationPage.pollEffect.
  destruct (param_missing id || ConversationPage.loading st); [discriminate|].
  intros E; inversion E; reflexivity.
Qed.

(** One failed poll: it ends in no write, and the requests are the fetch
    and the console log. *)
Lemma poll_failed_run (id : route_param) (W : Type) (o : world W) (w w1 : W)
      (held : ConversationPage.state) (e : thrown) :
  o (GetConversation id) w = (Throw e, w1) ->
  run o (ConversationPage.poll id held) w
  = (fun st => st, snd (o (ConsoleError ConversationPage.poll_failed_text e) w1),
     [GetConversation id; ConsoleError ConversationPage.poll_failed_text e]).
Proof.
  intros E. unfold ConversationPage.poll. simpl. rewrite E. simpl.
  destruct (o (ConsoleError ConversationPage.poll_failed_text e) w1) as [u w2].
  reflexivity.
Qed.

Lemma run_after {S W : Type} (o : world W) (a : act S) (f : S -> act S) :
  forall w,
    run o (after a f) w
    = let '(s, w1, t) := run o a w in
      let '(s', w2, t') := run o (f s) w1 in
      (s', w2, t ++ t').
Proof.
  induction a as [s | r k IH]; intros w; simpl.
  - destruct (run o (f s) w) as [[s' w2] t']. reflexivity.
  - destruct (o r w) as [x w1]. rewrite IH.
    destruct (run o (k x) w1) as [[s w2] t].
    destruct (run o (f s) w2) as [[s' w3] t']. reflexivity.
Qed.

Lemma run_landing {S W : Type} (o : world W) (a : act (S -> S)) (cur : S) :
  forall w,
    run o (landing a cur) w
    = let '(write, w1, t) := run o a w in (write cur, w1, t).
Proof.
  induction a as [u | r k IH]; intros w; simpl; [reflexivity|].
  destruct (o r w) as [x w1]. rewrite IH.
  destruct (run o (k x) w1) as [[u w2] t]. reflexivity.
Qed.

Lemma ticks_failed_run (id : route_param) (W : Type) (o : world W)
      (st : ConversationPage.state) :
  fetch_always_fails o id ->
  ConversationPage.pollEffect id st <> None ->
  forall (n : nat) (w : W),
    let r := run o (ConversationPage.ticks id n st) w in
    final_state r = st
    /\ List.length (filter ConversationPage.is_fetch (trace r)) = n
    /\ forallb (fun q => negb (ConversationPage.is_user_visible q)) (trace r) = true.
Proof.
  intros Hfail Hon n. induction n as [|n IH]; intros w.
  - simpl. repeat split.
  - cbn [ConversationPage.ticks].
    destruct (ConversationPage.pollEffect id st) as [p|] eqn:Ep; [|congruence].
    cbv zeta. rewrite run_after, run_landing.
    destruct (Hfail w) as [e [w1 E]].
    rewrite (@poll_failed_run id W o w w1 st e E).
    specialize (IH (snd (o (ConsoleError ConversationPage.poll_failed_text e) w1))).
    destruct (run o (ConversationPage.ticks id n st) _) as [[s' w2] t'].
    unfold final_state, trace in *; simpl in *.
    destruct IH as [H1 [H2 H3]]. repeat split; auto.
Qed.

(** C8. A poll whose conversation fetch throws writes nothing: whatever
    state the page is in when the failure is caught, it is left as it
    is, error text and message list included; the poll makes no request
    the user sees, only the fetch and a console log; and the polling
    effect is as before, so an installed interval stays installed, with
    its period of 3000 ms.  While every fetch fails, [n] firings of the
    interval make [n] fetches and still leave the page as it was. *)
Theorem poll_failure_is_silent :
  (forall (id : route_param) (W : Type) (o : world W) (w w1 : W)
          (held st : ConversationPage.state) (e : thrown),
     o (GetConversation id) w = (Throw e, w1) ->
     let r := run o (ConversationPage.poll id held) w in
     final_state r st = st
     /\ ConversationPage.error (final_state r st) = ConversationPage.error st
     /\ ConversationPage.messages (final_state r st)
        = ConversationPage.messages st
     /\ trace r = [GetConversation id;
                   ConsoleError (lit "Failed to poll messages:") e]
     /\ forallb (fun q => negb (ConversationPage.is_user_visible q)) (trace r) = true
     /\ ConversationPage.pollEffect id (final_state r st)
        = ConversationPage.pollEffect id st)
  /\ (forall (id : route_param) (st : ConversationPage.state) (p : N),
        ConversationPage.pollEffect id st = Some p -> p = 3000%N)
  /\ (forall (id : route_param) (W : Type) (o : world W)
             (st : ConversationPage.state) (n : nat) (w : W),
        fetch_always_fails o id ->
        ConversationPage.pollEffect id st <> None ->
        let r := run o (ConversationPage.ticks id n st) w in
        final_state r = st
        /\ List.length (filter ConversationPage.is_fetch (trace r)) = n
        /\ forallb (fun q => negb (ConversationPage.is_user_visible q)) (trace r) = true).
Proof.
  split; [|split].
  - intros id W o w w1 held st e E r. subst r.
    rewrite (@poll_failed_run id W o w w1 held e E). unfold final_state, trace; simpl.
    repeat split.
  - exact pollEffect_period.
  - intros id W o st n w Hf Hon. apply ticks_failed_run; assumption.
Qed.

Lemma poll_failure_is_silent_witness :
  (let r := run (canned Sample.failing)
              (ConversationPage.poll (Some (lit "5"))
                 (Sample.chat_page (lit "draft") false)) 0 in
   final_state r (Sample.chat_page (lit "draft") false)
   = Sample.chat_page (lit "draft") false
   /\ final_state r (Sample.chat_page (lit "another draft") true)
      = Sample.chat_page (lit "another draft") true
   /\ ConversationPage.pollEffect (Some (lit "5"))
        (final_state r (Sample.chat_page (lit "draft") false))
      = Some 3000%N)
  /\ (let r := run (canned Sample.failing)
                 (ConversationPage.ticks (Some (lit "5")) 4
                    (Sample.chat_page (lit "draft") false)) 0 in
      final_state r = Sample.chat_page (lit "draft") false
      /\ List.length (filter ConversationPage.is_fetch (trace r)) = 4).
Proof.
  destruct poll_failure_is_silent as [H1 [_ H3]].
  split.
  - destruct (H1 (Some (lit "5")) nat (canned Sample.failing) 0 1
                 (Sample.chat_page (lit "draft") false)
                 (Sample.chat_page (lit "draft") false)
                 (ErrorObj (lit "An error occurred")) eq_refl)
      as [Hs [_ [_ [_ [_ Hp]]]]].
    destruct (H1 (Some (lit "5")) nat (canned Sample.failing) 0 1
                 (Sample.chat_page (lit "draft") false)
                 (Sample.chat_page (lit "another draft") true)
                 (ErrorObj (lit "An error occurred")) eq_refl)
      as [Hs' _].
    split; [exact Hs|]. split; [exact Hs'|]. rewrite Hp. reflexivity.
  - destruct (H3 (Some (lit "5")) nat (canned Sample.failing)
                 (Sample.chat_page (lit "draft") false) 4 0) as [Hs [Hn _]].
    + intros w. exists (ErrorObj (lit "An error occurred")), (S w). reflexivity.
    + discriminate.
    + split; assumption.
Defined.

(** C10. On a successful poll the callback compares the length of the
    fetched list with the length of the list its closure captured, that
    of the render that installed the interval.  If the fetched list is
    strictly longer than the captured one, the callback calls
    [markAsRead] and its write puts the fetched list in place of
    whatever list the page holds by then, leaving the other cells alone;
    otherwise it writes nothing and does not call [markAsRead].  When
    nothing else wrote the page meanwhile, the captured list is the one
    held.  But a send that lands while the poll is in flight makes the
    held list grow, and the poll then replaces it by a fetched list that
    is no longer than it: the message just sent is gone from the page. *)
Theorem poll_compares_with_captured_length :
  (forall (id : route_param) (W : Type) (o : world W) (w w1 : W)
          (held st : ConversationPage.state) (data : Conversation),
     o (GetConversation id) w = (Ok data, w1) ->
     let fresh := ConversationPage.messages_or_empty data in
     let r := run o (ConversationPage.poll id held) w in
     (List.length (ConversationPage.messages held) < List.length fresh ->
        ConversationPage.messages (final_state r st) = fresh
        /\ ConversationPage.conversation (final_state r st)
           = ConversationPage.conversation st
        /\ ConversationPage.loading (final_state r st)
           = ConversationPage.loading st
        /\ ConversationPage.error (final_state r st) = ConversationPage.error st
        /\ ConversationPage.newMessage (final_state r st)
           = ConversationPage.newMessage st
        /\ ConversationPage.sending (final_state r st)
           = ConversationPage.sending st
        /\ In (MarkAsRead id) (trace r))
     /\ (List.length fresh <= List.length (ConversationPage.messages held) ->
         final_state r st = st
         /\ trace r = [GetConversation id]))
  /\ (forall (id : route_param) (W : Type) (o : world W) (w : W)
             (held : ConversationPage.state) (i : route_param),
        In (MarkAsRead i) (trace (run o (ConversationPage.poll id held) w)) ->
        exists data w1,
          o (GetConversation id) w = (Ok data, w1)
          /\ List.length (ConversationPage.messages held)
             < List.length (ConversationPage.messages_or_empty data))
  /\ (let id := Some (lit "5") in
      let held := Sample.chat_page (lit "on my way") false in
      let grown :=
        final_state (run (canned Sample.accepting)
                       (ConversationPage.handleSend id held) 0) in
      let r := run (canned Sample.racing) (ConversationPage.poll id held) 0 in
      ConversationPage.messages held = [Sample.message_1]
      /\ ConversationPage.messages grown = [Sample.message_1; Sample.message_2]
      /\ ConversationPage.messages (final_state r grown)
         = [Sample.message_1; Sample.message_3]
      /\ List.length (ConversationPage.messages (final_state r grown))
         <= List.length (ConversationPage.messages grown)
      /\ ConversationPage.messages (final_state r grown)
         <> ConversationPage.messages grown
      /\ ~ In Sample.message_2
              (ConversationPage.messages (final_state r grown))).
Proof.
  split; [|split].
  - intros id W o w w1 held st data E fresh r. subst fresh r.
    unfold ConversationPage.poll. simpl. rewrite E. simpl.
    split; intros Hlen.
    + apply Nat.ltb_lt in Hlen. rewrite Hlen. simpl.
      destruct (o (MarkAsRead id) w1) as [[u | e] w2]; simpl.
      * unfold final_state, trace; simpl. repeat split; auto.
      * destruct (o (ConsoleError ConversationPage.poll_failed_text e) w2)
          as [u w3].
        unfold final_state, trace; simpl. repeat split; auto.
    + apply Nat.ltb_ge in Hlen. rewrite Hlen. simpl.
      unfold final_state, trace; simpl. auto.
  - intros id W o w held i. unfold ConversationPage.poll. simpl.
    destruct (o (GetConversation id) w) as [[data | e] w1] eqn:E; simpl.
    + destruct (List.length (ConversationPage.messages held)
                <? List.length (ConversationPage.messages_or_empty data)) eqn:Hlen.
      * intros _. exists data, w1. apply Nat.ltb_lt in Hlen. auto.
      * simpl. unfold trace; simpl. intros [H | []]. discriminate.
    + destruct (o (ConsoleError ConversationPage.poll_failed_text e) w1)
        as [u w2].
      unfold trace; simpl. intros [H | [H | []]]; discriminate.
  - cbv zeta. split; [reflexivity|]. split; [reflexivity|].
    split; [reflexivity|]. split; [vm_compute; lia|].
    split; [vm_compute; discriminate|].
    vm_compute. intros [H | [H | []]]; discriminate H.
Qed.

Lemma poll_compares_with_captured_length_witness :
  (let r := run (canned Sample.accepting)
              (ConversationPage.poll (Some (lit "5"))
                 (Sample.chat_page (lit "draft") false)) 0 in
   ConversationPage.messages
     (final_state r (Sample.chat_page (lit "draft") false))
   = [Sample.message_1; Sample.message_2]
   /\ ConversationPage.newMessage
        (final_state r (Sample.chat_page (lit "draft") false))
      = lit "draft"
   /\ In (MarkAsRead (Some (lit "5"))) (trace r))
  /\ (let held :=
        ConversationPage.setMessages [Sample.message_2; Sample.message_1]
          (Sample.chat_page (lit "draft") false) in
      let r := run (canned Sample.accepting)
                 (ConversationPage.poll (Some (lit "5")) held) 0 in
      final_state r held = held /\ trace r = [GetConversation (Some (lit "5"))]).
Proof.
  destruct poll_compares_with_captured_length as [H _].
  split.
  - destruct (H (Some (lit "5")) nat (canned Sample.accepting) 0 1
                (Sample.chat_page (lit "draft") false)
                (Sample.chat_page (lit "draft") false)
                (Sample.team_chat [Sample.message_1; Sample.message_2]) eq_refl)
      as [Hlonger _].
    assert (Hl : List.length
                   (ConversationPage.messages (Sample.chat_page (lit "draft") false))
                 < List.length
                     (ConversationPage.messages_or_empty
                        (Sample.team_chat [Sample.message_1; Sample.message_2])))
      by (simpl; lia).
    destruct (Hlonger Hl) as [Hm [_ [_ [_ [Hn [_ Hr]]]]]].
    split; [exact Hm|]. split; [exact Hn | exact Hr].
  - destruct (H (Some (lit "5")) nat (canned Sample.accepting) 0 1
                (ConversationPage.setMessages [Sample.message_2; Sample.message_1]
                   (Sample.chat_page (lit "draft") false))
                (ConversationPage.setMessages [Sample.message_2; Sample.message_1]
                   (Sample.chat_page (lit "draft") false))
                (Sample.team_chat [Sample.message_1; Sample.message_2]) eq_refl)
      as [_ Hsame].
    apply Hsame. simpl. lia.
Defined.

(* ===================================================================== *)
(** ** Properties of the collaborations page *)
(* ===================================================================== *)

Lemma leave_button_spec (st : MyCollaborationsPage.state) (c : Collaboration) :
  MyCollaborationsPage.leave_button st c = true
  <-> (MyCollaborationsPage.loading st = false
       /\ collaboration_status c = lit "active"
       /\ collaboration_role c <> lit "creator").
Proof.
  unfold MyCollaborationsPage.leave_button, MyCollaborationsPage.in_activeCollabs.
  rewrite !andb_true_iff, !negb_true_iff, eqb_eq, eqb_neq. tauto.
Qed.

(** The only [leaveCollaboration] request of [handleLeave] is for the id
    it was called with. *)
Lemma handleLeave_issues (st : MyCollaborationsPage.state) (id x : Z) :
  issues (MyCollaborationsPage.handleLeave id st) (LeaveCollaboration x) ->
  x = id.
Proof.
  simpl. intros [E | [[|] H]]; [discriminate | |contradiction].
  simpl in H. destruct H as [E | [[u | e] H]].
  - inversion E; reflexivity.
  - contradiction.
  - simpl in H. destruct H as [E | [y []]]. discriminate.
Qed.

Lemma handleLeave_keeps_ids (st st' : MyCollaborationsPage.state) (id : Z) :
  outcome (MyCollaborationsPage.handleLeave id st) st' ->
  map collaboration_id (MyCollaborationsPage.collaborations st')
  = map collaboration_id (MyCollaborationsPage.collaborations st).
Proof.
  simpl. intros [[|] H]; simpl in H; [|subst; reflexivity].
  destruct H as [[u | e] H]; simpl in H.
  - subst st'. simpl. rewrite map_map. apply map_ext.
    intros c. destruct (Z.eqb (collaboration_id c) id); reflexivity.
  - destruct H as [_ <-]. reflexivity.
Qed.

(** C7. A collaboration whose role is ['creator'] never has a "Leave"
    control.  A live "Leave" control belongs to an active collaboration
    whose role is not ['creator'], and [leaveCollaboration] is requested
    with that collaboration's id only; so, ids being distinct, no control
    of the page requests [leaveCollaboration] for a creator's
    collaboration.  What the handlers do to the list keeps its ids. *)
Theorem creator_cannot_leave :
  (forall (st : MyCollaborationsPage.state) (c : Collaboration),
     collaboration_role c = lit "creator" ->
     MyCollaborationsPage.leave_button st c = false)
  /\ (forall (st : MyCollaborationsPage.state) (i : nat) (x : Z),
        MyCollaborationsPage.offered st (MyCollaborationsPage.ClickLeave i) = true ->
        issues (MyCollaborationsPage.handle (MyCollaborationsPage.ClickLeave i) st)
               (LeaveCollaboration x) ->
        exists c,
          nth_error (MyCollaborationsPage.collaborations st) i = Some c
          /\ x = collaboration_id c
          /\ collaboration_status c = lit "active"
          /\ collaboration_role c <> lit "creator")
  /\ (forall (st : MyCollaborationsPage.state) (c : Collaboration)
             (a : MyCollaborationsPage.action),
        NoDup (map collaboration_id (MyCollaborationsPage.collaborations st)) ->
        In c (MyCollaborationsPage.collaborations st) ->
        collaboration_role c = lit "creator" ->
        MyCollaborationsPage.offered st a = true ->
        ~ issues (MyCollaborationsPage.handle a st)
                 (LeaveCollaboration (collaboration_id c)))
  /\ (forall (st st' : MyCollaborationsPage.state) (a : MyCollaborationsPage.action),
        outcome (MyCollaborationsPage.handle a st) st' ->
        map collaboration_id (MyCollaborationsPage.collaborations st')
        = map collaboration_id (MyCollaborationsPage.collaborations st)).
Proof.
  assert (Hlive : forall (st : MyCollaborationsPage.state) (i : nat) (x : Z),
        MyCollaborationsPage.offered st (MyCollaborationsPage.ClickLeave i) = true ->
        issues (MyCollaborationsPage.handle (MyCollaborationsPage.ClickLeave i) st)
               (LeaveCollaboration x) ->
        exists c,
          nth_error (MyCollaborationsPage.collaborations st) i = Some c
          /\ x = collaboration_id c
          /\ collaboration_status c = lit "active"
          /\ collaboration_role c <> lit "creator").
  { intros st i x Hoff Hiss.
    unfold MyCollaborationsPage.offered in Hoff.
    unfold MyCollaborationsPage.handle in Hiss.
    destruct (nth_error (MyCollaborationsPage.collaborations st) i) as [c|];
      [|discriminate].
    exists c. split; [reflexivity|].
    apply handleLeave_issues in Hiss.
    apply leave_button_spec in Hoff. tauto. }
  split; [|split; [exact Hlive|split]].
  - intros st c Hrole. unfold MyCollaborationsPage.leave_button.
    rewrite Hrole, eqb_refl. apply andb_false_r.
  - intros st c [i] Hnd Hin Hrole Hoff Hiss.
    destruct (Hlive st i _ Hoff Hiss) as [c' [Hnth [Hid [_ Hrole']]]].
    apply nth_error_In in Hnth.
    assert (c = c') by (eapply same_key_same_element; eauto).
    subst c'. contradiction.
  - intros st st' [i]. unfold MyCollaborationsPage.handle.
    destruct (nth_error (MyCollaborationsPage.collaborations st) i) as [c|].
    + apply handleLeave_keeps_ids.
    + simpl. intros <-. reflexivity.
Qed.

Lemma creator_cannot_leave_witness :
  MyCollaborationsPage.leave_button Sample.collaborations_page
    Sample.owner_collaboration = false
  /\ (exists c,
        nth_error (MyCollaborationsPage.collaborations Sample.collaborations_page) 1
        = Some c
        /\ 21%Z = collaboration_id c
        /\ collaboration_status c = lit "active"
        /\ collaboration_role c <> lit "creator")
  /\ ~ issues (MyCollaborationsPage.handle (MyCollaborationsPage.ClickLeave 1)
                 Sample.collaborations_page)
              (LeaveCollaboration (collaboration_id Sample.owner_collaboration)).
Proof.
  destruct creator_cannot_leave as [H1 [H2 [H3 _]]].
  split; [|split].
  - apply H1. reflexivity.
  - apply (H2 Sample.collaborations_page 1 21%Z).
    + reflexivity.
    + simpl. right. exists true. simpl. left. reflexivity.
  - apply (H3 Sample.collaborations_page Sample.owner_collaboration
              (MyCollaborationsPage.ClickLeave 1)).
    + simpl. repeat constructor; simpl; intuition discriminate.
    + left. reflexivity.
    + reflexivity.
    + reflexivity.
Defined.

(* ===================================================================== *)
(** ** Further properties of the pages: how the handlers settle *)
(* ===================================================================== *)

(** X1. Once [handleApply] has sent its request (project loaded, cover
    message long enough) it always ends with [applying] off and the
    project, role and cover message untouched.  If the request succeeds
    the modal is closed, no error is shown and the page navigates to
    /applications; if it throws, the modal stays as it was, the error
    text is the thrown message (or "Failed to apply") and nothing
    navigates. *)
Theorem handleApply_settles :
  forall (W : Type) (o : world W) (w : W) (st : ProjectDetailPage.state)
         (p : Project),
    ProjectDetailPage.project st = Some p ->
    50 <= List.length (ProjectDetailPage.coverMessage st) ->
    let call := CreateApplication (project_id p)
                  (ProjectDetailPage.selectedRole st)
                  (ProjectDetailPage.coverMessage st) in
    let r := run o (ProjectDetailPage.handleApply st) w in
    (ProjectDetailPage.applying (final_state r) = false
     /\ ProjectDetailPage.project (final_state r) = Some p
     /\ ProjectDetailPage.selectedRole (final_state r)
        = ProjectDetailPage.selectedRole st
     /\ ProjectDetailPage.coverMessage (final_state r)
        = ProjectDetailPage.coverMessage st)
    /\ (forall (a : Application) (w1 : W),
          o call w = (Ok a, w1) ->
          ProjectDetailPage.showApplyModal (final_state r) = false
          /\ ProjectDetailPage.applyError (final_state r) = []
          /\ trace r = [call; Navigate (lit "/applications")])
    /\ (forall (e : thrown) (w1 : W),
          o call w = (Throw e, w1) ->
          ProjectDetailPage.showApplyModal (final_state r)
          = ProjectDetailPage.showApplyModal st
          /\ ProjectDetailPage.applyError (final_state r)
             = message_or e (lit "Failed to apply")
          /\ trace r = [call]).
Proof.
  intros W o w st p Hp Hlen call r. subst call r.
  apply Nat.ltb_ge in Hlen.
  unfold ProjectDetailPage.handleApply. rewrite Hp, Hlen. simpl.
  destruct (o (CreateApplication (project_id p)
                 (ProjectDetailPage.selectedRole st)
                 (ProjectDetailPage.coverMessage st)) w) as [[a | e] w1] eqn:E;
    simpl.
  - destruct (o (Navigate (lit "/applications")) w1) as [u w2].
    unfold final_state, trace; simpl.
    split; [auto|]. split.
    + intros a' w1' E'. inversion E'; subst. auto.
    + intros e w1' E'. discriminate E'.
  - unfold final_state, trace; simpl.
    split; [auto|]. split.
    + intros a w1' E'. discriminate E'.
    + intros e' w1' E'. inversion E'; subst. auto.
Qed.

Lemma handleApply_settles_witness :
  (let r := run (canned Sample.accepting)
              (ProjectDetailPage.handleApply (Sample.applying_page Sample.long_cover)) 0 in
   ProjectDetailPage.showApplyModal (final_state r) = false
   /\ trace r = [CreateApplication 1 (lit "Backend") Sample.long_cover;
                 Navigate (lit "/applications")])
  /\ (let r := run (canned Sample.failing)
                 (ProjectDetailPage.handleApply (Sample.applying_page Sample.long_cover)) 0 in
      ProjectDetailPage.showApplyModal (final_state r) = true
      /\ ProjectDetailPage.applyError (final_state r) = lit "An error occurred"
      /\ ProjectDetailPage.applying (final_state r) = false).
Proof.
  assert (Hlen : 50 <= List.length Sample.long_cover) by (vm_compute; lia).
  split.
  - destruct (@handleApply_settles nat (canned Sample.accepting) 0
                (Sample.applying_page Sample.long_cover) Sample.backend_project
                eq_refl Hlen) as [_ [Hok _]].
    destruct (Hok (Sample.application_1 (lit "pending")) 1 eq_refl)
      as [H1 [_ H3]].
    split; assumption.
  - destruct (@handleApply_settles nat (canned Sample.failing) 0
                (Sample.applying_page Sample.long_cover) Sample.backend_project
                eq_refl Hlen) as [[Ha _] [_ Hfail]].
    destruct (Hfail (ErrorObj (lit "An error occurred")) 1 eq_refl)
      as [H1 [H2 _]].
    repeat split; assumption.
Defined.

(** X2. The project fetch on a fresh page.  Without a route id it makes
    no request and leaves the page on its spinner.  With one it makes
    exactly the [getProject] request; on success the page shows the
    project with its first declared role preselected; on failure the
    page shows "Project Not Found" and offers no control at all. *)
Theorem fetchProject_settles :
  (forall (W : Type) (o : world W) (w : W) (id : route_param)
          (user : option User),
     param_missing id = true ->
     run o (ProjectDetailPage.fetchProject id ProjectDetailPage.init) w
     = (ProjectDetailPage.init, w, [])
     /\ ProjectDetailPage.render ProjectDetailPage.init
        = ProjectDetailPage.Spinner
     /\ forall a,
          ProjectDetailPage.offered user ProjectDetailPage.init a = false)
  /\ (forall (W : Type) (o : world W) (w : W) (i : str),
        truthy i = true ->
        let r := run o (ProjectDetailPage.fetchProject (Some i)
                          ProjectDetailPage.init) w in
        trace r = [GetProject i]
        /\ (forall (data : Project) (w1 : W),
              o (GetProject i) w = (Ok data, w1) ->
              ProjectDetailPage.render (final_state r)
              = ProjectDetailPage.Details data
              /\ ProjectDetailPage.selectedRole (final_state r)
                 = hd [] (ProjectDetailPage.roles_of data))
        /\ (forall (e : thrown) (w1 : W),
              o (GetProject i) w = (Throw e, w1) ->
              ProjectDetailPage.render (final_state r)
              = ProjectDetailPage.ProjectNotFound
              /\ forall user a,
                   ProjectDetailPage.offered user (final_state r) a = false)).
Proof.
  split.
  - intros W o w id user Hm. unfold ProjectDetailPage.fetchProject.
    rewrite Hm. simpl. repeat split.
  - intros W o w i Hi r. subst r. unfold ProjectDetailPage.fetchProject.
    unfold param_missing. rewrite Hi. simpl.
    destruct (o (GetProject i) w) as [[data | e] w1] eqn:E;
      unfold final_state, trace; simpl.
    + split; [reflexivity|]. split.
      * intros data' w1' E'. inversion E'; subst.
        unfold ProjectDetailPage.roles_of.
        destruct (roles_needed data') as [[|r0 rs]|]; simpl; auto.
      * intros e w1' E'. discriminate E'.
    + split; [reflexivity|]. split.
      * intros data w1' E'. discriminate E'.
      * intros e' w1' E'. inversion E'; subst.
        assert (Hv : ProjectDetailPage.render
                  (ProjectDetailPage.setLoading false
                     (ProjectDetailPage.setError
                        (message_or e' (lit "Failed to load project"))
                        ProjectDetailPage.init))
                = ProjectDetailPage.ProjectNotFound).
        { unfold ProjectDetailPage.render; simpl.
          destruct (truthy (message_or e' (lit "Failed to load project")));
            reflexivity. }
        split; [exact Hv|].
        intros user a. unfold ProjectDetailPage.offered. rewrite Hv.
        reflexivity.
Qed.

Lemma fetchProject_settles_witness :
  run (canned Sample.accepting)
      (ProjectDetailPage.fetchProject None ProjectDetailPage.init) 0
  = (ProjectDetailPage.init, 0, [])
  /\ (let r := run (canned Sample.accepting)
                 (ProjectDetailPage.fetchProject (Some (lit "1"))
                    ProjectDetailPage.init) 0 in
      ProjectDetailPage.render (final_state r)
      = ProjectDetailPage.Details Sample.backend_project
      /\ ProjectDetailPage.selectedRole (final_state r) = lit "Backend")
  /\ (let r := run (canned Sample.failing)
                 (ProjectDetailPage.fetchProject (Some (lit "1"))
                    ProjectDetailPage.init) 0 in
      ProjectDetailPage.render (final_state r)
      = ProjectDetailPage.ProjectNotFound).
Proof.
  destruct fetchProject_settles as [H1 H2].
  split; [|split].
  - apply (H1 nat (canned Sample.accepting) 0 None None eq_refl).
  - destruct (H2 nat (canned Sample.accepting) 0 (lit "1") eq_refl)
      as [_ [Hok _]].
    apply (Hok Sample.backend_project 1 eq_refl).
  - destruct (H2 nat (canned Sample.failing) 0 (lit "1") eq_refl)
      as [_ [_ Hfail]].
    apply (Hfail (ErrorObj (lit "An error occurred")) 1 eq_refl).
Defined.

(** The lists the two overview pages render, as the components compute
    them before returning. *)

(** [applications.filter(a => a.status === 'pending' || a.status === 'under_review')] *)
Definition pendingApps (st : ProjectApplicationsPage.state) : list Application :=
  filter ProjectApplicationsPage.in_pendingApps
         (ProjectApplicationsPage.applications st).

(** [applications.filter(a => a.status === 'accepted' || ... === 'withdrawn')] *)
Definition decidedApps (st : ProjectApplicationsPage.state) : list Application :=
  filter ProjectApplicationsPage.in_decidedApps
         (ProjectApplicationsPage.applications st).

(** [collaborations.filter(c => c.status === 'active')] *)
Definition activeCollabs (st : MyCollaborationsPage.state) : list Collaboration :=
  filter MyCollaborationsPage.in_activeCollabs
         (MyCollaborationsPage.collaborations st).

(** [collaborations.filter(c => c.status !== 'active')] *)
Definition pastCollabs (st : MyCollaborationsPage.state) : list Collaboration :=
  filter (fun c => negb (eqb (collaboration_status c) (lit "active")))
         (MyCollaborationsPage.collaborations st).

(** The five status strings the creator's page knows. *)
Definition known_status (a : Application) : bool :=
  ProjectApplicationsPage.in_pendingApps a
  || ProjectApplicationsPage.in_decidedApps a.

Lemma filter_split_length {A : Type} (f g : A -> bool) (l : list A) :
  (forall a, f a = true -> g a = true -> False) ->
  List.length (filter f l) + List.length (filter g l)
  = List.length (filter (fun a => f a || g a) l).
Proof.
  intros Hdis. induction l as [|a l IH]; simpl; [reflexivity|].
  destruct (f a) eqn:Ef, (g a) eqn:Eg; simpl; try lia.
  exfalso. eapply Hdis; eauto.
Qed.

Lemma filter_length_all {A : Type} (f : A -> bool) (l : list A) :
  List.length (filter f l) = List.length l <-> forallb f l = true.
Proof.
  induction l as [|a l IH]; simpl; [tauto|].
  pose proof (filter_length_le f l) as Hle.
  destruct (f a); simpl.
  - rewrite <- IH. lia.
  - split; [lia | discriminate].
Qed.

Lemma pending_not_decided (a : Application) :
  ProjectApplicationsPage.in_pendingApps a = true ->
  ProjectApplicationsPage.in_decidedApps a = true -> False.
Proof.
  unfold ProjectApplicationsPage.in_pendingApps,
    ProjectApplicationsPage.in_decidedApps.
  rewrite !orb_true_iff, !eqb_eq.
  intros [-> | ->] [[H | H] | H]; discriminate H.
Qed.

(** X3. [handleUpdateStatus] always ends with [processingId] cleared
    and with as many applications as before, the ones with another id
    untouched.  If the update throws, the list is exactly as before and
    the thrown message (or "Failed to update application") is alerted;
    if it succeeds, every entry with that id is the record the back end
    returned. *)
Theorem handleUpdateStatus_settles :
  forall (W : Type) (o : world W) (w : W)
         (st : ProjectApplicationsPage.state) (id : Z)
         (status : ProjectApplicationsPage.review),
    let call := UpdateApplication id
                  (ProjectApplicationsPage.review_string status) in
    let r := run o (ProjectApplicationsPage.handleUpdateStatus id status st) w in
    (ProjectApplicationsPage.processingId (final_state r) = None
     /\ List.length (ProjectApplicationsPage.applications (final_state r))
        = List.length (ProjectApplicationsPage.applications st)
     /\ forall (j : nat) (a : Application),
          nth_error (ProjectApplicationsPage.applications st) j = Some a ->
          application_id a <> id ->
          nth_error (ProjectApplicationsPage.applications (final_state r)) j
          = Some a)
    /\ (forall (e : thrown) (w1 : W),
          o call w = (Throw e, w1) ->
          ProjectApplicationsPage.applications (final_state r)
          = ProjectApplicationsPage.applications st
          /\ trace r
             = [call;
                Alert (message_or e (lit "Failed to update application"))])
    /\ (forall (updated : Application) (w1 : W),
          o call w = (Ok updated, w1) ->
          trace r = [call]
          /\ forall (j : nat) (a : Application),
               nth_error (ProjectApplicationsPage.applications st) j = Some a ->
               application_id a = id ->
               nth_error (ProjectApplicationsPage.applications (final_state r)) j
               = Some updated).
Proof.
  intros W o w st id status call r. subst call r.
  unfold ProjectApplicationsPage.handleUpdateStatus. simpl.
  destruct (o (UpdateApplication id
                 (ProjectApplicationsPage.review_string status)) w)
    as [[updated | e] w1] eqn:E; simpl.
  - unfold final_state, trace; simpl.
    split; [split; [reflexivity|split]|split].
    + apply length_map.
    + intros j a Hj Hne. rewrite nth_error_map, Hj. simpl.
      apply Z.eqb_neq in Hne. rewrite Hne. reflexivity.
    + intros e w1' E'. discriminate E'.
    + intros u w1' E'. inversion E'; subst. split; [reflexivity|].
      intros j a Hj He. rewrite nth_error_map, Hj. simpl.
      apply Z.eqb_eq in He. rewrite He. reflexivity.
  - destruct (o (Alert (message_or e (lit "Failed to update application"))) w1)
      as [u w2].
    unfold final_state, trace; simpl.
    split; [split; [reflexivity|split]; auto|split].
    + intros e' w1' E'. inversion E'; subst. auto.
    + intros u' w1' E'. discriminate E'.
Qed.

Lemma handleUpdateStatus_settles_witness :
  let page :=
    {| ProjectApplicationsPage.applications :=
         [Sample.application_1 (lit "pending")];
       ProjectApplicationsPage.loading := false;
       ProjectApplicationsPage.error := [];
       ProjectApplicationsPage.processingId := None |} in
  (let r := run (canned Sample.failing)
              (ProjectApplicationsPage.handleUpdateStatus 11
                 ProjectApplicationsPage.accepted page) 0 in
   ProjectApplicationsPage.applications (final_state r)
   = [Sample.application_1 (lit "pending")]
   /\ trace r = [UpdateApplication 11 (lit "accepted");
                 Alert (lit "An error occurred")])
  /\ (let r := run (canned Sample.accepting)
                 (ProjectApplicationsPage.handleUpdateStatus 11
                    ProjectApplicationsPage.accepted page) 0 in
      nth_error (ProjectApplicationsPage.applications (final_state r)) 0
      = Some (Sample.application_1 (lit "accepted"))).
Proof.
  intros page. split.
  - destruct (@handleUpdateStatus_settles nat (canned Sample.failing) 0 page
                11%Z ProjectApplicationsPage.accepted) as [_ [Hfail _]].
    apply (Hfail (ErrorObj (lit "An error occurred")) 1 eq_refl).
  - destruct (@handleUpdateStatus_settles nat (canned Sample.accepting) 0 page
                11%Z ProjectApplicationsPage.accepted) as [_ [_ Hok]].
    destruct (Hok (Sample.application_1 (lit "accepted")) 1 eq_refl)
      as [_ H].
    apply (H 0 (Sample.application_1 (lit "pending"))); reflexivity.
Defined.

(** X4. The two sections of the creator's page never share an
    application, and together they show exactly the applications whose
    status is one of the five known strings: an application with any
    other status is in neither section and has no button, so the
    sections fall short of the list by the number of such
    applications. *)
Theorem sections_cover_known_statuses :
  forall st : ProjectApplicationsPage.state,
    (forall a, In a (pendingApps st) -> ~ In a (decidedApps st))
    /\ List.length (pendingApps st) + List.length (decidedApps st)
       = List.length (filter known_status
                        (ProjectApplicationsPage.applications st))
    /\ List.length (pendingApps st) + List.length (decidedApps st)
       <= List.length (ProjectApplicationsPage.applications st)
    /\ (List.length (pendingApps st) + List.length (decidedApps st)
        = List.length (ProjectApplicationsPage.applications st)
        <-> forallb known_status (ProjectApplicationsPage.applications st) = true)
    /\ (forall a, known_status a = false ->
          ~ In a (pendingApps st) /\ ~ In a (decidedApps st)
          /\ ProjectApplicationsPage.buttons st a = []).
Proof.
  intros st. unfold pendingApps, decidedApps.
  assert (Hsum := filter_split_length
                    ProjectApplicationsPage.in_pendingApps
                    ProjectApplicationsPage.in_decidedApps
                    (ProjectApplicationsPage.applications st)
                    pending_not_decided).
  split; [|split; [exact Hsum|split; [|split]]].
  - intros a Hp Hd. apply filter_In in Hp, Hd.
    destruct Hp as [_ Hp], Hd as [_ Hd]. exact (pending_not_decided a Hp Hd).
  - rewrite Hsum. apply filter_length_le.
  - rewrite Hsum. apply filter_length_all.
  - intros a Hk. unfold known_status in Hk.
    apply orb_false_iff in Hk. destruct Hk as [Hp Hd].
    split; [|split].
    + intros H. apply filter_In in H. destruct H as [_ H]. congruence.
    + intros H. apply filter_In in H. destruct H as [_ H]. congruence.
    + unfold ProjectApplicationsPage.buttons. rewrite Hp.
      destruct (ProjectApplicationsPage.loading st); reflexivity.
Qed.

Lemma sections_cover_known_statuses_witness :
  let page :=
    {| ProjectApplicationsPage.applications :=
         [Sample.application_1 (lit "pending");
          Sample.application_1 (lit "viewed")];
       ProjectApplicationsPage.loading := false;
       ProjectApplicationsPage.error := [];
       ProjectApplicationsPage.processingId := None |} in
  List.length (pendingApps page) + List.length (decidedApps page) = 1
  /\ ~ In (Sample.application_1 (lit "viewed")) (pendingApps page)
  /\ ~ In (Sample.application_1 (lit "viewed")) (decidedApps page)
  /\ ProjectApplicationsPage.buttons page (Sample.application_1 (lit "viewed")) = [].
Proof.
  intros page.
  destruct (sections_cover_known_statuses page) as [_ [Hsum [_ [_ Hun]]]].
  split; [rewrite Hsum; reflexivity|].
  apply (Hun (Sample.application_1 (lit "viewed"))). reflexivity.
Defined.

(** X5. [handleWithdraw] asks before it acts.  If the user declines,
    nothing is requested from the back end and the page is left as it
    was.  If the update throws, the page is left as it was and the
    thrown message (or "Failed to withdraw application") is alerted.  If
    it succeeds, the list keeps its length, every application with that
    id is shown as [withdrawn] and has no "Withdraw" control any more,
    and the others are untouched. *)
Theorem handleWithdraw_settles :
  forall (W : Type) (o : world W) (w : W)
         (st : MyApplicationsPage.state) (id : Z),
    let ask := Confirm (lit "Are you sure you want to withdraw this application?") in
    let call := UpdateApplication id (lit "withdrawn") in
    let r := run o (MyApplicationsPage.handleWithdraw id st) w in
    (forall w1 : W,
       o ask w = (false, w1) ->
       final_state r = st /\ trace r = [ask])
    /\ (forall (w1 w2 : W) (e : thrown),
          o ask w = (true, w1) ->
          o call w1 = (Throw e, w2) ->
          final_state r = st
          /\ trace r
             = [ask; call;
                Alert (message_or e (lit "Failed to withdraw application"))])
    /\ (forall (w1 w2 : W) (updated : Application),
          o ask w = (true, w1) ->
          o call w1 = (Ok updated, w2) ->
          trace r = [ask; call]
          /\ List.length (MyApplicationsPage.applications (final_state r))
             = List.length (MyApplicationsPage.applications st)
          /\ forall (j : nat) (a : Application),
               nth_error (MyApplicationsPage.applications st) j = Some a ->
               exists a',
                 nth_error (MyApplicationsPage.applications (final_state r)) j
                 = Some a'
                 /\ (application_id a <> id -> a' = a)
                 /\ (application_id a = id ->
                     a' = MyApplicationsPage.with_status (lit "withdrawn") a
                     /\ MyApplicationsPage.withdraw_button (final_state r) a'
                        = false)).
Proof.
  intros W o w st id ask call r. subst ask call r.
  unfold MyApplicationsPage.handleWithdraw. simpl.
  destruct (o (Confirm (lit "Are you sure you want to withdraw this application?")) w)
    as [[|] w1] eqn:Ea; simpl.
  - destruct (o (UpdateApplication id (lit "withdrawn")) w1)
      as [[updated | e] w2] eqn:Eu; simpl.
    + unfold final_state, trace; simpl.
      split; [intros w1' E'; discriminate E'|].
      split.
      * intros w1' w2' e E1 E2. inversion E1; subst. rewrite Eu in E2.
        discriminate E2.
      * intros w1' w2' u E1 E2. split; [reflexivity|].
        split; [apply length_map|].
        intros j a Hj. rewrite nth_error_map, Hj. simpl.
        eexists; split; [reflexivity|]. split.
        -- intros Hne. apply Z.eqb_neq in Hne. rewrite Hne. reflexivity.
        -- intros He. apply Z.eqb_eq in He. rewrite He.
           split; [reflexivity|].
           unfold MyApplicationsPage.withdraw_button; simpl.
           apply andb_false_r.
    + destruct (o (Alert (message_or e (lit "Failed to withdraw application"))) w2)
        as [u w3].
      unfold final_state, trace; simpl.
      split; [intros w1' E'; discriminate E'|].
      split.
      * intros w1' w2' e' E1 E2. inversion E1; subst. rewrite Eu in E2.
        inversion E2; subst. auto.
      * intros w1' w2' u' E1 E2. inversion E1; subst. rewrite Eu in E2.
        discriminate E2.
  - unfold final_state, trace; simpl.
    split; [auto|].
    split; intros w1' w2' x E1; discriminate E1.
Qed.

(** A user who declines every dialog, in front of a working back end. *)
Definition declining (r : req) : resp r :=
  match r as r0 return resp r0 with
  | Confirm _ => false
  | r0 => Sample.accepting r0
  end.

Lemma handleWithdraw_settles_witness :
  let page :=
    {| MyApplicationsPage.applications := [Sample.application_1 (lit "pending")];
       MyApplicationsPage.loading := false;
       MyApplicationsPage.error := [] |} in
  (let r := run (canned declining) (MyApplicationsPage.handleWithdraw 11 page) 0 in
   final_state r = page
   /\ trace r = [Confirm (lit "Are you sure you want to withdraw this application?")])
  /\ (let r := run (canned Sample.failing) (MyApplicationsPage.handleWithdraw 11 page) 0 in
      final_state r = page)
  /\ (let r := run (canned Sample.accepting) (MyApplicationsPage.handleWithdraw 11 page) 0 in
      List.length (MyApplicationsPage.applications (final_state r)) = 1).
Proof.
  intros page. split; [|split].
  - destruct (@handleWithdraw_settles nat (canned declining) 0 page 11%Z)
      as [H _].
    apply (H 1 eq_refl).
  - destruct (@handleWithdraw_settles nat (canned Sample.failing) 0 page 11%Z)
      as [_ [H _]].
    apply (H 1 2 (ErrorObj (lit "An error occurred")) eq_refl eq_refl).
  - destruct (@handleWithdraw_settles nat (canned Sample.accepting) 0 page 11%Z)
      as [_ [_ H]].
    apply (H 1 2 (Sample.application_1 (lit "withdrawn")) eq_refl eq_refl).
Defined.

Lemma leave_map_absent (id : Z) (l : list Collaboration) :
  ~ In id (map collaboration_id l) ->
  map (fun c => if Z.eqb (collaboration_id c) id
                then MyCollaborationsPage.with_status (lit "left") c else c) l
  = l.
Proof.
  induction l as [|x l IH]; simpl; [reflexivity|].
  intros Hn. destruct (Z.eqb (collaboration_id x) id) eqn:E.
  - apply Z.eqb_eq in E. exfalso. apply Hn. left. exact E.
  - rewrite IH; [reflexivity | tauto].
Qed.

Lemma leave_active_count (c : Collaboration) (l : list Collaboration) :
  NoDup (map collaboration_id l) ->
  In c l ->
  MyCollaborationsPage.in_activeCollabs c = true ->
  List.length
    (filter MyCollaborationsPage.in_activeCollabs
       (map (fun x => if Z.eqb (collaboration_id x) (collaboration_id c)
                      then MyCollaborationsPage.with_status (lit "left") x
                      else x) l)) + 1
  = List.length (filter MyCollaborationsPage.in_activeCollabs l).
Proof.
  induction l as [|x l IH]; simpl; [tauto|].
  intros Hnd Hin Hact. inversion Hnd as [|k ks Hnotin Hnd']; subst.
  destruct (Z.eqb (collaboration_id x) (collaboration_id c)) eqn:E.
  - apply Z.eqb_eq in E.
    assert (x = c).
    { destruct Hin as [H | H]; [exact H|].
      exfalso. apply Hnotin. rewrite E. apply in_map, H. }
    subst x. rewrite leave_map_absent by exact Hnotin.
    rewrite Hact. simpl. lia.
  - destruct Hin as [H | H]; [subst x; rewrite Z.eqb_refl in E; discriminate|].
    specialize (IH Hnd' H Hact).
    destruct (MyCollaborationsPage.in_activeCollabs x); simpl; lia.
Qed.

Lemma active_past_partition (l : list Collaboration) :
  List.length (filter MyCollaborationsPage.in_activeCollabs l)
  + List.length (filter (fun c => negb (eqb (collaboration_status c) (lit "active"))) l)
  = List.length l.
Proof.
  induction l as [|x l IH]; simpl; [reflexivity|].
  unfold MyCollaborationsPage.in_activeCollabs at 1.
  destruct (eqb (collaboration_status x) (lit "active")); simpl; lia.
Qed.

(** X6. The collaborations page splits its list in two: every
    collaboration is either under "Active" or under "Past".  A live
    "Leave" control, once confirmed and accepted by the back end, moves
    exactly that collaboration to "Past" with status [left] (ids being
    distinct): "Active" loses one entry, "Past" gains one, and the
    control is gone.  If the user declines, or the request throws, the
    page is left as it was. *)
Theorem leaving_moves_to_past :
  (forall st : MyCollaborationsPage.state,
     List.length (activeCollabs st) + List.length (pastCollabs st)
     = List.length (MyCollaborationsPage.collaborations st))
  /\ (forall (W : Type) (o : world W) (w w1 w2 : W)
             (st : MyCollaborationsPage.state) (i : nat) (c : Collaboration)
             (u : unit),
        let ask := Confirm (lit "Are you sure you want to leave this collaboration? You may not be able to rejoin.") in
        nth_error (MyCollaborationsPage.collaborations st) i = Some c ->
        MyCollaborationsPage.offered st (MyCollaborationsPage.ClickLeave i) = true ->
        NoDup (map collaboration_id (MyCollaborationsPage.collaborations st)) ->
        o ask w = (true, w1) ->
        o (LeaveCollaboration (collaboration_id c)) w1 = (Ok u, w2) ->
        let r := run o (MyCollaborationsPage.handle
                          (MyCollaborationsPage.ClickLeave i) st) w in
        List.length (activeCollabs (final_state r)) + 1
        = List.length (activeCollabs st)
        /\ List.length (pastCollabs (final_state r))
           = List.length (pastCollabs st) + 1
        /\ nth_error (MyCollaborationsPage.collaborations (final_state r)) i
           = Some (MyCollaborationsPage.with_status (lit "left") c)
        /\ MyCollaborationsPage.offered (final_state r)
             (MyCollaborationsPage.ClickLeave i) = false)
  /\ (forall (W : Type) (o : world W) (w w1 : W)
             (st : MyCollaborationsPage.state) (id : Z),
        o (Confirm (lit "Are you sure you want to leave this collaboration? You may not be able to rejoin.")) w
        = (false, w1) ->
        let r := run o (MyCollaborationsPage.handleLeave id st) w in
        final_state r = st /\ forall x, ~ In (LeaveCollaboration x) (trace r))
  /\ (forall (W : Type) (o : world W) (w w1 w2 : W)
             (st : MyCollaborationsPage.state) (id : Z) (e : thrown),
        o (Confirm (lit "Are you sure you want to leave this collaboration? You may not be able to rejoin.")) w
        = (true, w1) ->
        o (LeaveCollaboration id) w1 = (Throw e, w2) ->
        let r := run o (MyCollaborationsPage.handleLeave id st) w in
        final_state r = st
        /\ In (Alert (message_or e (lit "Failed to leave collaboration")))
              (trace r)).
Proof.
  split; [|split; [|split]].
  - intros st. apply active_past_partition.
  - intros W o w w1 w2 st i c u ask Hi Hoff Hnd Ea El r. subst ask r.
    assert (Hc : MyCollaborationsPage.leave_button st c = true).
    { unfold MyCollaborationsPage.offered in Hoff. rewrite Hi in Hoff.
      exact Hoff. }
    apply leave_button_spec in Hc. destruct Hc as [Hload [Hact Hrole]].
    assert (Hact' : MyCollaborationsPage.in_activeCollabs c = true).
    { unfold MyCollaborationsPage.in_activeCollabs. rewrite Hact. reflexivity. }
    unfold MyCollaborationsPage.handle. rewrite Hi.
    unfold MyCollaborationsPage.handleLeave. simpl. rewrite Ea. simpl.
    rewrite El. unfold final_state; simpl.
    assert (Hin : In c (MyCollaborationsPage.collaborations st))
      by (eapply nth_error_In; eauto).
    pose proof (leave_active_count c _ Hnd Hin Hact') as Hcount.
    assert (Hnth :
      nth_error
        (map (fun x => if Z.eqb (collaboration_id x) (collaboration_id c)
                       then MyCollaborationsPage.with_status (lit "left") x
                       else x)
             (MyCollaborationsPage.collaborations st)) i
      = Some (MyCollaborationsPage.with_status (lit "left") c)).
    { rewrite nth_error_map, Hi. simpl. rewrite Z.eqb_refl. reflexivity. }
    split; [exact Hcount|]. split; [|split; [exact Hnth|]].
    + pose proof (active_past_partition (MyCollaborationsPage.collaborations st))
        as Hp0.
      pose proof (active_past_partition
                    (map (fun x => if Z.eqb (collaboration_id x) (collaboration_id c)
                                   then MyCollaborationsPage.with_status (lit "left") x
                                   else x)
                         (MyCollaborationsPage.collaborations st))) as Hp1.
      rewrite length_map in Hp1.
      unfold pastCollabs, activeCollabs in *; simpl in *. lia.
    + unfold MyCollaborationsPage.offered; simpl. rewrite Hnth.
      unfold MyCollaborationsPage.leave_button,
        MyCollaborationsPage.in_activeCollabs; simpl.
      rewrite andb_false_r. reflexivity.
  - intros W o w w1 st id Ea r. subst r.
    unfold MyCollaborationsPage.handleLeave. simpl. rewrite Ea. simpl.
    unfold final_state, trace; simpl. split; [reflexivity|].
    intros x [H | []]. discriminate H.
  - intros W o w w1 w2 st id e Ea El r. subst r.
    unfold MyCollaborationsPage.handleLeave. simpl. rewrite Ea. simpl.
    rewrite El. simpl.
    destruct (o (Alert (message_or e (lit "Failed to leave collaboration"))) w2)
      as [u w3].
    unfold final_state, trace; simpl. auto.
Qed.

Lemma leaving_moves_to_past_witness :
  (let r := run (canned Sample.accepting)
              (MyCollaborationsPage.handle (MyCollaborationsPage.ClickLeave 1)
                 Sample.collaborations_page) 0 in
   List.length (activeCollabs (final_state r)) + 1
   = List.length (activeCollabs Sample.collaborations_page)
   /\ List.length (pastCollabs (final_state r))
      = List.length (pastCollabs Sample.collaborations_page) + 1
   /\ nth_error (MyCollaborationsPage.collaborations (final_state r)) 1
      = Some (MyCollaborationsPage.with_status (lit "left")
                Sample.member_collaboration)
   /\ MyCollaborationsPage.offered (final_state r)
        (MyCollaborationsPage.ClickLeave 1) = false)
  /\ (let r := run (canned declining)
                 (MyCollaborationsPage.handleLeave 21 Sample.collaborations_page) 0 in
      final_state r = Sample.collaborations_page)
  /\ (let r := run (canned Sample.failing)
                 (MyCollaborationsPage.handleLeave 21 Sample.collaborations_page) 0 in
      final_state r = Sample.collaborations_page).
Proof.
  destruct leaving_moves_to_past as [_ [H2 [H3 H4]]].
  split; [|split].
  - apply (H2 nat (canned Sample.accepting) 0 1 2 Sample.collaborations_page 1
              Sample.member_collaboration tt); try reflexivity.
    simpl. repeat constructor; simpl; intuition discriminate.
  - apply (H3 nat (canned declining) 0 1 Sample.collaborations_page 21%Z eq_refl).
  - apply (H4 nat (canned Sample.failing) 0 1 2 Sample.collaborations_page 21%Z
              (ErrorObj (lit "An error occurred")) eq_refl eq_refl).
Defined.

(** X7. The first load of the conversation page always ends with the
    spinner off.  If the fetch throws, only that request is made and the
    page shows the error box.  If it succeeds, the messages of the answer
    are held (none when the answer carries no list) and [markAsRead] is
    called; if [markAsRead] then throws with a non-empty message the page
    shows the error box although the conversation and its messages are
    held.  Whatever the outcome, polling starts as soon as the load has
    settled, provided the route has an id. *)
Theorem fetchConversation_settles :
  forall (W : Type) (o : world W) (w : W) (id : route_param),
    let r := run o (ConversationPage.fetchConversation id ConversationPage.init) w in
    ConversationPage.loading (final_state r) = false
    /\ ConversationPage.pollEffect id (final_state r)
       = (if param_missing id then None else Some 3000%N)
    /\ (forall (e : thrown) (w1 : W),
          o (GetConversation id) w = (Throw e, w1) ->
          trace r = [GetConversation id]
          /\ ConversationPage.messages (final_state r) = []
          /\ ConversationPage.render (final_state r) = ConversationPage.ErrorBox)
    /\ (forall (data : Conversation) (w1 w2 : W) (u : unit),
          o (GetConversation id) w = (Ok data, w1) ->
          o (MarkAsRead id) w1 = (Ok u, w2) ->
          trace r = [GetConversation id; MarkAsRead id]
          /\ ConversationPage.messages (final_state r)
             = ConversationPage.messages_or_empty data
          /\ ConversationPage.render (final_state r) = ConversationPage.Chat)
    /\ (forall (data : Conversation) (w1 w2 : W) (e : thrown),
          o (GetConversation id) w = (Ok data, w1) ->
          o (MarkAsRead id) w1 = (Throw e, w2) ->
          ConversationPage.conversation (final_state r) = Some data
          /\ ConversationPage.messages (final_state r)
             = ConversationPage.messages_or_empty data
          /\ ConversationPage.error (final_state r)
             = message_or e (lit "Failed to load conversation")
          /\ (truthy (message_or e (lit "Failed to load conversation")) = true ->
              ConversationPage.render (final_state r) = ConversationPage.ErrorBox)).
Proof.
  intros W o w id r. subst r.
  unfold ConversationPage.fetchConversation. simpl.
  destruct (o (GetConversation id) w) as [[data | e] w1] eqn:Eg; simpl.
  - destruct (o (MarkAsRead id) w1) as [[u | e] w2] eqn:Em;
      unfold final_state, trace; simpl.
    + split; [reflexivity|]. split.
      { unfold ConversationPage.pollEffect; simpl. rewrite orb_false_r.
        reflexivity. }
      split; [intros e w1' E; discriminate E|]. split.
      * intros d w1' w2' u' E1 E2. inversion E1; subst. auto.
      * intros d w1' w2' e E1 E2. inversion E1; subst. rewrite Em in E2.
        discriminate E2.
    + split; [reflexivity|]. split.
      { unfold ConversationPage.pollEffect; simpl. rewrite orb_false_r.
        reflexivity. }
      split; [intros e' w1' E; discriminate E|]. split.
      * intros d w1' w2' u' E1 E2. inversion E1; subst. rewrite Em in E2.
        discriminate E2.
      * intros d w1' w2' e' E1 E2. inversion E1; subst. rewrite Em in E2.
        inversion E2; subst. repeat split.
        intros Ht. unfold ConversationPage.render; simpl. rewrite Ht.
        reflexivity.
  - unfold final_state, trace; simpl.
    split; [reflexivity|]. split.
    { unfold ConversationPage.pollEffect; simpl. rewrite orb_false_r.
      reflexivity. }
    split; [|split].
    + intros e' w1' E. inversion E; subst. repeat split.
      unfold ConversationPage.render; simpl.
      destruct (truthy (message_or e' (lit "Failed to load conversation")));
        reflexivity.
    + intros d w1' w2' u E1. discriminate E1.
    + intros d w1' w2' e' E1. discriminate E1.
Qed.

(** A back end whose [markAsRead] is broken and the rest works. *)
Definition unread (r : req) : resp r :=
  match r as r0 return resp r0 with
  | MarkAsRead _ => Throw (ErrorObj (lit "An error occurred"))
  | r0 => Sample.accepting r0
  end.

Lemma fetchConversation_settles_witness :
  (let r := run (canned Sample.accepting)
              (ConversationPage.fetchConversation (Some (lit "5"))
                 ConversationPage.init) 0 in
   ConversationPage.messages (final_state r)
   = [Sample.message_1; Sample.message_2]
   /\ ConversationPage.render (final_state r) = ConversationPage.Chat)
  /\ (let r := run (canned unread)
                 (ConversationPage.fetchConversation (Some (lit "5"))
                    ConversationPage.init) 0 in
      ConversationPage.messages (final_state r)
      = [Sample.message_1; Sample.message_2]
      /\ ConversationPage.render (final_state r) = ConversationPage.ErrorBox)
  /\ (let r := run (canned Sample.failing)
                 (ConversationPage.fetchConversation (Some (lit "5"))
                    ConversationPage.init) 0 in
      ConversationPage.render (final_state r) = ConversationPage.ErrorBox
      /\ ConversationPage.pollEffect (Some (lit "5")) (final_state r)
         = Some 3000%N).
Proof.
  split; [|split].
  - destruct (@fetchConversation_settles nat (canned Sample.accepting) 0
                (Some (lit "5"))) as [_ [_ [_ [H _]]]].
    destruct (H (Sample.team_chat [Sample.message_1; Sample.message_2]) 1 2 tt
                eq_refl eq_refl) as [_ [Hm Hr]].
    split; assumption.
  - destruct (@fetchConversation_settles nat (canned unread) 0
                (Some (lit "5"))) as [_ [_ [_ [_ H]]]].
    destruct (H (Sample.team_chat [Sample.message_1; Sample.message_2]) 1 2
                (ErrorObj (lit "An error occurred")) eq_refl eq_refl)
      as [_ [Hm [_ Hr]]].
    split; [exact Hm | apply Hr; reflexivity].
  - destruct (@fetchConversation_settles nat (canned Sample.failing) 0
                (Some (lit "5"))) as [_ [Hp [H _]]].
    destruct (H (ErrorObj (lit "An error occurred")) 1 eq_refl) as [_ [_ Hr]].
    split; [exact Hr | exact Hp].
Defined.

(** X8. Typing leaves the message list alone, and a send leaves it alone
    or adds the one returned message at its end.  The write of a poll,
    whatever state it lands on, changes the message list only, and only
    to a list strictly longer than the one the callback captured.  So a
    poll makes the displayed list no shorter as long as the list has not
    grown beyond the captured one while the poll was in flight. *)
Theorem messages_shrink_only_in_flight :
  (forall (id : route_param) (a : ConversationPage.action)
          (st st' : ConversationPage.state),
     outcome (ConversationPage.handle id a st) st' ->
     match a with
     | ConversationPage.EditMessage _ =>
         ConversationPage.messages st' = ConversationPage.messages st
     | ConversationPage.SubmitForm =>
         ConversationPage.messages st' = ConversationPage.messages st
         \/ exists m,
              ConversationPage.messages st'
              = ConversationPage.messages st ++ [m]
     end)
  /\ (forall (id : route_param) (held st : ConversationPage.state)
             (write : ConversationPage.state -> ConversationPage.state),
        outcome (ConversationPage.poll id held) write ->
        (write st = st
         \/ List.length (ConversationPage.messages held)
            < List.length (ConversationPage.messages (write st)))
        /\ ConversationPage.newMessage (write st) = ConversationPage.newMessage st
        /\ ConversationPage.sending (write st) = ConversationPage.sending st
        /\ ConversationPage.error (write st) = ConversationPage.error st
        /\ ConversationPage.loading (write st) = ConversationPage.loading st
        /\ ConversationPage.conversation (write st)
           = ConversationPage.conversation st
        /\ (List.length (ConversationPage.messages st)
            <= List.length (ConversationPage.messages held) ->
            List.length (ConversationPage.messages st)
            <= List.length (ConversationPage.messages (write st)))).
Proof.
  split.
  - intros id [text | ] st st'; simpl.
    + intros <-. reflexivity.
    + unfold ConversationPage.handleSend.
      destruct (ConversationPage.blank (ConversationPage.newMessage st)
                || ConversationPage.sending st); simpl.
      * intros <-. auto.
      * intros [[m | e] H]; simpl in H.
        -- subst st'. simpl. right. exists m. reflexivity.
        -- destruct H as [_ <-]. simpl. auto.
  - intros id held st write. unfold ConversationPage.poll. simpl.
    intros [[data | e] H]; simpl in H.
    + destruct (List.length (ConversationPage.messages held)
                <? List.length (ConversationPage.messages_or_empty data))
        eqn:Hlen; simpl in H.
      * apply Nat.ltb_lt in Hlen.
        assert (Hw : write
                     = ConversationPage.setMessages
                         (ConversationPage.messages_or_empty data)).
        { destruct H as [[u | e] H]; simpl in H;
            [symmetry; exact H | destruct H as [_ H]; symmetry; exact H]. }
        subst write. simpl.
        split; [right; exact Hlen|]. repeat split. lia.
      * subst write. simpl. split; [left; reflexivity|]. repeat split. lia.
    + destruct H as [_ <-]. simpl. split; [left; reflexivity|].
      repeat split. lia.
Qed.

Lemma messages_shrink_only_in_flight_witness :
  let held := Sample.chat_page (lit "hi") false in
  let write :=
    ConversationPage.setMessages [Sample.message_1; Sample.message_2] in
  List.length (ConversationPage.messages held)
  <= List.length (ConversationPage.messages (write held))
  /\ ConversationPage.newMessage (write held) = lit "hi".
Proof.
  intros held write.
  destruct messages_shrink_only_in_flight as [_ H].
  destruct (H (Some (lit "5")) held held write) as [_ [Hn [_ [_ [_ [_ Hl]]]]]].
  - simpl. exists (Ok (Sample.team_chat [Sample.message_1; Sample.message_2])).
    simpl. exists (Ok tt). reflexivity.
  - split; [apply Hl; lia | exact Hn].
Defined.

(** X9. A send that throws costs the user nothing: the page, typed text
    included, ends exactly as it was before the attempt, and the thrown
    message (or "Failed to send message") is alerted.  A send that
    succeeds empties the input.  Either way [sending] is off at the
    end. *)
Theorem failed_send_keeps_draft :
  forall (W : Type) (o : world W) (w w1 : W) (id : route_param)
         (st : ConversationPage.state),
    ConversationPage.blank (ConversationPage.newMessage st) = false ->
    ConversationPage.sending st = false ->
    let call := SendMessage id (trim (ConversationPage.newMessage st)) in
    let r := run o (ConversationPage.handleSend id st) w in
    ConversationPage.sending (final_state r) = false
    /\ (forall e : thrown,
          o call w = (Throw e, w1) ->
          final_state r = st
          /\ trace r = [call; Alert (message_or e (lit "Failed to send message"))])
    /\ (forall m : Message,
          o call w = (Ok m, w1) ->
          ConversationPage.newMessage (final_state r) = []
          /\ trace r = [call]).
Proof.
  intros W o w w1 id st Hb Hs call r. subst call r.
  unfold ConversationPage.handleSend. rewrite Hb, Hs. simpl.
  destruct (o (SendMessage id (trim (ConversationPage.newMessage st))) w)
    as [[m | e] w1'] eqn:E; simpl.
  - unfold final_state, trace; simpl.
    split; [reflexivity|]. split.
    + intros e E'. discriminate E'.
    + intros m' E'. auto.
  - destruct (o (Alert (message_or e (lit "Failed to send message"))) w1')
      as [u w2].
    unfold final_state, trace; simpl.
    split; [reflexivity|]. split.
    + intros e' E'. inversion E'; subst. split; [|reflexivity].
      destruct st; simpl in *. subst. reflexivity.
    + intros m E'. discriminate E'.
Qed.

Lemma failed_send_keeps_draft_witness :
  let r := run (canned Sample.failing)
             (ConversationPage.handleSend (Some (lit "5"))
                (Sample.chat_page (lit "  welcome ") false)) 0 in
  final_state r = Sample.chat_page (lit "  welcome ") false
  /\ trace r = [SendMessage (Some (lit "5")) (trim (lit "  welcome "));
                Alert (lit "An error occurred")].
Proof.
  destruct (@failed_send_keeps_draft nat (canned Sample.failing) 0 1
              (Some (lit "5")) (Sample.chat_page (lit "  welcome ") false)
              eq_refl eq_refl) as [_ [H _]].
  apply (H (ErrorObj (lit "An error occurred"))). reflexivity.
Defined.

(* ===================================================================== *)
(** * Part II: the form, the API client and the session

    The code around the pages above: the project form of
    CreateProjectPage.tsx, the token handling of api/client.ts, the
    [AuthProvider] of hooks/useAuth.tsx and the route guard of
    components/ProtectedRoute.tsx. *)
(* ===================================================================== *)

(** ** Programs over a signature of requests *)

Module Eff.

Section Signature.

Variable R : Type.
Variable A : R -> Type.

Inductive prog (S : Type) : Type :=
| Ret (s : S)
| Ask (r : R) (k : A r -> prog S).
Arguments Ret {S} s.
Arguments Ask {S} r k.

(** Along some answers, the program makes request [q]. *)
Fixpoint asks {S : Type} (p : prog S) (q : R) : Prop :=
  match p with
  | Ret _ => False
  | Ask r k => r = q \/ exists x, asks (k x) q
  end.

(** For some answers, the program ends with [s]. *)
Fixpoint ends {S : Type} (p : prog S) (s : S) : Prop :=
  match p with
  | Ret s0 => s0 = s
  | Ask r k => exists x, ends (k x) s
  end.

Fixpoint bind {S T : Type} (p : prog S) (f : S -> prog T) : prog T :=
  match p with
  | Ret s => f s
  | Ask r k => Ask r (fun x => bind (k x) f)
  end.

(** Running against a world: result, final world, requests in order. *)
Fixpoint exec {S W : Type} (o : forall r : R, W -> A r * W)
         (p : prog S) (w : W) : S * W * list R :=
  match p with
  | Ret s => (s, w, [])
  | Ask r k =>
      let '(x, w1) := o r w in
      let '(s, w2, t) := exec o (k x) w1 in
      (s, w2, r :: t)
  end.

Definition final {S W : Type} (x : S * W * list R) : S := fst (fst x).
Definition world_after {S W : Type} (x : S * W * list R) : W := snd (fst x).
Definition asked {S W : Type} (x : S * W * list R) : list R := snd x.

End Signature.

Arguments prog : clear implicits.
Arguments Ret {R A S} s.
Arguments Ask {R A S} r k.

End Eff.

(* ===================================================================== *)
(** ** CreateProjectPage.tsx, first component *)
(* ===================================================================== *)

Module CreateProjectPage.

Import Eff.

Definition ROLE_OPTIONS : list str :=
  map lit ["Frontend"; "Backend"; "Full-stack"; "Mobile"; "ML/AI"; "Data";
           "DevOps"; "Designer"; "PM"; "Writer"; "Other"]%string.

Record state : Type := {
  loading : bool;
  error : str;
  title : str;
  description : str;
  detailedDescription : str;
  category : str;
  techStack : str;
  desiredRoles : list str;
  commitmentHours : str;
  duration : str;
  teamSizeNeeded : str;
  visibility : str
}.

Definition init : state :=
  {| loading := false; error := []; title := []; description := [];
     detailedDescription := []; category := []; techStack := [];
     desiredRoles := []; commitmentHours := []; duration := [];
     teamSizeNeeded := lit "1"; visibility := lit "public" |}.

Definition setLoading (v : bool) (s : state) : state :=
  {| loading := v; error := error s; title := title s;
     description := description s;
     detailedDescription := detailedDescription s; category := category s;
     techStack := techStack s; desiredRoles := desiredRoles s;
     commitmentHours := commitmentHours s; duration := duration s;
     teamSizeNeeded := teamSizeNeeded s; visibility := visibility s |}.

Definition setError (v : str) (s : state) : state :=
  {| loading := loading s; error := v; title := title s;
     description := description s;
     detailedDescription := detailedDescription s; category := category s;
     techStack := techStack s; desiredRoles := desiredRoles s;
     commitmentHours := commitmentHours s; duration := duration s;
     teamSizeNeeded := teamSizeNeeded s; visibility := visibility s |}.

Definition setDesiredRoles (v : list str) (s : state) : state :=
  {| loading := loading s; error := error s; title := title s;
     description := description s;
     detailedDescription := detailedDescription s; category := category s;
     techStack := techStack s; desiredRoles := v;
     commitmentHours := commitmentHours s; duration := duration s;
     teamSizeNeeded := teamSizeNeeded s; visibility := visibility s |}.

(** [desiredRoles.includes(role)] *)
Definition includes (roles : list str) (role : str) : bool :=
  existsb (fun r => eqb r role) roles.

Definition toggleRole (role : str) (st : state) : state :=
  if includes (desiredRoles st) role then
    setDesiredRoles (filter (fun r => negb (eqb r role)) (desiredRoles st)) st
  else
    setDesiredRoles (desiredRoles st ++ [role]) st.

(** [s.split(',')]: the pieces between commas; the empty string gives one
    empty piece. *)
Fixpoint split_commas (s : str) : list str :=
  match s with
  | [] => [[]]
  | c :: s' =>
      if (c =? 44)%N then [] :: split_commas s'
      else
        match split_commas s' with
        | p :: ps => (c :: p) :: ps
        | [] => [[c]]
        end
  end.

(** [techStack.split(',').map(t => t.trim()).filter(t => t)] *)
Definition tech_stack_of (techStack : str) : list str :=
  filter truthy (map trim (split_commas techStack)).

(** The object given to [projectsApi.createProject].  [team_size] is
    [parseInt(teamSizeNeeded)], carried as the text it is parsed from;
    [detailed_description] is [detailedDescription || undefined]. *)
Record payload : Type := {
  payload_title : str;
  payload_description : str;
  payload_detailed_description : option str;
  payload_category : str;
  payload_tech_stack : list str;
  payload_roles_needed : list str;
  payload_commitment_hours : str;
  payload_duration : str;
  payload_team_size : str;
  payload_visibility : str;
  payload_status : str
}.

Inductive request : Type :=
| CreateProject (p : payload)
| NavigateToProject (id : Z).     (* navigate(`/projects/${project.id}`) *)

Definition answer (r : request) : Type :=
  match r with
  | CreateProject _ => result Project
  | NavigateToProject _ => unit
  end.

(** [!s.trim()] *)
Definition blank (s : str) : bool := negb (truthy (trim s)).

Definition payload_of (st : state) (asDraft : bool) : payload :=
  {| payload_title := title st;
     payload_description := description st;
     payload_detailed_description :=
       if truthy (detailedDescription st) then Some (detailedDescription st)
       else None;
     payload_category := category st;
     payload_tech_stack := tech_stack_of (techStack st);
     payload_roles_needed := desiredRoles st;
     payload_commitment_hours := commitmentHours st;
     payload_duration := duration st;
     payload_team_size := teamSizeNeeded st;
     payload_visibility := visibility st;
     payload_status := if asDraft then lit "draft" else lit "open" |}.

Definition handleSubmit (asDraft : bool) (st : state) : prog request answer state :=
  let st0 := setError [] st in
  if blank (title st) then Ret (setError (lit "Title is required") st0)
  else if blank (description st) then
    Ret (setError (lit "Description is required") st0)
  else if negb (truthy (category st)) then
    Ret (setError (lit "Category is required") st0)
  else if Nat.eqb (List.length (desiredRoles st)) 0 then
    Ret (setError (lit "Please select at least one role") st0)
  else if negb (truthy (commitmentHours st)) then
    Ret (setError (lit "Commitment hours is required") st0)
  else if negb (truthy (duration st)) then
    Ret (setError (lit "Duration is required") st0)
  else
    let st1 := setLoading true st0 in
    Ask (CreateProject (payload_of st asDraft)) (fun r =>
      match r with
      | Ok project =>
          Ask (NavigateToProject (project_id project)) (fun _ =>
            Ret (setLoading false st1))
      | Throw e =>
          Ret (setLoading false
                 (setError (message_or e (lit "Failed to create project")) st1))
      end).

(** The role buttons of the form: one per entry of [ROLE_OPTIONS]. *)
Inductive toggled : state -> Prop :=
| toggled_init : toggled init
| toggled_role st role :
    toggled st -> In role ROLE_OPTIONS -> toggled (toggleRole role st).

End CreateProjectPage.

(** [pieces.join(',')], to state what [split_commas] keeps. *)
Fixpoint join_commas (l : list str) : str :=
  match l with
  | [] => []
  | p :: l' =>
      match l' with
      | [] => p
      | _ :: _ => p ++ 44%N :: join_commas l'
      end
  end.

(* ===================================================================== *)
(** ** Facts about [trim] and [split] *)
(* ===================================================================== *)

Lemma trimStart_head (s : str) (c : code_unit) (t : str) :
  trimStart s = c :: t -> is_space c = false.
Proof.
  induction s as [|x s IH]; simpl; [discriminate|].
  destruct (is_space x) eqn:E; [exact IH|].
  intros H; inversion H; subst; exact E.
Qed.

Lemma trimStart_incl (s : str) (x : code_unit) :
  In x (trimStart s) -> In x s.
Proof.
  induction s as [|c s IH]; simpl; [tauto|].
  destruct (is_space c); simpl; tauto.
Qed.

Lemma trimStart_idem (s : str) : trimStart (trimStart s) = trimStart s.
Proof.
  induction s as [|c s IH]; simpl; [reflexivity|].
  destruct (is_space c) eqn:E; [exact IH|]. simpl. rewrite E. reflexivity.
Qed.

Lemma trimStart_snoc (l : str) (c : code_unit) :
  is_space c = false -> exists u, trimStart (l ++ [c]) = u ++ [c].
Proof.
  intros Hc. induction l as [|x l IH]; simpl.
  - rewrite Hc. exists []. reflexivity.
  - destruct (is_space x); [exact IH|]. exists (x :: l). reflexivity.
Qed.

Lemma trimEnd_incl (s : str) (x : code_unit) : In x (trimEnd s) -> In x s.
Proof.
  unfold trimEnd. intros H. apply in_rev in H. apply trimStart_incl in H.
  apply in_rev. exact H.
Qed.

Lemma trimEnd_idem (s : str) : trimEnd (trimEnd s) = trimEnd s.
Proof.
  unfold trimEnd. rewrite rev_involutive, trimStart_idem. reflexivity.
Qed.

Lemma trimEnd_last (s u : str) (c : code_unit) :
  trimEnd s = u ++ [c] -> is_space c = false.
Proof.
  unfold trimEnd. intros H.
  assert (H' : trimStart (rev s) = c :: rev u).
  { rewrite <- (rev_involutive (trimStart (rev s))), H, rev_app_distr.
    reflexivity. }
  exact (@trimStart_head _ _ _ H').
Qed.

Lemma trimEnd_keeps_head (c : code_unit) (t : str) :
  is_space c = false -> exists t', trimEnd (c :: t) = c :: t'.
Proof.
  intros Hc. unfold trimEnd. simpl.
  destruct (@trimStart_snoc (rev t) c Hc) as [u Hu]. rewrite Hu.
  rewrite rev_app_distr. simpl. eauto.
Qed.

(** A trimmed string that is not empty begins and ends with a code unit
    that is not white space. *)
Lemma trim_ends (s : str) :
  trim s <> [] ->
  (exists c t, trim s = c :: t /\ is_space c = false)
  /\ (exists u c, trim s = u ++ [c] /\ is_space c = false).
Proof.
  intros Hne. unfold trim in *. split.
  - destruct (trimStart s) as [|c t] eqn:E; [exfalso; apply Hne; reflexivity|].
    pose proof (@trimStart_head _ _ _ E) as Hc.
    destruct (@trimEnd_keeps_head c t Hc) as [t' Ht']. eauto.
  - destruct (exists_last Hne) as [u [c Huc]].
    exists u, c. split; [exact Huc|]. exact (@trimEnd_last _ _ _ Huc).
Qed.

Lemma trim_idem (s : str) : trim (trim s) = trim s.
Proof.
  destruct (list_eq_dec N.eq_dec (trim s) []) as [E | Hne].
  - rewrite E. reflexivity.
  - destruct (@trim_ends s Hne) as [[c [t [Hct Hc]]] _].
    unfold trim at 1.
    assert (Hs : trimStart (trim s) = trim s).
    { rewrite Hct. simpl. rewrite Hc. reflexivity. }
    rewrite Hs. unfold trim. apply trimEnd_idem.
Qed.

Lemma trim_incl (s : str) (x : code_unit) : In x (trim s) -> In x s.
Proof.
  unfold trim. intros H. apply trimEnd_incl, trimStart_incl in H. exact H.
Qed.

Lemma split_commas_nonempty (s : str) : CreateProjectPage.split_commas s <> [].
Proof.
  induction s as [|c s IH]; simpl; [discriminate|].
  destruct (c =? 44)%N; [discriminate|].
  destruct (CreateProjectPage.split_commas s); discriminate.
Qed.

Lemma split_commas_no_comma (s p : str) :
  In p (CreateProjectPage.split_commas s) -> ~ In 44%N p.
Proof.
  revert p. induction s as [|c s IH]; simpl; intros p.
  - intros [<- | []]. tauto.
  - destruct (c =? 44)%N eqn:E.
    + intros [<- | H]; [tauto | exact (IH p H)].
    + apply N.eqb_neq in E.
      destruct (CreateProjectPage.split_commas s) as [|q qs] eqn:Es.
      * intros [<- | []]. simpl. intuition congruence.
      * intros [<- | H].
        -- simpl. intros [H | H]; [congruence|].
           exact (IH q (or_introl eq_refl) H).
        -- exact (IH p (or_intror H)).
Qed.

Lemma join_commas_cons (c : code_unit) (p : str) (ps : list str) :
  join_commas ((c :: p) :: ps) = c :: join_commas (p :: ps).
Proof. destruct ps; reflexivity. Qed.

Lemma join_split_commas (s : str) :
  join_commas (CreateProjectPage.split_commas s) = s.
Proof.
  induction s as [|c s IH]; simpl; [reflexivity|].
  destruct (c =? 44)%N eqn:E.
  - apply N.eqb_eq in E. subst c.
    pose proof (split_commas_nonempty s) as Hne.
    destruct (CreateProjectPage.split_commas s) as [|q qs]; [congruence|].
    simpl in *. rewrite IH. reflexivity.
  - pose proof (split_commas_nonempty s) as Hne.
    destruct (CreateProjectPage.split_commas s) as [|q qs]; [congruence|].
    rewrite join_commas_cons, IH. reflexivity.
Qed.

(** X10. What the form sends as [tech_stack]: each entry is a trimmed
    piece of the typed text between two commas, so it is not empty, holds
    no comma, neither begins nor ends with white space and is left alone
    by a further [trim]; the pieces themselves, joined by commas, give
    the typed text back, so nothing but white space and commas is
    dropped.  A text of white space and commas only gives no entry. *)
Theorem tech_stack_entries_are_clean :
  forall s : str,
    (forall t : str,
       In t (CreateProjectPage.tech_stack_of s) ->
       t <> []
       /\ ~ In 44%N t
       /\ (exists p, In p (CreateProjectPage.split_commas s) /\ t = trim p)
       /\ (exists c rest, t = c :: rest /\ is_space c = false)
       /\ (exists front c, t = front ++ [c] /\ is_space c = false)
       /\ trim t = t)
    /\ join_commas (CreateProjectPage.split_commas s) = s
    /\ (forallb (fun c => is_space c || (c =? 44)%N) s = true ->
        CreateProjectPage.tech_stack_of s = []).
Proof.
  intros s. split; [|split; [apply join_split_commas|]].
  - intros t Ht. unfold CreateProjectPage.tech_stack_of in Ht.
    apply filter_In in Ht. destruct Ht as [Hin Htr].
    apply in_map_iff in Hin. destruct Hin as [p [<- Hp]].
    assert (Hne : trim p <> []) by (intros E; rewrite E in Htr; discriminate).
    destruct (@trim_ends p Hne) as [Hhead Hlast].
    split; [exact Hne|]. split.
    { intros H. apply trim_incl in H. exact (@split_commas_no_comma s p Hp H). }
    split; [eauto|]. split; [exact Hhead|]. split; [exact Hlast|].
    apply trim_idem.
  - intros Hall. unfold CreateProjectPage.tech_stack_of.
    assert (Hpieces : forall p, In p (CreateProjectPage.split_commas s) ->
                                forallb is_space p = true).
    { clear -Hall. induction s as [|c s IH]; simpl; intros p.
      - intros [<- | []]. reflexivity.
      - simpl in Hall. apply andb_true_iff in Hall. destruct Hall as [Hc Hs].
        destruct (c =? 44)%N eqn:E.
        + intros [<- | H]; [reflexivity | exact (IH Hs p H)].
        + rewrite orb_false_r in Hc.
          destruct (CreateProjectPage.split_commas s) as [|q qs] eqn:Es.
          * intros [<- | []]. simpl. rewrite Hc. reflexivity.
          * intros [<- | H].
            -- simpl. rewrite Hc. simpl. apply (IH Hs q). left. reflexivity.
            -- apply (IH Hs p). right. exact H. }
    induction (CreateProjectPage.split_commas s) as [|p ps IHp]; simpl;
      [reflexivity|].
    assert (Htp : trim p = []).
    { apply trim_nil_iff. apply Hpieces. left. reflexivity. }
    rewrite Htp. simpl. apply IHp. intros q Hq. apply Hpieces. right. exact Hq.
Qed.

Lemma tech_stack_entries_are_clean_witness :
  CreateProjectPage.tech_stack_of (lit " React, Node.js ,,  ")
  = [lit "React"; lit "Node.js"]
  /\ trim (lit "Node.js") = lit "Node.js"
  /\ CreateProjectPage.tech_stack_of (lit " , ,") = [].
Proof.
  destruct (tech_stack_entries_are_clean (lit " React, Node.js ,,  "))
    as [H _].
  destruct (tech_stack_entries_are_clean (lit " , ,")) as [_ [_ H3]].
  split; [reflexivity|]. split.
  - apply (H (lit "Node.js")). vm_compute. auto.
  - apply H3. reflexivity.
Defined.

Lemma includes_In (roles : list str) (role : str) :
  CreateProjectPage.includes roles role = true <-> In role roles.
Proof.
  unfold CreateProjectPage.includes. rewrite existsb_exists. split.
  - intros [r [Hin Hr]]. apply eqb_eq in Hr. subst. exact Hin.
  - intros H. exists role. split; [exact H | apply eqb_refl].
Qed.

Lemma filter_out_absent (role : str) (l : list str) :
  ~ In role l -> filter (fun r => negb (eqb r role)) l = l.
Proof.
  induction l as [|x l IH]; simpl; [reflexivity|].
  intros Hn. destruct (eqb x role) eqn:E; simpl.
  - apply eqb_eq in E. exfalso. apply Hn. left. exact E.
  - rewrite IH; [reflexivity | tauto].
Qed.

(** X11. A role button flips its own role and no other: after
    [toggleRole role] the role is selected exactly if it was not before,
    every other role is selected exactly if it was, and a selection
    without repeats stays without repeats.  Toggling a role that was not
    selected twice gives the selection back.  Hence whatever the buttons
    of the form have done, the selection has no repeats, holds roles of
    [ROLE_OPTIONS] only and at most eleven of them. *)
Theorem toggleRole_flips_one_role :
  (forall (role other : str) (st : CreateProjectPage.state),
     let st' := CreateProjectPage.toggleRole role st in
     (In role (CreateProjectPage.desiredRoles st')
      <-> ~ In role (CreateProjectPage.desiredRoles st))
     /\ (other <> role ->
         (In other (CreateProjectPage.desiredRoles st')
          <-> In other (CreateProjectPage.desiredRoles st)))
     /\ (NoDup (CreateProjectPage.desiredRoles st) ->
         NoDup (CreateProjectPage.desiredRoles st'))
     /\ (~ In role (CreateProjectPage.desiredRoles st) ->
         CreateProjectPage.desiredRoles (CreateProjectPage.toggleRole role st')
         = CreateProjectPage.desiredRoles st))
  /\ (forall st : CreateProjectPage.state,
        CreateProjectPage.toggled st ->
        NoDup (CreateProjectPage.desiredRoles st)
        /\ incl (CreateProjectPage.desiredRoles st) CreateProjectPage.ROLE_OPTIONS
        /\ List.length (CreateProjectPage.desiredRoles st) <= 11).
Proof.
  assert (Hstep : forall (role other : str) (st : CreateProjectPage.state),
     let st' := CreateProjectPage.toggleRole role st in
     (In role (CreateProjectPage.desiredRoles st')
      <-> ~ In role (CreateProjectPage.desiredRoles st))
     /\ (other <> role ->
         (In other (CreateProjectPage.desiredRoles st')
          <-> In other (CreateProjectPage.desiredRoles st)))
     /\ (NoDup (CreateProjectPage.desiredRoles st) ->
         NoDup (CreateProjectPage.desiredRoles st'))
     /\ (~ In role (CreateProjectPage.desiredRoles st) ->
         CreateProjectPage.desiredRoles (CreateProjectPage.toggleRole role st')
         = CreateProjectPage.desiredRoles st)).
  { assert (Hdef : forall role st,
       CreateProjectPage.desiredRoles (CreateProjectPage.toggleRole role st)
       = if CreateProjectPage.includes (CreateProjectPage.desiredRoles st) role
         then filter (fun r => negb (eqb r role)) (CreateProjectPage.desiredRoles st)
         else CreateProjectPage.desiredRoles st ++ [role]).
    { intros role st. unfold CreateProjectPage.toggleRole.
      destruct (CreateProjectPage.includes _ role); reflexivity. }
    intros role other st st'. subst st'.
    rewrite (Hdef role (CreateProjectPage.toggleRole role st)).
    rewrite !(Hdef role st).
    destruct (CreateProjectPage.includes (CreateProjectPage.desiredRoles st) role)
      eqn:Hinc.
    - apply includes_In in Hinc.
      split; [|split; [|split]].
      + rewrite filter_In, eqb_refl. simpl. split; [intros [_ H]; discriminate|tauto].
      + intros Hne. rewrite filter_In, negb_true_iff, eqb_neq. tauto.
      + apply NoDup_filter.
      + tauto.
    - assert (Hnot : ~ In role (CreateProjectPage.desiredRoles st)).
      { intros H. apply includes_In in H. congruence. }
      split; [|split; [|split]].
      + rewrite in_app_iff. simpl. tauto.
      + intros Hne. rewrite in_app_iff. simpl. intuition congruence.
      + intros Hnd. apply NoDup_app; [exact Hnd | repeat constructor; simpl; tauto|].
        intros x Hx [<- | []]. contradiction.
      + intros _.
        assert (Hin : CreateProjectPage.includes
                        (CreateProjectPage.desiredRoles st ++ [role]) role = true).
        { apply includes_In. apply in_or_app. right. left. reflexivity. }
        rewrite Hin. rewrite filter_app. simpl. rewrite eqb_refl. simpl.
        rewrite app_nil_r. apply filter_out_absent. exact Hnot. }
  split; [exact Hstep|].
  assert (Hinv : forall st, CreateProjectPage.toggled st ->
     NoDup (CreateProjectPage.desiredRoles st)
     /\ incl (CreateProjectPage.desiredRoles st) CreateProjectPage.ROLE_OPTIONS).
  { induction 1 as [| st role Ht [IHn IHi] Hrole].
    - split; [constructor | intros x []].
    - destruct (Hstep role role st) as [_ [_ [Hnd _]]].
      split; [exact (Hnd IHn)|].
      intros x Hx.
      destruct (list_eq_dec N.eq_dec x role) as [-> | Hne]; [exact Hrole|].
      destruct (Hstep role x st) as [_ [Hother _]].
      apply IHi. apply (Hother Hne). exact Hx. }
  intros st Ht. destruct (Hinv st Ht) as [Hn Hi].
  split; [exact Hn|]. split; [exact Hi|].
  change 11 with (List.length CreateProjectPage.ROLE_OPTIONS).
  apply NoDup_incl_length; assumption.
Qed.

Lemma toggleRole_flips_one_role_witness :
  let st := CreateProjectPage.toggleRole (lit "Backend") CreateProjectPage.init in
  In (lit "Backend") (CreateProjectPage.desiredRoles st)
  /\ CreateProjectPage.desiredRoles
       (CreateProjectPage.toggleRole (lit "Backend") st) = []
  /\ List.length (CreateProjectPage.desiredRoles st) <= 11.
Proof.
  intros st. destruct toggleRole_flips_one_role as [H1 H2].
  destruct (H1 (lit "Backend") (lit "Designer") CreateProjectPage.init)
    as [Hin [_ [_ Hback]]].
  split; [|split].
  - apply Hin. simpl. tauto.
  - apply Hback. simpl. tauto.
  - apply H2. apply CreateProjectPage.toggled_role.
    + constructor.
    + vm_compute. tauto.
Defined.

(** The six checks of [handleSubmit], as the form states them. *)
Definition form_complete (st : CreateProjectPage.state) : Prop :=
  CreateProjectPage.blank (CreateProjectPage.title st) = false
  /\ CreateProjectPage.blank (CreateProjectPage.description st) = false
  /\ CreateProjectPage.category st <> []
  /\ CreateProjectPage.desiredRoles st <> []
  /\ CreateProjectPage.commitmentHours st <> []
  /\ CreateProjectPage.duration st <> [].

Lemma truthy_false_iff (s : str) : truthy s = false <-> s = [].
Proof. destruct s; simpl; split; congruence. Qed.

Lemma truthy_true_iff (s : str) : truthy s = true <-> s <> [].
Proof. destruct s; simpl; split; congruence. Qed.

Lemma handleSubmit_complete (asDraft : bool) (st : CreateProjectPage.state) :
  form_complete st ->
  CreateProjectPage.handleSubmit asDraft st
  = Eff.Ask (CreateProjectPage.CreateProject
               (CreateProjectPage.payload_of st asDraft))
      (fun r =>
         match r with
         | Ok project =>
             Eff.Ask (CreateProjectPage.NavigateToProject (project_id project))
               (fun _ =>
                  Eff.Ret (CreateProjectPage.setLoading false
                             (CreateProjectPage.setLoading true
                                (CreateProjectPage.setError [] st))))
         | Throw e =>
             Eff.Ret (CreateProjectPage.setLoading false
                        (CreateProjectPage.setError
                           (message_or e (lit "Failed to create project"))
                           (CreateProjectPage.setLoading true
                              (CreateProjectPage.setError [] st))))
         end).
Proof.
  intros [Ht [Hd [Hc [Hr [Hh Hu]]]]].
  unfold CreateProjectPage.handleSubmit. rewrite Ht, Hd.
  apply truthy_true_iff in Hc, Hh, Hu. rewrite Hc, Hh, Hu. simpl.
  destruct (CreateProjectPage.desiredRoles st); [congruence|]. reflexivity.
Qed.

(** X12. [handleSubmit] sends the project only when the title and the
    description are not blank and a category, at least one role, the
    commitment and the duration are chosen; the detailed description,
    the tech stack, the team size and the visibility are not checked.
    Otherwise it makes no request and shows the message of the first
    check that fails, in the order title, description, category, roles,
    commitment, duration, leaving the rest of the form as it was: the
    message goes to the error cell and no other cell is written. *)
Theorem handleSubmit_validates :
  forall (asDraft : bool) (st : CreateProjectPage.state),
    (forall msg : str,
       let st' := CreateProjectPage.setError msg st in
       CreateProjectPage.error st' = msg
       /\ CreateProjectPage.loading st' = CreateProjectPage.loading st
       /\ CreateProjectPage.title st' = CreateProjectPage.title st
       /\ CreateProjectPage.description st' = CreateProjectPage.description st
       /\ CreateProjectPage.detailedDescription st'
          = CreateProjectPage.detailedDescription st
       /\ CreateProjectPage.category st' = CreateProjectPage.category st
       /\ CreateProjectPage.techStack st' = CreateProjectPage.techStack st
       /\ CreateProjectPage.desiredRoles st' = CreateProjectPage.desiredRoles st
       /\ CreateProjectPage.commitmentHours st'
          = CreateProjectPage.commitmentHours st
       /\ CreateProjectPage.duration st' = CreateProjectPage.duration st
       /\ CreateProjectPage.teamSizeNeeded st'
          = CreateProjectPage.teamSizeNeeded st
       /\ CreateProjectPage.visibility st' = CreateProjectPage.visibility st)
    /\ ((exists q, Eff.asks (CreateProjectPage.handleSubmit asDraft st) q)
     <-> form_complete st)
    /\ (CreateProjectPage.blank (CreateProjectPage.title st) = true ->
        CreateProjectPage.handleSubmit asDraft st
        = Eff.Ret (CreateProjectPage.setError (lit "Title is required") st))
    /\ (CreateProjectPage.blank (CreateProjectPage.title st) = false ->
        CreateProjectPage.blank (CreateProjectPage.description st) = true ->
        CreateProjectPage.handleSubmit asDraft st
        = Eff.Ret (CreateProjectPage.setError (lit "Description is required") st))
    /\ (CreateProjectPage.blank (CreateProjectPage.title st) = false ->
        CreateProjectPage.blank (CreateProjectPage.description st) = false ->
        CreateProjectPage.category st = [] ->
        CreateProjectPage.handleSubmit asDraft st
        = Eff.Ret (CreateProjectPage.setError (lit "Category is required") st))
    /\ (CreateProjectPage.blank (CreateProjectPage.title st) = false ->
        CreateProjectPage.blank (CreateProjectPage.description st) = false ->
        CreateProjectPage.category st <> [] ->
        CreateProjectPage.desiredRoles st = [] ->
        CreateProjectPage.handleSubmit asDraft st
        = Eff.Ret (CreateProjectPage.setError
                     (lit "Please select at least one role") st))
    /\ (CreateProjectPage.blank (CreateProjectPage.title st) = false ->
        CreateProjectPage.blank (CreateProjectPage.description st) = false ->
        CreateProjectPage.category st <> [] ->
        CreateProjectPage.desiredRoles st <> [] ->
        CreateProjectPage.commitmentHours st = [] ->
        CreateProjectPage.handleSubmit asDraft st
        = Eff.Ret (CreateProjectPage.setError
                     (lit "Commitment hours is required") st))
    /\ (CreateProjectPage.blank (CreateProjectPage.title st) = false ->
        CreateProjectPage.blank (CreateProjectPage.description st) = false ->
        CreateProjectPage.category st <> [] ->
        CreateProjectPage.desiredRoles st <> [] ->
        CreateProjectPage.commitmentHours st <> [] ->
        CreateProjectPage.duration st = [] ->
        CreateProjectPage.handleSubmit asDraft st
        = Eff.Ret (CreateProjectPage.setError (lit "Duration is required") st)).
Proof.
  intros asDraft st.
  split; [intros msg; repeat split; reflexivity|].
  split.
  - split.
    + intros [q Hq]. unfold form_complete.
      unfold CreateProjectPage.handleSubmit in Hq.
      destruct (CreateProjectPage.blank (CreateProjectPage.title st));
        [contradiction|].
      destruct (CreateProjectPage.blank (CreateProjectPage.description st));
        [contradiction|].
      destruct (CreateProjectPage.category st) as [|c0 cs]; [contradiction|].
      destruct (CreateProjectPage.desiredRoles st) as [|r0 rs]; [contradiction|].
      destruct (CreateProjectPage.commitmentHours st) as [|h0 hs];
        [contradiction|].
      destruct (CreateProjectPage.duration st) as [|d0 ds]; [contradiction|].
      repeat split; discriminate.
    + intros Hc. rewrite (handleSubmit_complete asDraft Hc).
      eexists. left. reflexivity.
  - unfold CreateProjectPage.handleSubmit.
    destruct (CreateProjectPage.blank (CreateProjectPage.title st)).
    { split; [reflexivity|]. repeat split; intros; discriminate. }
    split; [discriminate|].
    destruct (CreateProjectPage.blank (CreateProjectPage.description st)).
    { split; [reflexivity|]. repeat split; intros; discriminate. }
    split; [discriminate|].
    destruct (CreateProjectPage.category st) as [|c0 cs]; simpl.
    { split; [reflexivity|]. repeat split; intros; congruence. }
    split; [discriminate|].
    destruct (CreateProjectPage.desiredRoles st) as [|r0 rs]; simpl.
    { split; [reflexivity|]. repeat split; intros; congruence. }
    split; [intros; discriminate|].
    destruct (CreateProjectPage.commitmentHours st) as [|h0 hs]; simpl.
    { split; [reflexivity|]. intros; congruence. }
    split; [intros; discriminate|].
    destruct (CreateProjectPage.duration st) as [|d0 ds]; simpl.
    { reflexivity. }
    intros; discriminate.
Qed.

(** A filled-in project form. *)
Definition filled_form : CreateProjectPage.state :=
  {| CreateProjectPage.loading := false;
     CreateProjectPage.error := lit "Title is required";
     CreateProjectPage.title := lit "Study planner";
     CreateProjectPage.description := lit "A planner for exam weeks";
     CreateProjectPage.detailedDescription := [];
     CreateProjectPage.category := lit "coursework";
     CreateProjectPage.techStack := lit " React, Node.js ,,  ";
     CreateProjectPage.desiredRoles := [lit "Backend"; lit "Designer"];
     CreateProjectPage.commitmentHours := lit "5-10 hrs/week";
     CreateProjectPage.duration := lit "1_to_3_months";
     CreateProjectPage.teamSizeNeeded := lit "3";
     CreateProjectPage.visibility := lit "public" |}.

Lemma filled_form_complete : form_complete filled_form.
Proof. repeat split; discriminate. Qed.

Lemma handleSubmit_validates_witness :
  (exists q, Eff.asks (CreateProjectPage.handleSubmit false filled_form) q)
  /\ CreateProjectPage.handleSubmit true CreateProjectPage.init
     = Eff.Ret (CreateProjectPage.setError (lit "Title is required")
                  CreateProjectPage.init)
  /\ CreateProjectPage.error
       (CreateProjectPage.setError (lit "Title is required")
          CreateProjectPage.init)
     = lit "Title is required"
  /\ CreateProjectPage.handleSubmit false
       (CreateProjectPage.setDesiredRoles [] filled_form)
     = Eff.Ret (CreateProjectPage.setError
                  (lit "Please select at least one role")
                  (CreateProjectPage.setDesiredRoles [] filled_form)).
Proof.
  split; [|split; [|split]].
  - apply (proj1 (proj2 (handleSubmit_validates false filled_form))).
    exact filled_form_complete.
  - destruct (handleSubmit_validates true CreateProjectPage.init)
      as [_ [_ [H _]]].
    apply H. reflexivity.
  - destruct (handleSubmit_validates true CreateProjectPage.init)
      as [H _].
    apply (H (lit "Title is required")).
  - destruct (handleSubmit_validates false
                (CreateProjectPage.setDesiredRoles [] filled_form))
      as [_ [_ [_ [_ [_ [H _]]]]]].
    apply H; try reflexivity. discriminate.
Defined.

(** An answering function for the form's requests. *)
Definition form_world (answer_create : result Project)
  : forall r : CreateProjectPage.request, nat -> CreateProjectPage.answer r * nat :=
  fun r n =>
    match r as r0 return CreateProjectPage.answer r0 * nat with
    | CreateProjectPage.CreateProject _ => (answer_create, S n)
    | CreateProjectPage.NavigateToProject _ => (tt, S n)
    end.

(** X13. A complete form is sent as typed: the request carries the
    selected roles, the cleaned tech stack, the detailed description only
    if one was typed, and the status [draft] for "Save as draft" and
    [open] otherwise.  When the back end answers with the new project the
    page navigates to that project; when it throws, the page shows the
    thrown message (or "Failed to create project") and does not
    navigate.  Either way the spinner is off at the end and every field
    of the form is as the user left it. *)
Theorem handleSubmit_settles :
  forall (W : Type)
         (o : forall r : CreateProjectPage.request,
                W -> CreateProjectPage.answer r * W)
         (w : W) (asDraft : bool) (st : CreateProjectPage.state),
    form_complete st ->
    let sent := CreateProjectPage.CreateProject
                  (CreateProjectPage.payload_of st asDraft) in
    let r := Eff.exec o (CreateProjectPage.handleSubmit asDraft st) w in
    (CreateProjectPage.payload_roles_needed
       (CreateProjectPage.payload_of st asDraft)
     = CreateProjectPage.desiredRoles st
     /\ CreateProjectPage.payload_tech_stack
          (CreateProjectPage.payload_of st asDraft)
        = CreateProjectPage.tech_stack_of (CreateProjectPage.techStack st)
     /\ (CreateProjectPage.payload_detailed_description
           (CreateProjectPage.payload_of st asDraft) = None
         <-> CreateProjectPage.detailedDescription st = [])
     /\ (CreateProjectPage.payload_status
           (CreateProjectPage.payload_of st asDraft) = lit "draft"
         <-> asDraft = true))
    /\ (forall (project : Project) (w1 : W),
          o sent w = (Ok project, w1) ->
          Eff.asked r
          = [sent; CreateProjectPage.NavigateToProject (project_id project)]
          /\ Eff.final r
             = CreateProjectPage.setLoading false
                 (CreateProjectPage.setError [] st))
    /\ (forall (e : thrown) (w1 : W),
          o sent w = (Throw e, w1) ->
          Eff.asked r = [sent]
          /\ Eff.final r
             = CreateProjectPage.setLoading false
                 (CreateProjectPage.setError
                    (message_or e (lit "Failed to create project")) st)).
Proof.
  intros W o w asDraft st Hc sent r. subst sent r.
  rewrite (handleSubmit_complete asDraft Hc). simpl.
  split.
  - split; [reflexivity|]. split; [reflexivity|]. split.
    + destruct (CreateProjectPage.detailedDescription st); simpl;
        split; congruence.
    + destruct asDraft; simpl; split; intros H; try reflexivity;
        try discriminate H; vm_compute in H; discriminate H.
  - destruct (o (CreateProjectPage.CreateProject
                   (CreateProjectPage.payload_of st asDraft)) w)
      as [[project | e] w1] eqn:E; simpl.
    + destruct (o (CreateProjectPage.NavigateToProject (project_id project)) w1)
        as [u w2].
      unfold Eff.asked, Eff.final; simpl. split.
      * intros p w1' E'. inversion E'; subst. auto.
      * intros e w1' E'. discriminate E'.
    + unfold Eff.asked, Eff.final; simpl. split.
      * intros p w1' E'. discriminate E'.
      * intros e' w1' E'. inversion E'; subst. auto.
Qed.

Lemma handleSubmit_settles_witness :
  (let r := Eff.exec (form_world (Ok Sample.backend_project))
              (CreateProjectPage.handleSubmit true filled_form) 0 in
   Eff.asked r
   = [CreateProjectPage.CreateProject
        (CreateProjectPage.payload_of filled_form true);
      CreateProjectPage.NavigateToProject 1]
   /\ CreateProjectPage.error (Eff.final r) = [])
  /\ CreateProjectPage.payload_tech_stack
       (CreateProjectPage.payload_of filled_form true)
     = [lit "React"; lit "Node.js"]
  /\ (let r := Eff.exec (form_world (Throw NonError))
                 (CreateProjectPage.handleSubmit false filled_form) 0 in
      CreateProjectPage.error (Eff.final r) = lit "Failed to create project"
      /\ CreateProjectPage.title (Eff.final r) = lit "Study planner").
Proof.
  split; [|split].
  - destruct (@handleSubmit_settles nat (form_world (Ok Sample.backend_project))
                0 true filled_form filled_form_complete) as [_ [H _]].
    destruct (H Sample.backend_project 1 eq_refl) as [Ha Hf].
    split; [exact Ha|]. rewrite Hf. reflexivity.
  - reflexivity.
  - destruct (@handleSubmit_settles nat (form_world (Throw NonError))
                0 false filled_form filled_form_complete) as [_ [_ H]].
    destruct (H NonError 1 eq_refl) as [_ Hf].
    cbv zeta. rewrite Hf. split; reflexivity.
Defined.

(* ===================================================================== *)
(** ** api/client.ts (unnamed/part_004): tokens and [fetchWithAuth] *)
(* ===================================================================== *)

Module ApiClient.

Import Eff.

(** The two items kept in [localStorage]; [getItem] gives [null] for a
    missing one. *)
Record storage : Type := {
  access_token : option str;
  refresh_token : option str
}.

Definition setTokens (access refresh : str) : storage :=
  {| access_token := Some access; refresh_token := Some refresh |}.

Definition clearTokens : storage :=
  {| access_token := None; refresh_token := None |}.

(** Truthiness of an item read from storage. *)
Definition present (item : option str) : bool :=
  match item with
  | Some s => truthy s
  | None => false
  end.

(** [!!getTokens().access] *)
Definition isAuthenticated (st : storage) : bool := present (access_token st).

(** A headers object: keys in insertion order, a later write to a key
    replacing its value. *)
Definition headers := list (str * str).

Fixpoint set_header (k v : str) (h : headers) : headers :=
  match h with
  | [] => [(k, v)]
  | (k', v') :: h' =>
      if eqb k' k then (k, v) :: h' else (k', v') :: set_header k v h'
  end.

Fixpoint get_header (k : str) (h : headers) : option str :=
  match h with
  | [] => None
  | (k', v') :: h' => if eqb k' k then Some v' else get_header k h'
  end.

(** The [RequestInit] fields the client uses. *)
Record options : Type := {
  method : option str;
  request_headers : headers;
  body : option str
}.

Definition no_options : options :=
  {| method := None; request_headers := []; body := None |}.

(** [{ ...options, headers }] *)
Definition with_headers (h : headers) (o : options) : options :=
  {| method := method o; request_headers := h; body := body o |}.

Definition API_BASE : str := lit "/api".

(** [`Bearer ${access}`]; a [null] prints as "null". *)
Definition bearer (access : option str) : str :=
  lit "Bearer " ++ match access with Some a => a | None => lit "null" end.

Section Client.

(** The values [response.json()] resolves to. *)
Variable V : Type.

(** [{}] *)
Variable empty_object : V.

(** The strings [setTokens] stores for a parsed answer, its
    [access_token] and [refresh_token] fields as [setItem] writes them;
    reading them throws when the answer is [null]. *)
Variable token_pair : V -> result (str * str).

(** The message of [new Error(error.detail || ...)] for a parsed error
    body: the detail as a string when it is truthy, nothing when it is
    not; reading it throws when the body is [null]. *)
Variable detail_message : V -> result (option str).

(** [JSON.stringify({ refresh_token: refresh })] *)
Variable refresh_body : str -> str.

Record response : Type := {
  status : Z;
  json : result V            (* what [response.json()] settles to *)
}.

(** [response.ok] *)
Definition ok (r : response) : bool :=
  (Z.leb 200 (status r) && Z.leb (status r) 299)%bool.

(** The one request of this layer: [fetch(url, init)], which rejects on a
    network failure. *)
Inductive request : Type := Fetch (url : str) (init : options).

Definition answer (r : request) : Type := result response.

Definition refresh_request (refresh : str) : request :=
  Fetch (API_BASE ++ lit "/auth/refresh")
        {| method := Some (lit "POST");
           request_headers := [(lit "Content-Type", lit "application/json")];
           body := Some (refresh_body refresh) |}.

Definition refreshAccessToken (st : storage)
  : prog request answer (storage * bool) :=
  if negb (present (refresh_token st)) then Ret (st, false)
  else
    match refresh_token st with
    | None => Ret (st, false)
    | Some refresh =>
        Ask (refresh_request refresh) (fun a =>
          match a with
          | Ok r =>
              if ok r then
                match json r with
                | Ok tokens =>
                    match token_pair tokens with
                    | Ok (access', refresh') =>
                        Ret (setTokens access' refresh', true)
                    | Throw _ => Ret (clearTokens, false)
                    end
                | Throw _ => Ret (clearTokens, false)
                end
              else Ret (clearTokens, false)
          | Throw _ => Ret (clearTokens, false)
          end)
    end.

(** What [fetchWithAuth] does with the response it ends up with. *)
Definition settle (r : response) : result V :=
  if negb (ok r) then
    match json r with
    | Throw _ => Throw (ErrorObj (lit "An error occurred"))
    | Ok error =>
        match detail_message error with
        | Throw e => Throw e
        | Ok (Some detail) => Throw (ErrorObj detail)
        | Ok None => Throw (ErrorObj (lit "An error occurred"))
        end
    end
  else if Z.eqb (status r) 204 then Ok empty_object
  else json r.

(** [{ 'Content-Type': 'application/json', ...options.headers }] *)
Definition base_headers (o : options) : headers :=
  fold_left (fun h kv => set_header (fst kv) (snd kv) h)
            (request_headers o)
            [(lit "Content-Type", lit "application/json")].

Definition first_headers (st : storage) (o : options) : headers :=
  if present (access_token st)
  then set_header (lit "Authorization") (bearer (access_token st)) (base_headers o)
  else base_headers o.

Definition fetchWithAuth (st : storage) (url : str) (o : options)
  : prog request answer (storage * result V) :=
  let h := first_headers st o in
  Ask (Fetch url (with_headers h o)) (fun a =>
    match a with
    | Throw e => Ret (st, Throw e)
    | Ok r =>
        if Z.eqb (status r) 401 && present (access_token st) then
          bind (refreshAccessToken st) (fun sr =>
            let '(st', refreshed) := sr in
            if (refreshed : bool) then
              let h' := set_header (lit "Authorization")
                          (bearer (access_token st')) h in
              Ask (Fetch url (with_headers h' o)) (fun a' =>
                match a' with
                | Throw e => Ret (st', Throw e)
                | Ok r' => Ret (st', settle r')
                end)
            else Ret (st', settle r))
        else Ret (st, settle r)
    end).

(** [authApi.getMe] and [profileApi.getMyProfile] *)
Definition getMe (st : storage) : prog request answer (storage * result V) :=
  fetchWithAuth st (API_BASE ++ lit "/auth/me") no_options.

Definition getMyProfile (st : storage) : prog request answer (storage * result V) :=
  fetchWithAuth st (API_BASE ++ lit "/profile/me") no_options.

End Client.

End ApiClient.

(* ===================================================================== *)
(** ** Properties of the API client *)
(* ===================================================================== *)

Lemma get_set_header_same (k v : str) (h : ApiClient.headers) :
  ApiClient.get_header k (ApiClient.set_header k v h) = Some v.
Proof.
  induction h as [|[k' v'] h IH]; simpl.
  - rewrite eqb_refl. reflexivity.
  - destruct (eqb k' k) eqn:E; simpl.
    + rewrite eqb_refl. reflexivity.
    + rewrite E. exact IH.
Qed.

Lemma get_set_header_other (k k0 v : str) (h : ApiClient.headers) :
  k0 <> k ->
  ApiClient.get_header k0 (ApiClient.set_header k v h) = ApiClient.get_header k0 h.
Proof.
  intros Hne. induction h as [|[k' v'] h IH]; simpl.
  - assert (E : eqb k k0 = false) by (apply eqb_neq; congruence).
    rewrite E. reflexivity.
  - destruct (eqb k' k) eqn:E; simpl.
    + apply eqb_eq in E. subst k'.
      assert (E' : eqb k k0 = false) by (apply eqb_neq; congruence).
      rewrite E'. reflexivity.
    + destruct (eqb k' k0); [reflexivity | exact IH].
Qed.

Section ApiClientFacts.

Import ApiClient.

Variable V : Type.
Variable empty_object : V.
Variable token_pair : V -> result (str * str).
Variable detail_message : V -> result (option str).
Variable refresh_body : str -> str.

Let refreshAccessToken := ApiClient.refreshAccessToken token_pair refresh_body.
Let fetchWithAuth :=
  ApiClient.fetchWithAuth empty_object token_pair detail_message refresh_body.
Let settle := ApiClient.settle empty_object detail_message.
Let refresh_request := ApiClient.refresh_request refresh_body.

Lemma settle_failed_throws (r : response V) :
  ok r = false -> forall v, settle r <> Ok v.
Proof.
  intros Hok v. subst settle. unfold ApiClient.settle. rewrite Hok. simpl.
  destruct (json r) as [body | e]; [|discriminate].
  destruct (detail_message body) as [[d|] | e]; discriminate.
Qed.

Lemma refresh_true_stores
      (W : Type) (o : forall r : request, W -> answer V r * W)
      (w : W) (st : storage) :
  snd (Eff.final (Eff.exec o (refreshAccessToken st) w)) = true ->
  exists access' refresh',
    fst (Eff.final (Eff.exec o (refreshAccessToken st) w))
    = setTokens access' refresh'.
Proof.
  subst refreshAccessToken. unfold ApiClient.refreshAccessToken.
  destruct (present (refresh_token st)); [|discriminate].
  destruct (refresh_token st) as [refresh|]; [|discriminate].
  simpl.
  destruct (o (ApiClient.refresh_request refresh_body refresh) w)
    as [[resp | e] w1]; [|discriminate].
  destruct (ok resp); [|discriminate].
  destruct (json resp) as [tokens | e]; [|discriminate].
  destruct (token_pair tokens) as [[a r'] | e]; [|discriminate].
  intros _. exists a, r'. reflexivity.
Qed.

(** X14. [refreshAccessToken] without a refresh token in storage makes no
    request, answers [false] and leaves the storage alone.  With one it
    makes exactly the refresh request.  Whenever it answers [false]
    after that request, both tokens are gone from storage; it answers
    [true] only for a response with an OK status whose body gave the
    two tokens, and those are then the stored ones. *)
Theorem refreshAccessToken_outcomes :
  forall (W : Type) (o : forall r : request, W -> answer V r * W)
         (w : W) (st : storage),
    let r := Eff.exec o (refreshAccessToken st) w in
    (present (refresh_token st) = false ->
     r = ((st, false), w, []))
    /\ (present (refresh_token st) = true ->
        (exists refresh,
           refresh_token st = Some refresh
           /\ Eff.asked r = [refresh_request refresh])
        /\ (snd (Eff.final r) = false -> fst (Eff.final r) = clearTokens)
        /\ (snd (Eff.final r) = true ->
            exists resp tokens access' refresh' refresh w1,
              refresh_token st = Some refresh
              /\ o (refresh_request refresh) w = (Ok resp, w1)
              /\ ok resp = true
              /\ json resp = Ok tokens
              /\ token_pair tokens = Ok (access', refresh')
              /\ fst (Eff.final r) = setTokens access' refresh')).
Proof.
  intros W o w st r. subst r refreshAccessToken refresh_request.
  unfold ApiClient.refreshAccessToken.
  split.
  - intros Hp. rewrite Hp. reflexivity.
  - intros Hp. rewrite Hp. simpl.
    destruct (refresh_token st) as [refresh|] eqn:Er; [|discriminate Hp].
    simpl.
    destruct (o (ApiClient.refresh_request refresh_body refresh) w)
      as [[resp | e] w1] eqn:Eo.
    + destruct (ok resp) eqn:Eok.
      * destruct (json resp) as [tokens | e] eqn:Ej.
        -- destruct (token_pair tokens) as [[a r'] | e] eqn:Et;
             unfold Eff.asked, Eff.final; simpl.
           ++ split; [eauto|]. split; [discriminate|].
              intros _. exists resp, tokens, a, r', refresh, w1.
              repeat split; auto.
           ++ split; [eauto|]. split; [reflexivity | discriminate].
        -- unfold Eff.asked, Eff.final; simpl.
           split; [eauto|]. split; [reflexivity | discriminate].
      * unfold Eff.asked, Eff.final; simpl.
        split; [eauto|]. split; [reflexivity | discriminate].
    + unfold Eff.asked, Eff.final; simpl.
      split; [eauto|]. split; [reflexivity | discriminate].
Qed.

(** X15. What [fetchWithAuth] makes of the response it ends up with.  A
    response whose status is not OK never gives a value: the call throws
    an [Error] whose message is the body's detail when there is one, and
    "An error occurred" when the body is not JSON or has no detail.  An
    OK response with status 204 gives the empty object without looking
    at the body; any other OK response gives its parsed body. *)
Theorem settle_by_status :
  forall r : response V,
    (ok r = false ->
     (forall v, settle r <> Ok v)
     /\ (forall e, json r = Throw e ->
           settle r = Throw (ErrorObj (lit "An error occurred")))
     /\ (forall body detail,
           json r = Ok body -> detail_message body = Ok (Some detail) ->
           settle r = Throw (ErrorObj detail))
     /\ (forall body,
           json r = Ok body -> detail_message body = Ok None ->
           settle r = Throw (ErrorObj (lit "An error occurred"))))
    /\ (ok r = true -> status r = 204%Z -> settle r = Ok empty_object)
    /\ (ok r = true -> status r <> 204%Z -> settle r = json r).
Proof.
  intros r. subst settle. unfold ApiClient.settle.
  split; [|split].
  - intros Hok. rewrite Hok. simpl. split; [|split; [|split]].
    + intros v. destruct (json r) as [body | e]; [|discriminate].
      destruct (detail_message body) as [[d|] | e]; discriminate.
    + intros e ->. reflexivity.
    + intros body detail -> ->. reflexivity.
    + intros body -> ->. reflexivity.
  - intros Hok Hs. rewrite Hok, Hs. reflexivity.
  - intros Hok Hs. rewrite Hok. simpl.
    apply Z.eqb_neq in Hs. rewrite Hs. reflexivity.
Qed.

End ApiClientFacts.

Lemma exec_bind {R : Type} {A : R -> Type} {S T W : Type}
      (o : forall r : R, W -> A r * W)
      (p : Eff.prog R A S) (f : S -> Eff.prog R A T) :
  forall w,
    Eff.exec o (Eff.bind p f) w
    = let '(s, w1, t) := Eff.exec o p w in
      let '(s', w2, t') := Eff.exec o (f s) w1 in
      (s', w2, t ++ t').
Proof.
  induction p as [s | r k IH]; intros w; simpl.
  - destruct (Eff.exec o (f s) w) as [[s' w2] t']. reflexivity.
  - destruct (o r w) as [x w1]. rewrite IH.
    destruct (Eff.exec o (k x) w1) as [[s w2] t].
    destruct (Eff.exec o (f s) w2) as [[s' w3] t']. reflexivity.
Qed.

Section FetchWithAuthFacts.

Import ApiClient.

Variable V : Type.
Variable empty_object : V.
Variable token_pair : V -> result (str * str).
Variable detail_message : V -> result (option str).
Variable refresh_body : str -> str.

Let refreshAccessToken := ApiClient.refreshAccessToken token_pair refresh_body.
Let fetchWithAuth :=
  ApiClient.fetchWithAuth empty_object token_pair detail_message refresh_body.
Let settle := ApiClient.settle empty_object detail_message.
Let refresh_request := ApiClient.refresh_request refresh_body.

Lemma refresh_asks_at_most_once
      (W : Type) (o : forall r : request, W -> answer V r * W)
      (w : W) (st : storage) :
  let r := Eff.exec o (refreshAccessToken st) w in
  List.length (Eff.asked r) <= 1
  /\ forall q, In q (Eff.asked r) ->
               exists refresh,
                 refresh_token st = Some refresh /\ q = refresh_request refresh.
Proof.
  cbv zeta. subst refreshAccessToken refresh_request.
  unfold ApiClient.refreshAccessToken.
  destruct (present (refresh_token st));
    [|unfold Eff.asked; simpl; split; [lia | intros q []]].
  destruct (refresh_token st) as [refresh|];
    [|unfold Eff.asked; simpl; split; [lia | intros q []]].
  simpl.
  destruct (o (ApiClient.refresh_request refresh_body refresh) w)
    as [[resp | e] w1].
  - destruct (ok resp); [destruct (json resp) as [tokens | e];
      [destruct (token_pair tokens) as [[a r'] | e]|]|];
      unfold Eff.asked; simpl; (split; [lia | intros q [<- | []]; eauto]).
  - unfold Eff.asked; simpl. split; [lia | intros q [<- | []]; eauto].
Qed.

(** X16. The requests of one [fetchWithAuth] call.  The first is the
    call's own URL, with an [Authorization] header [Bearer <access>]
    exactly when storage holds an access token, whatever the caller
    passed as headers.  Without an access token that is the only request
    and storage is left alone, even on a 401.  In any case there are at
    most three requests, each of them the call's URL or the token
    refresh.  A request of the call carries the headers named and the
    caller's method and body. *)
Theorem fetchWithAuth_requests :
  forall (W : Type) (o : forall r : request, W -> answer V r * W)
         (w : W) (st : storage) (url : str) (opts : options),
    let r := Eff.exec o (fetchWithAuth st url opts) w in
    let first := Fetch url (with_headers (first_headers st opts) opts) in
    (forall h : headers,
       request_headers (with_headers h opts) = h
       /\ method (with_headers h opts) = method opts
       /\ body (with_headers h opts) = body opts)
    /\ (exists rest, Eff.asked r = first :: rest /\ List.length rest <= 2)
    /\ (present (access_token st) = true ->
        get_header (lit "Authorization") (first_headers st opts)
        = Some (bearer (access_token st)))
    /\ (present (access_token st) = false ->
        Eff.asked r = [first]
        /\ fst (Eff.final r) = st
        /\ get_header (lit "Authorization") (first_headers st opts)
           = get_header (lit "Authorization") (base_headers opts))
    /\ (forall q, In q (Eff.asked r) ->
          (exists h, q = Fetch url (with_headers h opts))
          \/ (exists refresh,
                refresh_token st = Some refresh
                /\ q = refresh_request refresh)).
Proof.
  intros W o w st url opts r first.
  split; [intros h; repeat split; reflexivity|].
  subst r first fetchWithAuth.
  unfold ApiClient.fetchWithAuth. simpl.
  destruct (o (Fetch url (with_headers (first_headers st opts) opts)) w)
    as [[r1 | e] w1] eqn:E1.
  - destruct (Z.eqb (status r1) 401 && present (access_token st)) eqn:Hc.
    + apply andb_true_iff in Hc. destruct Hc as [_ Hacc].
      rewrite exec_bind.
      pose proof (refresh_asks_at_most_once o w1 st) as Hr.
      cbv zeta in Hr. unfold refreshAccessToken in Hr.
      destruct (Eff.exec o (ApiClient.refreshAccessToken token_pair refresh_body st) w1)
        as [[[st' refreshed] w2] t] eqn:Er.
      unfold Eff.asked in Hr; simpl in Hr. destruct Hr as [Hlen Hin].
      destruct refreshed; simpl.
      * destruct (o (Fetch url
                       (with_headers
                          (set_header (lit "Authorization")
                             (bearer (access_token st'))
                             (first_headers st opts)) opts)) w2)
          as [[r3 | e3] w3] eqn:E3;
          unfold Eff.asked, Eff.final; simpl.
        -- split; [eexists; split; [reflexivity|]; rewrite length_app; simpl; lia|].
           split; [intros _; unfold first_headers; rewrite Hacc;
                   apply get_set_header_same|].
           split; [intros H; congruence|].
           intros q [<- | Hq]; [left; eauto|].
           apply in_app_iff in Hq. destruct Hq as [Hq | [<- | []]];
             [right; apply Hin, Hq | left; eauto].
        -- split; [eexists; split; [reflexivity|]; rewrite length_app; simpl; lia|].
           split; [intros _; unfold first_headers; rewrite Hacc;
                   apply get_set_header_same|].
           split; [intros H; congruence|].
           intros q [<- | Hq]; [left; eauto|].
           apply in_app_iff in Hq. destruct Hq as [Hq | [<- | []]];
             [right; apply Hin, Hq | left; eauto].
      * unfold Eff.asked, Eff.final; simpl.
        split; [eexists; split; [reflexivity|]; rewrite length_app; simpl; lia|].
        split; [intros _; unfold first_headers; rewrite Hacc;
                apply get_set_header_same|].
        split; [intros H; congruence|].
        intros q [<- | Hq]; [left; eauto|].
        rewrite app_nil_r in Hq. right. apply Hin, Hq.
    + unfold Eff.asked, Eff.final; simpl.
      split; [eexists; split; [reflexivity|]; simpl; lia|].
      split; [intros Hacc; unfold first_headers; rewrite Hacc;
              apply get_set_header_same|].
      split.
      * intros Hacc. unfold first_headers. rewrite Hacc. auto.
      * intros q [<- | []]. left; eauto.
  - unfold Eff.asked, Eff.final; simpl.
    split; [eexists; split; [reflexivity|]; simpl; lia|].
    split; [intros Hacc; unfold first_headers; rewrite Hacc;
            apply get_set_header_same|].
    split.
    + intros Hacc. unfold first_headers. rewrite Hacc. auto.
    + intros q [<- | []]. left; eauto.
Qed.

End FetchWithAuthFacts.

(** Sample answers for the client: a few JSON values, and a world that
    serves a queue of prepared answers. *)
Module ClientSample.

Inductive json_value : Type :=
| JNull
| JTokens (access refresh : str)
| JDetail (detail : str)
| JUser (verified : bool)
| JProfile (full_name : str) (skills : list str).

Definition token_pair (v : json_value) : result (str * str) :=
  match v with
  | JNull => Throw (ErrorObj (lit "Cannot read properties of null"))
  | JTokens a r => Ok (a, r)
  | _ => Ok (lit "undefined", lit "undefined")
  end.

Definition detail_message (v : json_value) : result (option str) :=
  match v with
  | JNull => Throw (ErrorObj (lit "Cannot read properties of null"))
  | JDetail d => Ok (if truthy d then Some d else None)
  | _ => Ok None
  end.

Definition refresh_body (refresh : str) : str := lit "refresh_token=" ++ refresh.

Definition empty_object : json_value := JDetail [].

Definition queue := list (result (ApiClient.response json_value)).

Definition serve (r : ApiClient.request) (w : queue)
  : ApiClient.answer json_value r * queue :=
  match w with
  | a :: w' => (a, w')
  | [] => (Throw NonError, [])
  end.

Definition replied (status : Z) (body : json_value)
  : result (ApiClient.response json_value) :=
  Ok {| ApiClient.status := status; ApiClient.json := Ok body |}.

Definition signed_in : ApiClient.storage :=
  {| ApiClient.access_token := Some (lit "old");
     ApiClient.refresh_token := Some (lit "r1") |}.

Definition fetchWithAuth :=
  ApiClient.fetchWithAuth empty_object token_pair detail_message refresh_body.

Definition refreshAccessToken :=
  ApiClient.refreshAccessToken token_pair refresh_body.

End ClientSample.

Section ExpiredTokenFacts.

Import ApiClient.

Variable V : Type.
Variable empty_object : V.
Variable token_pair : V -> result (str * str).
Variable detail_message : V -> result (option str).
Variable refresh_body : str -> str.

Let refreshAccessToken := ApiClient.refreshAccessToken token_pair refresh_body.
Let fetchWithAuth :=
  ApiClient.fetchWithAuth empty_object token_pair detail_message refresh_body.
Let settle := ApiClient.settle empty_object detail_message.

(** X17. An expired access token.  When the first response is a 401 and
    storage holds an access token, the client refreshes once.  If the
    refresh answers [false], nothing is retried and the call throws, with
    storage as the refresh left it.  If it answers [true], the call's
    request is sent once more with [Authorization: Bearer <new access
    token>], and the outcome of the call is that of the second
    response alone.  A first response that is not a 401 is settled as
    it is, with no refresh.  Both requests carry the headers named and
    the caller's method and body. *)
Theorem fetchWithAuth_expired_token :
  forall (W : Type) (o : forall r : request, W -> answer V r * W)
         (w w1 : W) (st : storage) (url : str) (opts : options)
         (r1 : response V),
    let first := Fetch url (with_headers (first_headers st opts) opts) in
    o first w = (Ok r1, w1) ->
    let r := Eff.exec o (fetchWithAuth st url opts) w in
    let rr := Eff.exec o (refreshAccessToken st) w1 in
    (forall h : headers,
       request_headers (with_headers h opts) = h
       /\ method (with_headers h opts) = method opts
       /\ body (with_headers h opts) = body opts)
    /\ (status r1 <> 401%Z ->
     Eff.final r = (st, settle r1) /\ Eff.asked r = [first])
    /\ (status r1 = 401%Z -> present (access_token st) = true ->
        snd (Eff.final rr) = false ->
        Eff.final r = (fst (Eff.final rr), settle r1)
        /\ Eff.asked r = first :: Eff.asked rr
        /\ forall v, settle r1 <> Ok v)
    /\ (status r1 = 401%Z -> present (access_token st) = true ->
        snd (Eff.final rr) = true ->
        let st' := fst (Eff.final rr) in
        let retry :=
          Fetch url
            (with_headers
               (set_header (lit "Authorization") (bearer (access_token st'))
                  (first_headers st opts)) opts) in
        Eff.asked r = first :: Eff.asked rr ++ [retry]
        /\ (exists access', access_token st' = Some access'
              /\ get_header (lit "Authorization")
                   (set_header (lit "Authorization") (bearer (access_token st'))
                      (first_headers st opts))
                 = Some (lit "Bearer " ++ access'))
        /\ (forall (r2 : response V) (w3 : W),
              o retry (Eff.world_after rr) = (Ok r2, w3) ->
              Eff.final r = (st', settle r2))
        /\ (forall (e : thrown) (w3 : W),
              o retry (Eff.world_after rr) = (Throw e, w3) ->
              Eff.final r = (st', Throw e))).
Proof.
  intros W o w w1 st url opts r1 first E1 r rr.
  split; [intros h; repeat split; reflexivity|].
  subst first r rr fetchWithAuth refreshAccessToken settle.
  unfold ApiClient.fetchWithAuth. simpl. rewrite E1.
  split; [|split].
  - intros Hs. apply Z.eqb_neq in Hs. rewrite Hs. simpl.
    unfold Eff.final, Eff.asked; simpl. auto.
  - intros Hs Hacc Hfalse. rewrite Hs, Hacc. simpl. rewrite exec_bind.
    destruct (Eff.exec o (ApiClient.refreshAccessToken token_pair refresh_body st) w1)
      as [[[st' refreshed] w2] t] eqn:Er.
    unfold Eff.final in Hfalse; simpl in Hfalse. subst refreshed. simpl.
    unfold Eff.final, Eff.asked; simpl. rewrite app_nil_r.
    split; [reflexivity|]. split; [reflexivity|].
    apply (settle_failed_throws empty_object detail_message r1).
    unfold ok. rewrite Hs. reflexivity.
  - intros Hs Hacc Htrue. rewrite Hs, Hacc. simpl. rewrite exec_bind.
    pose proof (refresh_true_stores token_pair refresh_body o w1 st)
      as Hout.
    destruct (Eff.exec o (ApiClient.refreshAccessToken token_pair refresh_body st) w1)
      as [[[st' refreshed] w2] t] eqn:Er.
    unfold Eff.final in Htrue; simpl in Htrue. subst refreshed. simpl.
    destruct (o (Fetch url
                   (with_headers
                      (set_header (lit "Authorization")
                         (bearer (access_token st'))
                         (first_headers st opts)) opts)) w2)
      as [[r2 | e2] w3] eqn:E3;
      unfold Eff.final, Eff.asked, Eff.world_after; simpl.
    + split; [reflexivity|]. split.
      * destruct (Hout eq_refl) as [a [r' Hst]].
        unfold Eff.final in Hst; simpl in Hst. subst st'.
        exists a. split; [reflexivity|]. rewrite get_set_header_same.
        reflexivity.
      * split.
        -- intros r2' w3' E. rewrite E3 in E. inversion E; subst. reflexivity.
        -- intros e w3' E. rewrite E3 in E. discriminate E.
    + split; [reflexivity|]. split.
      * destruct (Hout eq_refl) as [a [r' Hst]].
        unfold Eff.final in Hst; simpl in Hst. subst st'.
        exists a. split; [reflexivity|]. rewrite get_set_header_same.
        reflexivity.
      * split.
        -- intros r2' w3' E. rewrite E3 in E. discriminate E.
        -- intros e w3' E. rewrite E3 in E. inversion E; subst. reflexivity.
Qed.

End ExpiredTokenFacts.

Lemma refreshAccessToken_outcomes_witness :
  Eff.exec ClientSample.serve
    (ClientSample.refreshAccessToken ApiClient.clearTokens)
    [ClientSample.replied 200 (ClientSample.JTokens (lit "new") (lit "r2"))]
  = ((ApiClient.clearTokens, false),
     [ClientSample.replied 200 (ClientSample.JTokens (lit "new") (lit "r2"))],
     [])
  /\ (let r := Eff.exec ClientSample.serve
                 (ClientSample.refreshAccessToken ClientSample.signed_in)
                 [ClientSample.replied 401 ClientSample.JNull] in
      fst (Eff.final r) = ApiClient.clearTokens)
  /\ (let r := Eff.exec ClientSample.serve
                 (ClientSample.refreshAccessToken ClientSample.signed_in)
                 [ClientSample.replied 200
                    (ClientSample.JTokens (lit "new") (lit "r2"))] in
      exists resp tokens access' refresh' refresh w1,
        ApiClient.refresh_token ClientSample.signed_in = Some refresh
        /\ ClientSample.serve
             (ApiClient.refresh_request ClientSample.refresh_body refresh)
             [ClientSample.replied 200
                (ClientSample.JTokens (lit "new") (lit "r2"))]
           = (Ok resp, w1)
        /\ ApiClient.ok resp = true
        /\ ApiClient.json resp = Ok tokens
        /\ ClientSample.token_pair tokens = Ok (access', refresh')
        /\ fst (Eff.final r) = ApiClient.setTokens access' refresh').
Proof.
  split; [|split].
  - apply (proj1 (@refreshAccessToken_outcomes ClientSample.json_value
                    ClientSample.token_pair ClientSample.refresh_body
                    ClientSample.queue ClientSample.serve
                    [ClientSample.replied 200
                       (ClientSample.JTokens (lit "new") (lit "r2"))]
                    ApiClient.clearTokens)).
    reflexivity.
  - destruct (@refreshAccessToken_outcomes ClientSample.json_value
                ClientSample.token_pair ClientSample.refresh_body
                ClientSample.queue ClientSample.serve
                [ClientSample.replied 401 ClientSample.JNull]
                ClientSample.signed_in) as [_ H].
    destruct (H eq_refl) as [_ [Hfalse _]]. apply Hfalse. reflexivity.
  - destruct (@refreshAccessToken_outcomes ClientSample.json_value
                ClientSample.token_pair ClientSample.refresh_body
                ClientSample.queue ClientSample.serve
                [ClientSample.replied 200
                   (ClientSample.JTokens (lit "new") (lit "r2"))]
                ClientSample.signed_in) as [_ H].
    destruct (H eq_refl) as [_ [_ Htrue]]. apply Htrue. reflexivity.
Defined.

Lemma settle_by_status_witness :
  ApiClient.settle ClientSample.empty_object ClientSample.detail_message
    {| ApiClient.status := 404;
       ApiClient.json := Ok (ClientSample.JDetail (lit "Project not found")) |}
  = Throw (ErrorObj (lit "Project not found"))
  /\ ApiClient.settle ClientSample.empty_object ClientSample.detail_message
       {| ApiClient.status := 204; ApiClient.json := Throw NonError |}
     = Ok ClientSample.empty_object.
Proof.
  split.
  - destruct (@settle_by_status ClientSample.json_value
                ClientSample.empty_object ClientSample.detail_message
                {| ApiClient.status := 404;
                   ApiClient.json :=
                     Ok (ClientSample.JDetail (lit "Project not found")) |})
      as [H _].
    destruct (H eq_refl) as [_ [_ [Hd _]]].
    apply (Hd (ClientSample.JDetail (lit "Project not found"))
              (lit "Project not found")); reflexivity.
  - destruct (@settle_by_status ClientSample.json_value
                ClientSample.empty_object ClientSample.detail_message
                {| ApiClient.status := 204; ApiClient.json := Throw NonError |})
      as [_ [H _]].
    apply H; reflexivity.
Defined.

Lemma fetchWithAuth_requests_witness :
  let world := [ClientSample.replied 401 (ClientSample.JDetail (lit "Not authenticated"))] in
  let r := Eff.exec ClientSample.serve
             (ClientSample.fetchWithAuth ApiClient.clearTokens
                (lit "/api/auth/me") ApiClient.no_options) world in
  Eff.asked r
  = [ApiClient.Fetch (lit "/api/auth/me")
       (ApiClient.with_headers
          (ApiClient.first_headers ApiClient.clearTokens ApiClient.no_options)
          ApiClient.no_options)]
  /\ fst (Eff.final r) = ApiClient.clearTokens
  /\ ApiClient.get_header (lit "Authorization")
       (ApiClient.first_headers ClientSample.signed_in ApiClient.no_options)
     = Some (lit "Bearer old").
Proof.
  intros world r.
  destruct (@fetchWithAuth_requests ClientSample.json_value
              ClientSample.empty_object ClientSample.token_pair
              ClientSample.detail_message ClientSample.refresh_body
              ClientSample.queue ClientSample.serve world
              ApiClient.clearTokens (lit "/api/auth/me") ApiClient.no_options)
    as [_ [_ [_ [H _]]]].
  destruct (H eq_refl) as [Ha [Hs _]].
  split; [exact Ha|]. split; [exact Hs|].
  destruct (@fetchWithAuth_requests ClientSample.json_value
              ClientSample.empty_object ClientSample.token_pair
              ClientSample.detail_message ClientSample.refresh_body
              ClientSample.queue ClientSample.serve world
              ClientSample.signed_in (lit "/api/auth/me") ApiClient.no_options)
    as [_ [_ [H' _]]].
  apply (H' eq_refl).
Defined.

Lemma fetchWithAuth_expired_token_witness :
  let world :=
    [ClientSample.replied 401 (ClientSample.JDetail (lit "Token expired"));
     ClientSample.replied 200 (ClientSample.JTokens (lit "new") (lit "r2"));
     ClientSample.replied 200 (ClientSample.JUser true)] in
  let r := Eff.exec ClientSample.serve
             (ClientSample.fetchWithAuth ClientSample.signed_in
                (lit "/api/auth/me") ApiClient.no_options) world in
  Eff.final r
  = (ApiClient.setTokens (lit "new") (lit "r2"), Ok (ClientSample.JUser true))
  /\ List.length (Eff.asked r) = 3.
Proof.
  intros world r.
  destruct (@fetchWithAuth_expired_token ClientSample.json_value
              ClientSample.empty_object ClientSample.token_pair
              ClientSample.detail_message ClientSample.refresh_body
              ClientSample.queue ClientSample.serve world
              [ClientSample.replied 200 (ClientSample.JTokens (lit "new") (lit "r2"));
               ClientSample.replied 200 (ClientSample.JUser true)]
              ClientSample.signed_in (lit "/api/auth/me") ApiClient.no_options
              {| ApiClient.status := 401;
                 ApiClient.json := Ok (ClientSample.JDetail (lit "Token expired")) |}
              eq_refl) as [_ [_ [_ H]]].
  destruct (H eq_refl eq_refl eq_refl) as [Ha [_ [Hok _]]].
  split.
  - apply (Hok {| ApiClient.status := 200;
                  ApiClient.json := Ok (ClientSample.JUser true) |} []).
    reflexivity.
  - subst r. unfold ClientSample.fetchWithAuth. rewrite Ha. reflexivity.
Defined.

(* ===================================================================== *)
(** ** hooks/useAuth.tsx, components/ProtectedRoute.tsx and the routes of
       App.tsx *)
(* ===================================================================== *)

Module Session.

Import Eff.

(** The [useState] cells of [AuthProvider]. *)
Record state (V : Type) : Type := {
  user : option V;
  profile : option V;
  loading : bool
}.
Arguments user {V} s.
Arguments profile {V} s.
Arguments loading {V} s.

Definition init {V : Type} : state V :=
  {| user := None; profile := None; loading := true |}.

Definition setUser {V : Type} (v : option V) (s : state V) : state V :=
  {| user := v; profile := profile s; loading := loading s |}.

Definition setProfile {V : Type} (v : option V) (s : state V) : state V :=
  {| user := user s; profile := v; loading := loading s |}.

Definition setLoading {V : Type} (v : bool) (s : state V) : state V :=
  {| user := user s; profile := profile s; loading := v |}.

(** What [ProtectedRoute] returns. *)
Inductive guarded : Type :=
| Spinner
| ToLogin            (* <Navigate to="/login" /> *)
| ToVerifyEmail      (* <Navigate to="/verify-email" /> *)
| ToCreateProfile    (* <Navigate to="/create-profile" /> *)
| Children.

(** The routes of App.tsx. *)
Inductive route : Type :=
| Landing | Login | Register | ForgotPassword | ResetPassword | VerifyEmail
| Projects | ProjectDetail | UserProfile
| CreateProfile | NewProject | EditProject | MyProjects
| Applications | ProjectApplications | Collaborations
| Messages | Conversation_ | Notifications | Profile.

(** [Some (requireVerified, requireProfile)] for a route wrapped in
    [ProtectedRoute], [None] for a public one. *)
Definition guard_of (r : route) : option (bool * bool) :=
  match r with
  | Landing | Login | Register | ForgotPassword | ResetPassword | VerifyEmail
  | Projects | ProjectDetail | UserProfile => None
  | CreateProfile | Notifications => Some (false, false)
  | Profile => Some (false, true)
  | NewProject | EditProject | MyProjects | Applications
  | ProjectApplications | Collaborations | Messages | Conversation_ =>
      Some (true, true)
  end.

(** The first gates of [CreateProjectPage]. *)
Inductive form_view : Type :=
| VerificationRequired | CompleteYourProfile | Form.

Section Provider.

Variable V : Type.
Variable empty_object : V.
Variable token_pair : V -> result (str * str).
Variable detail_message : V -> result (option str).
Variable refresh_body : str -> str.

(** Truthiness of a parsed value, for [!user] and [!profile]. *)
Variable truthy_value : V -> bool.

(** Truthiness of [user.email_verified]. *)
Variable email_verified : V -> bool.

(** Truthiness of [profile.full_name], and [profile.skills.length === 0]. *)
Variable has_full_name : V -> bool.
Variable no_skills : V -> bool.

(** [JSON.stringify({ email, password })] and what [authApi.login]
    throws for the parsed body of a failed login. *)
Variable login_body : str -> str -> str.
Variable login_error : V -> thrown.

Abbreviation request := ApiClient.request.
Abbreviation answer := (ApiClient.answer V).
Abbreviation storage := ApiClient.storage.

Definition getMe := ApiClient.getMe empty_object token_pair detail_message refresh_body.
Definition getMyProfile :=
  ApiClient.getMyProfile empty_object token_pair detail_message refresh_body.

Definition refreshUser (s : state V) (tok : storage)
  : prog request answer (state V * storage) :=
  bind (getMe tok) (fun tr =>
    match snd tr with
    | Ok userData => Ret (setUser (Some userData) s, fst tr)
    | Throw _ => Ret (setUser None s, ApiClient.clearTokens)
    end).

Definition refreshProfile (s : state V) (tok : storage)
  : prog request answer (state V * storage) :=
  bind (getMyProfile tok) (fun tr =>
    match snd tr with
    | Ok profileData => Ret (setProfile (Some profileData) s, fst tr)
    | Throw _ => Ret (setProfile None s, fst tr)
    end).

(** The effect run when the provider mounts. *)
Definition init_effect (s : state V) (tok : storage)
  : prog request answer (state V * storage) :=
  if ApiClient.isAuthenticated tok then
    bind (refreshUser s tok) (fun st1 =>
      bind (refreshProfile (fst st1) (snd st1)) (fun st2 =>
        Ret (setLoading false (fst st2), snd st2)))
  else Ret (setLoading false s, tok).

Definition login_request (email password : str) : request :=
  ApiClient.Fetch (ApiClient.API_BASE ++ lit "/auth/login")
    {| ApiClient.method := Some (lit "POST");
       ApiClient.request_headers :=
         [(lit "Content-Type", lit "application/json")];
       ApiClient.body := Some (login_body email password) |}.

(** [authApi.login] *)
Definition authApi_login (tok : storage) (email password : str)
  : prog request answer (storage * result unit) :=
  Ask (login_request email password) (fun a =>
    match a with
    | Throw e => Ret (tok, Throw e)
    | Ok r =>
        if negb (ApiClient.ok r) then
          match ApiClient.json r with
          | Ok error => Ret (tok, Throw (login_error error))
          | Throw e => Ret (tok, Throw e)
          end
        else
          match ApiClient.json r with
          | Ok tokens =>
              match token_pair tokens with
              | Ok (access', refresh') =>
                  Ret (ApiClient.setTokens access' refresh', Ok tt)
              | Throw e => Ret (tok, Throw e)
              end
          | Throw e => Ret (tok, Throw e)
          end
    end).

Definition login (s : state V) (tok : storage) (email password : str)
  : prog request answer (state V * storage * result unit) :=
  bind (authApi_login tok email password) (fun lr =>
    match snd lr with
    | Throw e => Ret (s, fst lr, Throw e)
    | Ok _ =>
        bind (refreshUser s (fst lr)) (fun st1 =>
          bind (refreshProfile (fst st1) (snd st1)) (fun st2 =>
            Ret (fst st2, snd st2, Ok tt)))
    end).

Definition logout (s : state V) : state V * storage :=
  (setProfile None (setUser None s), ApiClient.clearTokens).

(** [!x] for a cell that holds [null] or a parsed value. *)
Definition missing (x : option V) : bool :=
  match x with
  | None => true
  | Some v => negb (truthy_value v)
  end.

(** [!user.email_verified] for the [user] cell, [user?.] included. *)
Definition unverified (x : option V) : bool :=
  match x with
  | None => true
  | Some v => negb (email_verified v)
  end.

Definition ProtectedRoute (requireVerified requireProfile : bool)
           (s : state V) : guarded :=
  if loading s then Spinner
  else if missing (user s) then ToLogin
  else if requireVerified && unverified (user s) then ToVerifyEmail
  else if requireProfile && missing (profile s) then ToCreateProfile
  else Children.

(** What the router shows for a route: the page itself for a public
    route, what the guard returns for a protected one. *)
Definition shows (r : route) (s : state V) : guarded :=
  match guard_of r with
  | None => Children
  | Some (requireVerified, requireProfile) =>
      ProtectedRoute requireVerified requireProfile s
  end.

(** The two early returns of [CreateProjectPage]. *)
Definition CreateProjectPage_view (s : state V) : form_view :=
  if unverified (user s) then VerificationRequired
  else
    match profile s with
    | None => CompleteYourProfile
    | Some p =>
        if negb (truthy_value p) || negb (has_full_name p) || no_skills p
        then CompleteYourProfile
        else Form
    end.

End Provider.

End Session.

(* ===================================================================== *)
(** ** Properties of the session and of the route guard *)
(* ===================================================================== *)

Section SessionFacts.

Import Session.

Variable V : Type.
Variable empty_object : V.
Variable token_pair : V -> result (str * str).
Variable detail_message : V -> result (option str).
Variable refresh_body : str -> str.
Variable truthy_value : V -> bool.
Variable email_verified : V -> bool.
Variable has_full_name : V -> bool.
Variable no_skills : V -> bool.

Let ProtectedRoute := Session.ProtectedRoute truthy_value email_verified.
Let shows := Session.shows truthy_value email_verified.
Let missing := Session.missing truthy_value.
Let unverified := Session.unverified email_verified.
Let CreateProjectPage_view :=
  Session.CreateProjectPage_view truthy_value email_verified has_full_name no_skills.
Let refreshUser :=
  Session.refreshUser empty_object token_pair detail_message refresh_body.
Let refreshProfile :=
  Session.refreshProfile empty_object token_pair detail_message refresh_body.
Let init_effect :=
  Session.init_effect empty_object token_pair detail_message refresh_body.
Let getMe := Session.getMe empty_object token_pair detail_message refresh_body.

Lemma signed_out_shows_login (r : route) (flags : bool * bool) (s : state V) :
  guard_of r = Some flags ->
  loading s = false -> user s = None ->
  shows r s = ToLogin.
Proof.
  intros Hg Hl Hu. subst shows. unfold Session.shows. rewrite Hg.
  destruct flags as [rv rp]. unfold Session.ProtectedRoute.
  rewrite Hl, Hu. reflexivity.
Qed.

Lemma refreshUser_keeps_loading
      (W : Type) (o : forall r : ApiClient.request, W -> ApiClient.answer V r * W)
      (w : W) (s : state V) (tok : ApiClient.storage) :
  loading (fst (Eff.final (Eff.exec o (refreshUser s tok) w))) = loading s
  /\ profile (fst (Eff.final (Eff.exec o (refreshUser s tok) w))) = profile s.
Proof.
  subst refreshUser. unfold Session.refreshUser. rewrite exec_bind.
  destruct (Eff.exec o _ w) as [[[tok' res] w1] t].
  destruct res as [v | e]; simpl; unfold Eff.final; simpl; auto.
Qed.

Lemma refreshProfile_keeps_loading
      (W : Type) (o : forall r : ApiClient.request, W -> ApiClient.answer V r * W)
      (w : W) (s : state V) (tok : ApiClient.storage) :
  loading (fst (Eff.final (Eff.exec o (refreshProfile s tok) w))) = loading s
  /\ user (fst (Eff.final (Eff.exec o (refreshProfile s tok) w))) = user s.
Proof.
  subst refreshProfile. unfold Session.refreshProfile. rewrite exec_bind.
  destruct (Eff.exec o _ w) as [[[tok' res] w1] t].
  destruct res as [v | e]; simpl; unfold Eff.final; simpl; auto.
Qed.

(** X18. The provider's start-up effect always ends with [loading] off.
    When storage holds no access token it makes no request at all and
    leaves the user empty, so every route wrapped in [ProtectedRoute]
    then redirects to /login, while the public routes show their
    page. *)
Theorem session_start :
  forall (W : Type)
         (o : forall r : ApiClient.request, W -> ApiClient.answer V r * W)
         (w : W) (tok : ApiClient.storage),
    let r := Eff.exec o (init_effect Session.init tok) w in
    loading (fst (Eff.final r)) = false
    /\ (ApiClient.isAuthenticated tok = false ->
        Eff.asked r = []
        /\ Eff.final r = (setLoading false Session.init, tok)
        /\ (forall (page : route) (flags : bool * bool),
              guard_of page = Some flags ->
              shows page (fst (Eff.final r)) = ToLogin)
        /\ (forall page : route,
              guard_of page = None ->
              shows page (fst (Eff.final r)) = Children)).
Proof.
  intros W o w tok r. subst r init_effect. unfold Session.init_effect.
  destruct (ApiClient.isAuthenticated tok) eqn:Ha.
  - split; [|discriminate].
    rewrite exec_bind.
    destruct (Eff.exec o (Session.refreshUser empty_object token_pair
                            detail_message refresh_body Session.init tok) w)
      as [[st1 w1] t1].
    rewrite exec_bind.
    destruct (Eff.exec o (Session.refreshProfile empty_object token_pair
                            detail_message refresh_body (fst st1) (snd st1)) w1)
      as [[st2 w2] t2].
    reflexivity.
  - split; [reflexivity|]. intros _.
    unfold Eff.asked, Eff.final; simpl.
    split; [reflexivity|]. split; [reflexivity|]. split.
    + intros page flags Hg. eapply signed_out_shows_login; eauto.
    + intros page Hg. subst shows. unfold Session.shows. rewrite Hg.
      reflexivity.
Qed.

(** X19. [refreshUser] asks for /auth/me through [fetchWithAuth] and
    nothing else.  If that call throws, the user is dropped and both
    tokens are removed from storage, so (once loading is over) every
    protected route redirects to /login; if it gives a value, that value
    becomes the user and storage is as [fetchWithAuth] left it.  The
    profile is not touched either way. *)
Theorem refreshUser_outcomes :
  forall (W : Type)
         (o : forall r : ApiClient.request, W -> ApiClient.answer V r * W)
         (w : W) (s : state V) (tok : ApiClient.storage),
    let g := Eff.exec o (getMe tok) w in
    let r := Eff.exec o (refreshUser s tok) w in
    Eff.asked r = Eff.asked g
    /\ profile (fst (Eff.final r)) = profile s
    /\ (forall e : thrown,
          snd (Eff.final g) = Throw e ->
          Eff.final r = (setUser None s, ApiClient.clearTokens)
          /\ ApiClient.isAuthenticated (snd (Eff.final r)) = false
          /\ (loading s = false ->
              forall (page : route) (flags : bool * bool),
                guard_of page = Some flags ->
                shows page (fst (Eff.final r)) = ToLogin))
    /\ (forall userData : V,
          snd (Eff.final g) = Ok userData ->
          Eff.final r = (setUser (Some userData) s, fst (Eff.final g))).
Proof.
  intros W o w s tok g r. subst g r refreshUser getMe.
  unfold Session.refreshUser. rewrite exec_bind.
  destruct (Eff.exec o (Session.getMe empty_object token_pair detail_message
                          refresh_body tok) w) as [[[tok' res] w1] t].
  unfold Eff.final, Eff.asked; simpl.
  destruct res as [v | e]; simpl.
  - rewrite app_nil_r. split; [reflexivity|]. split; [reflexivity|]. split.
    + intros e H. discriminate H.
    + intros u H. inversion H; subst. reflexivity.
  - rewrite app_nil_r. split; [reflexivity|]. split; [reflexivity|]. split.
    + intros e' _. split; [reflexivity|]. split; [reflexivity|].
      intros Hl page flags Hg.
      eapply signed_out_shows_login; eauto.
    + intros u H. discriminate H.
Qed.

(** X20. [logout] empties the user, the profile and both tokens.  After
    it the client no longer counts as authenticated, a request built by
    [fetchWithAuth] carries no [Authorization] header, and (once loading
    is over) every protected route redirects to /login while public
    routes still show their page. *)
Theorem logout_signs_out :
  forall s : state V,
    let s' := fst (Session.logout s) in
    let tok' := snd (Session.logout s) in
    user s' = None /\ profile s' = None
    /\ tok' = ApiClient.clearTokens
    /\ ApiClient.isAuthenticated tok' = false
    /\ ApiClient.get_header (lit "Authorization")
         (ApiClient.first_headers tok' ApiClient.no_options) = None
    /\ (forall page : route, guard_of page = None -> shows page s' = Children)
    /\ (loading s = false ->
        forall (page : route) (flags : bool * bool),
          guard_of page = Some flags -> shows page s' = ToLogin).
Proof.
  intros s s' tok'. subst s' tok'. simpl.
  repeat split.
  - intros page Hg. subst shows. unfold Session.shows. rewrite Hg. reflexivity.
  - intros Hl page flags Hg. eapply signed_out_shows_login; eauto.
Qed.

(** X21. What [ProtectedRoute] lets through.  It renders its children
    exactly when loading is over, a user is present, the e-mail is
    verified if the route requires it and a profile is present if the
    route requires it; a user who lacks both is sent to /verify-email,
    not to /create-profile.  So the pages for applications, project
    applications, collaborations, messages and the project form are
    rendered only for a verified user with a profile, and the form page
    then never shows its own "Email Verification Required" screen, though
    it may still ask to complete the profile.  The project page is public
    and gives a visitor without a session no apply control. *)
Theorem guard_lets_through :
  (forall (requireVerified requireProfile : bool) (s : state V),
     ProtectedRoute requireVerified requireProfile s = Children
     <-> (loading s = false /\ missing (user s) = false
          /\ (requireVerified = true -> unverified (user s) = false)
          /\ (requireProfile = true -> missing (profile s) = false)))
  /\ (forall s : state V,
        loading s = false -> missing (user s) = false ->
        unverified (user s) = true ->
        ProtectedRoute true true s = ToVerifyEmail)
  /\ (forall (page : route) (s : state V),
        guard_of page = Some (true, true) ->
        shows page s = Children ->
        missing (user s) = false /\ unverified (user s) = false
        /\ missing (profile s) = false)
  /\ (forall s : state V,
        shows NewProject s = Children ->
        CreateProjectPage_view s <> VerificationRequired
        /\ (CreateProjectPage_view s = Form
            <-> exists p, profile s = Some p /\ has_full_name p = true
                          /\ no_skills p = false))
  /\ (forall (s : state V) (st : ProjectDetailPage.state),
        shows ProjectDetail s = Children
        /\ ProjectDetailPage.offered None st ProjectDetailPage.ClickApply = false).
Proof.
  assert (Hiff : forall (requireVerified requireProfile : bool) (s : state V),
     ProtectedRoute requireVerified requireProfile s = Children
     <-> (loading s = false /\ missing (user s) = false
          /\ (requireVerified = true -> unverified (user s) = false)
          /\ (requireProfile = true -> missing (profile s) = false))).
  { intros rv rp s. subst ProtectedRoute missing unverified.
    unfold Session.ProtectedRoute.
    destruct (loading s); [split; [discriminate | intros [H _]; discriminate]|].
    destruct (Session.missing truthy_value (user s));
      [split; [discriminate | intros [_ [H _]]; discriminate]|].
    destruct rv, rp; simpl;
      destruct (Session.unverified email_verified (user s));
      destruct (Session.missing truthy_value (profile s)); simpl;
      split; try discriminate; try (intros _; repeat split; congruence);
      intros [_ [_ [H1 H2]]];
      try (specialize (H1 eq_refl)); try (specialize (H2 eq_refl));
      congruence. }
  split; [exact Hiff|]. split; [|split; [|split]].
  - intros s Hl Hm Hu. subst ProtectedRoute missing unverified.
    unfold Session.ProtectedRoute. rewrite Hl, Hm, Hu. reflexivity.
  - intros page s Hg Hs. subst shows. unfold Session.shows in Hs.
    rewrite Hg in Hs. apply Hiff in Hs.
    destruct Hs as [_ [Hm [Hv Hp]]]. auto.
  - intros s Hs. subst shows. unfold Session.shows in Hs. simpl in Hs.
    apply Hiff in Hs. destruct Hs as [_ [_ [Hv Hp]]].
    specialize (Hv eq_refl). specialize (Hp eq_refl).
    subst CreateProjectPage_view unverified missing.
    unfold Session.CreateProjectPage_view. rewrite Hv.
    destruct (profile s) as [p|] eqn:Ep; simpl in Hp; [|discriminate].
    apply negb_false_iff in Hp. rewrite Hp. simpl.
    split.
    + destruct (negb (has_full_name p) || no_skills p); discriminate.
    + split.
      * intros H. exists p.
        destruct (has_full_name p), (no_skills p); simpl in H;
          try discriminate H; auto.
      * intros [q [Hq [H1 H2]]]. inversion Hq; subst q.
        rewrite H1, H2. reflexivity.
  - intros s st. split; [reflexivity|].
    unfold ProjectDetailPage.offered.
    destruct (ProjectDetailPage.render st); reflexivity.
Qed.

End SessionFacts.

Section LoginFacts.

Import Session.

Variable V : Type.
Variable empty_object : V.
Variable token_pair : V -> result (str * str).
Variable detail_message : V -> result (option str).
Variable refresh_body : str -> str.
Variable login_body : str -> str -> str.
Variable login_error : V -> thrown.

Let login :=
  Session.login empty_object token_pair detail_message refresh_body
    login_body login_error.
Let login_request := Session.login_request login_body.
Let fetchWithAuth :=
  ApiClient.fetchWithAuth empty_object token_pair detail_message refresh_body.

Lemma fetchWithAuth_first_request
      (W : Type) (o : forall r : ApiClient.request, W -> ApiClient.answer V r * W)
      (w : W) (st : ApiClient.storage) (url : str) (opts : ApiClient.options) :
  exists rest,
    Eff.asked (Eff.exec o (fetchWithAuth st url opts) w)
    = ApiClient.Fetch url
        (ApiClient.with_headers (ApiClient.first_headers st opts) opts) :: rest.
Proof.
  subst fetchWithAuth. unfold ApiClient.fetchWithAuth. simpl.
  destruct (o _ w) as [a w1].
  destruct (Eff.exec o _ w1) as [[x w2] t].
  unfold Eff.asked; simpl. eauto.
Qed.

Lemma refreshUser_first_request
      (W : Type) (o : forall r : ApiClient.request, W -> ApiClient.answer V r * W)
      (w : W) (s : state V) (st : ApiClient.storage) :
  exists rest,
    Eff.asked
      (Eff.exec o
         (Session.refreshUser empty_object token_pair detail_message
            refresh_body s st) w)
    = ApiClient.Fetch (ApiClient.API_BASE ++ lit "/auth/me")
        (ApiClient.with_headers
           (ApiClient.first_headers st ApiClient.no_options)
           ApiClient.no_options) :: rest.
Proof.
  unfold Session.refreshUser. rewrite exec_bind.
  destruct (fetchWithAuth_first_request o w st
              (ApiClient.API_BASE ++ lit "/auth/me") ApiClient.no_options)
    as [rest Hrest].
  unfold Session.getMe, ApiClient.getMe. subst fetchWithAuth.
  destruct (Eff.exec o
              (ApiClient.fetchWithAuth empty_object token_pair detail_message
                 refresh_body st
                 (ApiClient.API_BASE ++ lit "/auth/me") ApiClient.no_options) w)
    as [[tr w2] t1].
  unfold Eff.asked in Hrest; cbn [snd] in Hrest. subst t1.
  destruct (snd tr) as [u | e]; cbn [Eff.exec]; unfold Eff.asked; cbn [snd app];
    eauto.
Qed.

(** X22. [login] of the auth provider.  If the login request throws or
    its response is not OK, that request is the only one made, the
    provider's state and the stored tokens stay as they were and the
    call throws.  If the response is OK and its body gives the two
    tokens, they are stored, the call does not throw, and the next
    request is /auth/me, carrying [Bearer <new access token>] when that
    token is a non-empty string. *)
Theorem login_outcomes :
  forall (W : Type)
         (o : forall r : ApiClient.request, W -> ApiClient.answer V r * W)
         (w : W) (s : state V) (tok : ApiClient.storage)
         (email password : str),
    let q := login_request email password in
    let r := Eff.exec o (login s tok email password) w in
    (forall (e : thrown) (w1 : W),
       o q w = (Throw e, w1) -> r = ((s, tok, Throw e), w1, [q]))
    /\ (forall (resp : ApiClient.response V) (w1 : W),
          o q w = (Ok resp, w1) -> ApiClient.ok resp = false ->
          Eff.asked r = [q] /\ fst (Eff.final r) = (s, tok)
          /\ exists e, snd (Eff.final r) = Throw e)
    /\ (forall (resp : ApiClient.response V) (w1 : W) (tokens : V)
               (access' refresh' : str),
          o q w = (Ok resp, w1) -> ApiClient.ok resp = true ->
          ApiClient.json resp = Ok tokens ->
          token_pair tokens = Ok (access', refresh') ->
          let stored := ApiClient.setTokens access' refresh' in
          snd (Eff.final r) = Ok tt
          /\ (exists rest,
                Eff.asked r
                = q :: ApiClient.Fetch (ApiClient.API_BASE ++ lit "/auth/me")
                         (ApiClient.with_headers
                            (ApiClient.first_headers stored ApiClient.no_options)
                            ApiClient.no_options) :: rest)
          /\ (access' <> [] ->
              ApiClient.get_header (lit "Authorization")
                (ApiClient.first_headers stored ApiClient.no_options)
              = Some (lit "Bearer " ++ access'))).
Proof.
  intros W o w s tok email password q r.
  subst q r login login_request. unfold Session.login.
  rewrite exec_bind.
  split; [|split].
  - intros e w1 E. unfold Session.authApi_login. simpl. rewrite E.
    reflexivity.
  - intros resp w1 E Hok. unfold Session.authApi_login. simpl.
    rewrite E, Hok. simpl.
    destruct (ApiClient.json resp) as [error | e]; simpl;
      unfold Eff.asked, Eff.final; simpl; eauto.
  - intros resp w1 tokens a r' E Hok Hj Ht.
    set (stored := ApiClient.setTokens a r').
    assert (EL : Eff.exec o
                   (Session.authApi_login token_pair login_body login_error
                      tok email password) w
                 = ((stored, Ok tt), w1,
                    [Session.login_request login_body email password])).
    { unfold Session.authApi_login. simpl. rewrite E, Hok, Hj, Ht.
      reflexivity. }
    assert (Hh : a <> [] ->
                 ApiClient.get_header (lit "Authorization")
                   (ApiClient.first_headers stored ApiClient.no_options)
                 = Some (lit "Bearer " ++ a)).
    { intros Hne. subst stored. unfold ApiClient.first_headers. simpl.
      destruct a as [|c a']; [congruence|]. reflexivity. }
    rewrite EL. cbn [fst snd]. rewrite exec_bind.
    destruct (refreshUser_first_request o w1 s stored) as [rest Hrest].
    destruct (Eff.exec o
                (Session.refreshUser empty_object token_pair detail_message
                   refresh_body s stored) w1) as [[st1 w2] t1].
    unfold Eff.asked in Hrest; cbn [snd] in Hrest. subst t1.
    rewrite exec_bind.
    destruct (Eff.exec o
                (Session.refreshProfile empty_object token_pair detail_message
                   refresh_body (fst st1) (snd st1)) w2) as [[st2 w3] t2].
    cbn [Eff.exec]. unfold Eff.asked, Eff.final; cbn [fst snd app].
    split; [reflexivity|]. split; [eauto | exact Hh].
Qed.

End LoginFacts.

Module SessionSample.

Import ClientSample.

Definition truthy_value (v : json_value) : bool :=
  match v with
  | JNull => false
  | _ => true
  end.

Definition email_verified (v : json_value) : bool :=
  match v with
  | JUser verified => verified
  | _ => false
  end.

Definition has_full_name (v : json_value) : bool :=
  match v with
  | JProfile full_name _ => truthy full_name
  | _ => false
  end.

Definition no_skills (v : json_value) : bool :=
  match v with
  | JProfile _ skills => Nat.eqb (List.length skills) 0
  | _ => false
  end.

Definition login_body (email password : str) : str :=
  lit "email=" ++ email ++ lit "&password=" ++ password.

Definition login_error (v : json_value) : thrown :=
  match v with
  | JNull => ErrorObj (lit "Cannot read properties of null")
  | JDetail d => ErrorObj (if truthy d then d else lit "Login failed")
  | _ => ErrorObj (lit "Login failed")
  end.

Definition init_effect :=
  Session.init_effect empty_object token_pair detail_message refresh_body.

Definition refreshUser :=
  Session.refreshUser empty_object token_pair detail_message refresh_body.

Definition login :=
  Session.login empty_object token_pair detail_message refresh_body
    login_body login_error.

Definition shows := Session.shows truthy_value email_verified.

Definition ada : json_value := JUser true.

Definition ada_profile : json_value :=
  JProfile (lit "Ada") [lit "Rocq"].

Definition ada_session : Session.state json_value :=
  {| Session.user := Some ada;
     Session.profile := Some ada_profile;
     Session.loading := false |}.

End SessionSample.

Lemma session_start_witness :
  let r := Eff.exec ClientSample.serve
             (SessionSample.init_effect Session.init ApiClient.clearTokens) [] in
  Eff.asked r = []
  /\ SessionSample.shows Session.Applications (fst (Eff.final r))
     = Session.ToLogin
  /\ SessionSample.shows Session.ProjectDetail (fst (Eff.final r))
     = Session.Children.
Proof.
  intros r.
  destruct (@session_start ClientSample.json_value
              ClientSample.empty_object ClientSample.token_pair
              ClientSample.detail_message ClientSample.refresh_body
              SessionSample.truthy_value SessionSample.email_verified
              ClientSample.queue ClientSample.serve []
              ApiClient.clearTokens) as [_ H].
  destruct (H eq_refl) as [Ha [_ [Hp Hq]]].
  split; [exact Ha|]. split.
  - apply (Hp Session.Applications (true, true)). reflexivity.
  - apply (Hq Session.ProjectDetail). reflexivity.
Defined.

Lemma refreshUser_outcomes_witness :
  let world :=
    [ClientSample.replied 401 (ClientSample.JDetail (lit "Token expired"));
     ClientSample.replied 401 (ClientSample.JDetail (lit "Invalid refresh token"))] in
  let r := Eff.exec ClientSample.serve
             (SessionSample.refreshUser SessionSample.ada_session
                ClientSample.signed_in) world in
  Eff.final r
  = (Session.setUser None SessionSample.ada_session, ApiClient.clearTokens)
  /\ SessionSample.shows Session.Messages (fst (Eff.final r)) = Session.ToLogin.
Proof.
  intros world r.
  destruct (@refreshUser_outcomes ClientSample.json_value
              ClientSample.empty_object ClientSample.token_pair
              ClientSample.detail_message ClientSample.refresh_body
              SessionSample.truthy_value SessionSample.email_verified
              ClientSample.queue ClientSample.serve world
              SessionSample.ada_session ClientSample.signed_in)
    as [_ [_ [H _]]].
  destruct (H (ErrorObj (lit "Token expired")) eq_refl) as [Hf [_ Hs]].
  split; [exact Hf|].
  apply (Hs eq_refl Session.Messages (true, true)). reflexivity.
Defined.

Lemma logout_signs_out_witness :
  SessionSample.shows Session.Collaborations SessionSample.ada_session
  = Session.Children
  /\ SessionSample.shows Session.Collaborations
       (fst (Session.logout SessionSample.ada_session))
     = Session.ToLogin.
Proof.
  split; [reflexivity|].
  destruct (@logout_signs_out ClientSample.json_value
              SessionSample.truthy_value SessionSample.email_verified
              SessionSample.ada_session) as [_ [_ [_ [_ [_ [_ H]]]]]].
  apply (H eq_refl Session.Collaborations (true, true)). reflexivity.
Defined.

Lemma guard_lets_through_witness :
  Session.guard_of Session.NewProject = Some (true, true)
  /\ SessionSample.shows Session.NewProject SessionSample.ada_session
     = Session.Children
  /\ Session.unverified SessionSample.email_verified
       (Session.user SessionSample.ada_session) = false
  /\ Session.CreateProjectPage_view SessionSample.truthy_value
       SessionSample.email_verified SessionSample.has_full_name
       SessionSample.no_skills SessionSample.ada_session
     <> Session.VerificationRequired.
Proof.
  destruct (@guard_lets_through ClientSample.json_value
              SessionSample.truthy_value SessionSample.email_verified
              SessionSample.has_full_name SessionSample.no_skills)
    as [_ [_ [H3 [H4 _]]]].
  split; [reflexivity|]. split; [reflexivity|]. split.
  - apply (H3 Session.NewProject SessionSample.ada_session eq_refl eq_refl).
  - apply (H4 SessionSample.ada_session eq_refl).
Defined.

Lemma login_outcomes_witness :
  let q := Session.login_request SessionSample.login_body
             (lit "ada@example.org") (lit "wrong") in
  let world :=
    [ClientSample.replied 401
       (ClientSample.JDetail (lit "Incorrect email or password"))] in
  let r := Eff.exec ClientSample.serve
             (SessionSample.login Session.init ApiClient.clearTokens
                (lit "ada@example.org") (lit "wrong")) world in
  Eff.asked r = [q]
  /\ fst (Eff.final r) = (Session.init, ApiClient.clearTokens).
Proof.
  intros q world r.
  destruct (@login_outcomes ClientSample.json_value
              ClientSample.empty_object ClientSample.token_pair
              ClientSample.detail_message ClientSample.refresh_body
              SessionSample.login_body SessionSample.login_error
              ClientSample.queue ClientSample.serve world
              Session.init ApiClient.clearTokens
              (lit "ada@example.org") (lit "wrong")) as [_ [H _]].
  destruct (H {| ApiClient.status := 401;
                 ApiClient.json :=
                   Ok (ClientSample.JDetail (lit "Incorrect email or password")) |}
              [] eq_refl eq_refl) as [Ha [Hs _]].
  split; [exact Ha | exact Hs].
Defined.

(* ===================================================================== *)
(** ** pages/VerifyEmailPage.tsx *)
(* ===================================================================== *)

Module VerifyEmailPage.

Import Eff.

Record state : Type := {
  otp : str;
  message : str;
  error : str;
  loading : bool;
  sendingEmail : bool;
  devOtp : str
}.

Definition init : state :=
  {| otp := []; message := []; error := []; loading := false;
     sendingEmail := false; devOtp := [] |}.

Definition setOtp (v : str) (st : state) : state :=
  {| otp := v; message := message st; error := error st;
     loading := loading st; sendingEmail := sendingEmail st;
     devOtp := devOtp st |}.

Definition setMessage (v : str) (st : state) : state :=
  {| otp := otp st; message := v; error := error st;
     loading := loading st; sendingEmail := sendingEmail st;
     devOtp := devOtp st |}.

Definition setError (v : str) (st : state) : state :=
  {| otp := otp st; message := message st; error := v;
     loading := loading st; sendingEmail := sendingEmail st;
     devOtp := devOtp st |}.

Definition setLoading (v : bool) (st : state) : state :=
  {| otp := otp st; message := message st; error := error st;
     loading := v; sendingEmail := sendingEmail st;
     devOtp := devOtp st |}.

Definition setSendingEmail (v : bool) (st : state) : state :=
  {| otp := otp st; message := message st; error := error st;
     loading := loading st; sendingEmail := v;
     devOtp := devOtp st |}.

Definition setDevOtp (v : str) (st : state) : state :=
  {| otp := otp st; message := message st; error := error st;
     loading := loading st; sendingEmail := sendingEmail st;
     devOtp := v |}.

(** A code unit the class [\D] does not match: '0' to '9'. *)
Definition is_digit (c : code_unit) : bool :=
  (N.leb 48 c && N.leb c 57)%N.

(** [value.replace(/\D/g, '')] *)
Definition strip_non_digits (v : str) : str := filter is_digit v.

(** The input's [onChange]. *)
Definition onChange (value : str) (st : state) : state :=
  setOtp (strip_non_digits value) st.

(** What the page awaits or calls. *)
Inductive request : Type :=
| VerifyEmail (code : str)
| SendVerificationEmail
| RefreshUser
| Navigate (path : str).

(** The part of the resend answer the page reads. *)
Record sent : Type := { dev_otp : option str }.

Definition answer (r : request) : Type :=
  match r with
  | VerifyEmail _ => result unit
  | SendVerificationEmail => result sent
  | RefreshUser => unit
  | Navigate _ => unit
  end.

Definition handleSendEmail (st : state) : prog request answer state :=
  let st1 := setDevOtp [] (setMessage [] (setError [] (setSendingEmail true st))) in
  Ask SendVerificationEmail (fun a : answer SendVerificationEmail =>
    match a with
    | Ok result =>
        let st2 := setMessage (lit "Verification email sent! Check your inbox.") st1 in
        let st3 :=
          match dev_otp result with
          | Some d => if truthy d then setDevOtp d st2 else st2
          | None => st2
          end in
        Ret (setSendingEmail false st3)
    | Throw err =>
        Ret (setSendingEmail false
               (setError (message_or err (lit "Failed to send email")) st1))
    end).

Definition handleVerify (st : state) : prog request answer state :=
  let st1 := setError [] (setLoading true st) in
  Ask (VerifyEmail (otp st)) (fun a : answer (VerifyEmail (otp st)) =>
    match a with
    | Ok _ =>
        let st2 := setMessage (lit "Email verified successfully!") st1 in
        Ask RefreshUser (fun _ =>
          Ask (Navigate (lit "/projects")) (fun _ =>
            Ret (setLoading false st2)))
    | Throw err =>
        Ret (setLoading false
               (setError (message_or err (lit "Verification failed")) st1))
    end).

(** [disabled] of the two buttons. *)
Definition submit_disabled (st : state) : bool :=
  loading st || negb (Nat.eqb (List.length (otp st)) 6).

Definition resend_disabled (st : state) : bool := sendingEmail st.

(** The states the page can be in: the mount state, an edit of the
    input, and a handler started from a live button and run to its
    end. *)
Inductive reachable : state -> Prop :=
| at_mount : reachable init
| after_change (value : str) (st : state) :
    reachable st -> reachable (onChange value st)
| after_verify (st st' : state) :
    reachable st -> submit_disabled st = false ->
    ends (handleVerify st) st' -> reachable st'
| after_send (st st' : state) :
    reachable st -> resend_disabled st = false ->
    ends (handleSendEmail st) st' -> reachable st'.

End VerifyEmailPage.

Lemma handleVerify_keeps_otp (st st' : VerifyEmailPage.state) :
  Eff.ends (VerifyEmailPage.handleVerify st) st' ->
  VerifyEmailPage.otp st' = VerifyEmailPage.otp st.
Proof.
  unfold VerifyEmailPage.handleVerify. simpl.
  intros [[u | e] H]; simpl in H.
  - destruct H as [_ [_ H]]. subst st'. reflexivity.
  - subst st'. reflexivity.
Qed.

Lemma handleSendEmail_keeps_otp (st st' : VerifyEmailPage.state) :
  Eff.ends (VerifyEmailPage.handleSendEmail st) st' ->
  VerifyEmailPage.otp st' = VerifyEmailPage.otp st.
Proof.
  unfold VerifyEmailPage.handleSendEmail. simpl.
  intros [[r | e] H]; simpl in H.
  - subst st'. destruct (VerifyEmailPage.dev_otp r) as [d|]; [|reflexivity].
    destruct (truthy d); reflexivity.
  - subst st'. reflexivity.
Qed.

(** X23. The verification code.  In every state the page can reach the
    code holds decimal digits only, since the input's [onChange] drops
    every other code unit and no handler writes the code.  The submit
    button is live only for a code of exactly six of them while no
    verification is in flight, and [handleVerify] then first sends that
    very code; it sends no other. *)
Theorem verify_sends_six_digits :
  forall st : VerifyEmailPage.state,
    VerifyEmailPage.reachable st ->
    Forall (fun c => (48 <= c <= 57)%N) (VerifyEmailPage.otp st)
    /\ (forall code,
          Eff.asks (VerifyEmailPage.handleVerify st)
            (VerifyEmailPage.VerifyEmail code) ->
          code = VerifyEmailPage.otp st)
    /\ (VerifyEmailPage.submit_disabled st = false ->
        VerifyEmailPage.loading st = false
        /\ List.length (VerifyEmailPage.otp st) = 6
        /\ exists k,
             VerifyEmailPage.handleVerify st
             = Eff.Ask (VerifyEmailPage.VerifyEmail (VerifyEmailPage.otp st)) k).
Proof.
  intros st Hr. split; [|split].
  - induction Hr as [| value st Hr IH | st st' Hr IH Hd He | st st' Hr IH Hd He].
    + constructor.
    + unfold VerifyEmailPage.onChange, VerifyEmailPage.strip_non_digits. simpl.
      apply Forall_forall. intros c Hc. apply filter_In in Hc.
      destruct Hc as [_ Hc]. unfold VerifyEmailPage.is_digit in Hc.
      apply andb_true_iff in Hc. destruct Hc as [H1 H2].
      apply N.leb_le in H1. apply N.leb_le in H2. lia.
    + rewrite (handleVerify_keeps_otp He). exact IH.
    + rewrite (handleSendEmail_keeps_otp He). exact IH.
  - intros code H. unfold VerifyEmailPage.handleVerify in H. simpl in H.
    destruct H as [H | [[u | e] H]].
    + inversion H. reflexivity.
    + simpl in H. destruct H as [H | [x [H | [y []]]]]; discriminate H.
    + destruct H.
  - intros Hd. unfold VerifyEmailPage.submit_disabled in Hd.
    apply orb_false_iff in Hd. destruct Hd as [Hl Hn].
    apply negb_false_iff in Hn. apply Nat.eqb_eq in Hn.
    split; [exact Hl|]. split; [exact Hn|].
    unfold VerifyEmailPage.handleVerify. eauto.
Qed.

(** X24. How the two handlers of the verification page end.
    [handleVerify] always ends with [loading] off.  If the verification
    call throws, that call is its only request: the user is not
    refreshed, nothing navigates, and the error shown is the thrown
    [Error]'s message or "Verification failed".  If it succeeds, the
    user is refreshed and then the page navigates to /projects, in this
    order, with no error shown.  [handleSendEmail] always ends with
    [sendingEmail] off and makes the one resend request; a failure
    leaves no message and no code on display, and a success shows the
    code only when the answer carries a non-empty one. *)
Theorem verify_page_settles :
  forall (W : Type)
         (o : forall r : VerifyEmailPage.request,
                W -> VerifyEmailPage.answer r * W)
         (w : W) (st : VerifyEmailPage.state),
    let v := Eff.exec o (VerifyEmailPage.handleVerify st) w in
    let s := Eff.exec o (VerifyEmailPage.handleSendEmail st) w in
    let q := VerifyEmailPage.VerifyEmail (VerifyEmailPage.otp st) in
    VerifyEmailPage.loading (Eff.final v) = false
    /\ VerifyEmailPage.sendingEmail (Eff.final s) = false
    /\ Eff.asked s = [VerifyEmailPage.SendVerificationEmail]
    /\ (forall e w1,
          o q w = (Throw e, w1) ->
          Eff.asked v = [q]
          /\ VerifyEmailPage.error (Eff.final v)
             = message_or e (lit "Verification failed")
          /\ VerifyEmailPage.message (Eff.final v) = VerifyEmailPage.message st)
    /\ (forall u w1,
          o q w = (Ok u, w1) ->
          Eff.asked v
          = [q; VerifyEmailPage.RefreshUser;
             VerifyEmailPage.Navigate (lit "/projects")]
          /\ VerifyEmailPage.error (Eff.final v) = []
          /\ VerifyEmailPage.message (Eff.final v)
             = lit "Email verified successfully!")
    /\ (forall e w1,
          o VerifyEmailPage.SendVerificationEmail w = (Throw e, w1) ->
          VerifyEmailPage.error (Eff.final s)
          = message_or e (lit "Failed to send email")
          /\ VerifyEmailPage.message (Eff.final s) = []
          /\ VerifyEmailPage.devOtp (Eff.final s) = [])
    /\ (forall r w1,
          o VerifyEmailPage.SendVerificationEmail w = (Ok r, w1) ->
          VerifyEmailPage.error (Eff.final s) = []
          /\ VerifyEmailPage.message (Eff.final s)
             = lit "Verification email sent! Check your inbox."
          /\ VerifyEmailPage.devOtp (Eff.final s)
             = match VerifyEmailPage.dev_otp r with
               | Some d => d
               | None => []
               end).
Proof.
  intros W o w st v s q. subst v s q.
  unfold VerifyEmailPage.handleVerify, VerifyEmailPage.handleSendEmail.
  cbn [Eff.exec].
  destruct (o (VerifyEmailPage.VerifyEmail (VerifyEmailPage.otp st)) w)
    as [[u | e] w1] eqn:Ev;
    destruct (o VerifyEmailPage.SendVerificationEmail w)
      as [[r | e'] w1'] eqn:Es.
  all: cbn [Eff.exec].
  all: try (destruct (o VerifyEmailPage.RefreshUser w1) as [x1 w2];
            destruct (o (VerifyEmailPage.Navigate (lit "/projects")) w2)
              as [x2 w3]).
  all: unfold Eff.final, Eff.asked; cbn [fst snd].
  all: repeat match goal with |- _ /\ _ => split end.
  all: try reflexivity.
  all: intros a w0 H; try discriminate H; inversion H; subst.
  all: repeat match goal with |- _ /\ _ => split end.
  all: try reflexivity.
  all: destruct (VerifyEmailPage.dev_otp a) as [[|c d]|]; reflexivity.
Qed.

Module VerifySample.

Definition typed : VerifyEmailPage.state :=
  VerifyEmailPage.onChange (lit "12 34-56") VerifyEmailPage.init.

Definition rejecting (r : VerifyEmailPage.request) (w : nat)
  : VerifyEmailPage.answer r * nat :=
  match r with
  | VerifyEmailPage.VerifyEmail _ =>
      (Throw (ErrorObj (lit "Invalid or expired code")), S w)
  | VerifyEmailPage.SendVerificationEmail =>
      (Ok {| VerifyEmailPage.dev_otp := Some (lit "123456") |}, S w)
  | VerifyEmailPage.RefreshUser => (tt, S w)
  | VerifyEmailPage.Navigate _ => (tt, S w)
  end.

End VerifySample.

Lemma verify_sends_six_digits_witness :
  VerifyEmailPage.otp VerifySample.typed = lit "123456"
  /\ exists k,
       VerifyEmailPage.handleVerify VerifySample.typed
       = Eff.Ask (VerifyEmailPage.VerifyEmail (lit "123456")) k.
Proof.
  split; [reflexivity|].
  assert (Hr : VerifyEmailPage.reachable VerifySample.typed)
    by (apply VerifyEmailPage.after_change, VerifyEmailPage.at_mount).
  destruct (verify_sends_six_digits Hr) as [_ [_ H]].
  destruct (H eq_refl) as [_ [_ Hk]]. exact Hk.
Defined.

Lemma verify_page_settles_witness :
  let v := Eff.exec VerifySample.rejecting
             (VerifyEmailPage.handleVerify VerifySample.typed) 0 in
  let s := Eff.exec VerifySample.rejecting
             (VerifyEmailPage.handleSendEmail VerifySample.typed) 0 in
  Eff.asked v = [VerifyEmailPage.VerifyEmail (lit "123456")]
  /\ VerifyEmailPage.error (Eff.final v) = lit "Invalid or expired code"
  /\ VerifyEmailPage.devOtp (Eff.final s) = lit "123456".
Proof.
  intros v s.
  destruct (@verify_page_settles nat VerifySample.rejecting 0 VerifySample.typed)
    as [_ [_ [_ [Hv [_ [_ Hs]]]]]].
  destruct (Hv (ErrorObj (lit "Invalid or expired code")) 1 eq_refl)
    as [Ha [He _]].
  destruct (Hs {| VerifyEmailPage.dev_otp := Some (lit "123456") |} 1 eq_refl)
    as [_ [_ Hd]].
  split; [exact Ha|]. split; [exact He | exact Hd].
Defined.
